(** * Harkaam: a shallow embedding of the scheduler, the response parsers
    and the agent control loops, with the properties of its specification. *)

From Stdlib Require Import String Ascii List Arith Lia Bool Relations.
From stdpp Require Import base gmap strings list pretty.

Import ListNotations.

(** ** Characters and Python string helpers

    Python strings are modelled as [string] over 8-bit characters, read as
    the Latin-1 code points U+0000..U+00FF.  The character classes below are
    those of Python's [str] methods and of [re] on [str] patterns, restricted
    to that range. *)

Module Py.

Definition code (a : ascii) : nat := nat_of_ascii a.

(** [str.isspace] and the [\s] class of [re]. *)
Definition is_space (a : ascii) : bool :=
  let n := code a in
  ((9 <=? n) && (n <=? 13)) || ((28 <=? n) && (n <=? 32)) || (n =? 133) || (n =? 160).

(** [\d]: Unicode decimal digits, which in Latin-1 are 0-9 only. *)
Definition is_digit (a : ascii) : bool :=
  let n := code a in (48 <=? n) && (n <=? 57).

(** [\w]: [str.isalnum] or the underscore. *)
Definition is_word (a : ascii) : bool :=
  let n := code a in
  ((48 <=? n) && (n <=? 57)) || ((65 <=? n) && (n <=? 90)) || ((97 <=? n) && (n <=? 122))
  || (n =? 95) || (n =? 170) || (n =? 178) || (n =? 179) || (n =? 181) || (n =? 185)
  || (n =? 186) || ((188 <=? n) && (n <=? 190)) || ((192 <=? n) && (n <=? 214))
  || ((216 <=? n) && (n <=? 246)) || ((248 <=? n) && (n <=? 255)).

(** [str.lower] on one character. *)
Definition lower_char (a : ascii) : ascii :=
  let n := code a in
  if ((65 <=? n) && (n <=? 90)) || ((192 <=? n) && (n <=? 222) && negb (n =? 215))
  then ascii_of_nat (n + 32) else a.

Definition lower (s : string) : string :=
  string_of_list_ascii (map lower_char (list_ascii_of_string s)).

Fixpoint drop_ws (l : list ascii) : list ascii :=
  match l with
  | [] => []
  | a :: l' => if is_space a then drop_ws l' else l
  end.

(** [str.strip()]. *)
Definition strip (s : string) : string :=
  string_of_list_ascii (rev (drop_ws (rev (drop_ws (list_ascii_of_string s))))).

Fixpoint prefix_b (p l : list ascii) : bool :=
  match p, l with
  | [], _ => true
  | a :: p', b :: l' => Ascii.eqb a b && prefix_b p' l'
  | _ :: _, [] => false
  end.

(** [sub in s]. *)
Definition contains (sub s : string) : bool :=
  let l := list_ascii_of_string s in
  let p := list_ascii_of_string sub in
  existsb (fun i => prefix_b p (skipn i l)) (seq 0 (S (length l))).

(** [s[:n]]. *)
Definition take (n : nat) (s : string) : string :=
  string_of_list_ascii (firstn n (list_ascii_of_string s)).

Definition is_empty (s : string) : bool :=
  match s with EmptyString => true | _ => false end.

Definition sapp (a b : string) : string := String.append a b.

(** Python exceptions that the modelled code raises or propagates. *)
Inductive exn :=
| ValueError (msg : string)
| KeyError (key : string)
| IndexError (msg : string)
| RecursionError
| Raised (msg : string).  (* an exception raised by an external collaborator *)

Inductive res (A : Type) :=
| Ok (a : A)
| Err (e : exn).
Arguments Ok {A} a.
Arguments Err {A} e.

Definition bind {A B : Type} (m : res A) (f : A -> res B) : res B :=
  match m with Ok a => f a | Err e => Err e end.

(** Membership in a [list] used as a Python [set] or as the keys of a [dict]. *)
Definition mem (x : string) (l : list string) : bool := existsb (String.eqb x) l.

(** [set.remove]. *)
Definition remove (x : string) (l : list string) : list string :=
  List.filter (fun y => negb (String.eqb x y)) l.

(** A Python [dict] whose iteration order matters: an association list in
    insertion order with distinct keys. *)
Fixpoint dict_get {V : Type} (k : string) (d : list (string * V)) : option V :=
  match d with
  | [] => None
  | (k', v) :: d' => if String.eqb k k' then Some v else dict_get k d'
  end.

(** [d[k] = v]: an existing key keeps its place, a new one goes last. *)
Fixpoint dict_set {V : Type} (k : string) (v : V) (d : list (string * V)) : list (string * V) :=
  match d with
  | [] => [(k, v)]
  | (k', v') :: d' => if String.eqb k k' then (k, v) :: d' else (k', v') :: dict_set k v d'
  end.

End Py.

(** ** A backtracking matcher for the [re] patterns the code uses

    Continuation-passing backtracking in Python's priority order: the
    alternatives of [|] left to right, greedy repetitions longest first,
    lazy ones shortest first, [?] trying its operand before skipping it.
    Repetitions are of one character class, which is all the patterns of
    the code need. *)

Module Re.

Inductive regex : Type :=
| Eps
| Cls (p : ascii -> bool)
| Rep (p : ascii -> bool) (lo : nat) (greedy : bool)
| Seq (r1 r2 : regex)
| Alt (r1 r2 : regex)
| Opt (r : regex)
| Grp (g : nat) (r : regex)
| Ahead (r : regex)
| EndA.

Definition caps := list (nat * (nat * nat)).

Fixpoint run_len (p : ascii -> bool) (l : list ascii) : nat :=
  match l with
  | [] => 0
  | a :: l' => if p a then S (run_len p l') else 0
  end.

Fixpoint first_some {A B : Type} (f : A -> option B) (l : list A) : option B :=
  match l with
  | [] => None
  | x :: l' => match f x with Some y => Some y | None => first_some f l' end
  end.

(** [$] without MULTILINE: at the end, or before a final newline. *)
Definition at_end (s : list ascii) (i : nat) : bool :=
  (i =? length s)
  || ((S i =? length s) &&
      match nth_error s i with Some a => Ascii.eqb a "010"%char | None => false end).

Fixpoint mt (s : list ascii) (r : regex) (i : nat) (c : caps)
         (k : nat -> caps -> option (nat * caps)) : option (nat * caps) :=
  match r with
  | Eps => k i c
  | Cls p =>
      match nth_error s i with
      | Some a => if p a then k (S i) c else None
      | None => None
      end
  | Rep p lo g =>
      let n := run_len p (skipn i s) in
      let counts := seq lo (S n - lo) in
      first_some (fun m => k (i + m) c) (if g then rev counts else counts)
  | Seq r1 r2 => mt s r1 i c (fun j c' => mt s r2 j c' k)
  | Alt r1 r2 =>
      match mt s r1 i c k with Some x => Some x | None => mt s r2 i c k end
  | Opt r1 =>
      match mt s r1 i c k with Some x => Some x | None => k i c end
  | Grp g r1 => mt s r1 i c (fun j c' => k j ((g, (i, j)) :: c'))
  | Ahead r1 =>
      match mt s r1 i c (fun j c' => Some (j, c')) with
      | Some (_, c') => k i c'
      | None => None
      end
  | EndA => if at_end s i then k i c else None
  end.

Record mres := { m_start : nat; m_end : nat; m_caps : caps }.

Definition match_at (s : list ascii) (r : regex) (i : nat) : option mres :=
  match mt s r i [] (fun j c => Some (j, c)) with
  | Some (j, c) => Some {| m_start := i; m_end := j; m_caps := c |}
  | None => None
  end.

(** [pattern.search(s, pos)]: the leftmost start position that matches. *)
Definition search_from (s : list ascii) (r : regex) (pos : nat) : option mres :=
  first_some (match_at s r) (seq pos (S (length s) - pos)).

Definition search (r : regex) (s : list ascii) : option mres := search_from s r 0.

(** [re.finditer]: successive non-overlapping matches, each search resuming
    at the end of the previous match (the patterns of the code never match
    the empty string; an empty match resumes one position further). *)
Fixpoint finditer_fuel (fuel : nat) (s : list ascii) (r : regex) (pos : nat) : list mres :=
  match fuel with
  | O => []
  | S f =>
      match search_from s r pos with
      | None => []
      | Some m =>
          m :: finditer_fuel f s r
                 (if m_end m =? m_start m then S (m_end m) else m_end m)
      end
  end.

Definition finditer (r : regex) (s : list ascii) : list mres :=
  finditer_fuel (S (S (length s))) s r 0.

Fixpoint cap_lookup (g : nat) (c : caps) : option (nat * nat) :=
  match c with
  | [] => None
  | (g', ij) :: c' => if g =? g' then Some ij else cap_lookup g c'
  end.

(** [m.group(g)], with [""] for a group that did not take part. *)
Definition group (s : list ascii) (m : mres) (g : nat) : string :=
  match cap_lookup g (m_caps m) with
  | Some (a, b) => string_of_list_ascii (firstn (b - a) (skipn a s))
  | None => ""
  end.

(** Building blocks: literals (case-sensitive or IGNORECASE), [.] with and
    without DOTALL, and alternations. *)
Definition lit (w : string) : regex :=
  fold_right (fun a r => Seq (Cls (Ascii.eqb a)) r) Eps (list_ascii_of_string w).

Definition lit_ci (w : string) : regex :=
  fold_right (fun a r => Seq (Cls (fun x => Ascii.eqb (Py.lower_char a) (Py.lower_char x))) r)
             Eps (list_ascii_of_string w).

Definition any_char (a : ascii) : bool := true.
Definition not_nl (a : ascii) : bool := negb (Ascii.eqb a "010"%char).

Fixpoint alts (rs : list regex) : regex :=
  match rs with
  | [] => Eps
  | [r] => r
  | r :: rs' => Alt r (alts rs')
  end.

Fixpoint seqs (rs : list regex) : regex :=
  match rs with
  | [] => Eps
  | [r] => r
  | r :: rs' => Seq r (seqs rs')
  end.

End Re.

(** ** The response parsers ([harkaam/core/parser.py]) *)

Module Parser.
Import Re.

(** ["Label:\s*(.*?)(?:T1|T2|...)"] with DOTALL; [ws] tells whether the
    pattern has the [\s*] after the label. *)
Definition secr (pre : regex) (ws : bool) (terms : list regex) : regex :=
  seqs [pre; (if ws then Rep Py.is_space 0 true else Eps);
        Grp 1 (Rep any_char 0 false); alts terms].

Definition sec (lab : string) (ws : bool) (terms : list regex) : regex :=
  secr (lit lab) ws terms.

(** [m.group(1).strip() if m else ""] for [re.search]. *)
Definition search_group1 (r : regex) (s : list ascii) : string :=
  match search r s with
  | Some m => Py.strip (group s m 1)
  | None => ""
  end.

Definition g1 (s : list ascii) (m : mres) : string := Py.strip (group s m 1).

Definition nonempty (x : string) : bool := negb (Py.is_empty x).

Definition nonempty_list {A} (l : list A) : bool := match l with [] => false | _ => true end.

Definition has {A} (o : option A) : bool := match o with Some _ => true | None => false end.

(** *** ReActParser.parse *)

Record react_cycle := {
  rc_thought : option string;
  rc_action : option string;
  rc_observation : option string }.

Definition empty_react_cycle : react_cycle := {| rc_thought := None; rc_action := None; rc_observation := None |}.

Record react_parsed := {
  r_cycles : list react_cycle;
  r_final_answer : string;
  r_raw_response : string }.

Definition react_final_pat : regex := sec "Final Answer:" true [EndA; lit "Thought:"].
Definition react_thought_pat : regex :=
  sec "Thought:" true [lit "Action:"; lit "Observation:"; lit "Final Answer:"; EndA].
Definition react_action_pat : regex :=
  sec "Action:" true [lit "Observation:"; lit "Thought:"; lit "Final Answer:"; EndA].
Definition react_obs_pat : regex :=
  sec "Observation:" true [lit "Thought:"; lit "Action:"; lit "Final Answer:"; EndA].

Definition react_parse (text : string) : react_parsed :=
  let s := list_ascii_of_string text in
  let final_answer := search_group1 react_final_pat s in
  (* thoughts: each non-empty one replaces the current cycle *)
  let cur1 := fold_left (fun cur m =>
                 let thought := g1 s m in
                 if nonempty thought
                 then {| rc_thought := Some thought; rc_action := None; rc_observation := None |}
                 else cur) (finditer react_thought_pat s) empty_react_cycle in
  (* actions: attached only when the cycle has a thought *)
  let cur2 := fold_left (fun cur m =>
                 let action := g1 s m in
                 if nonempty action && has (rc_thought cur)
                 then {| rc_thought := rc_thought cur; rc_action := Some action;
                         rc_observation := rc_observation cur |}
                 else cur) (finditer react_action_pat s) cur1 in
  (* observations: close the cycle when it has a thought and an action *)
  let '(cycles, cur3) := fold_left (fun '(cycles, cur) m =>
                 let observation := g1 s m in
                 if nonempty observation && has (rc_thought cur) && has (rc_action cur)
                 then (cycles ++ [{| rc_thought := rc_thought cur; rc_action := rc_action cur;
                                     rc_observation := Some observation |}], empty_react_cycle)
                 else (cycles, cur)) (finditer react_obs_pat s) ([], cur2) in
  (* an incomplete cycle is added anyway *)
  let cycles := if has (rc_thought cur3) then cycles ++ [cur3] else cycles in
  {| r_cycles := cycles; r_final_answer := final_answer; r_raw_response := text |}.

(** *** OODAParser.parse *)

Record ooda_loop := {
  o_observation : option string;
  o_orientation : option string;
  o_decision : option string;
  o_action : option string }.

Definition empty_ooda_loop : ooda_loop :=
  {| o_observation := None; o_orientation := None; o_decision := None; o_action := None |}.

Record ooda_parsed := {
  o_loops : list ooda_loop;
  o_final_answer : string;
  o_raw_response : string }.

Definition ooda_final_pat : regex := sec "Final Answer:" true [EndA; lit "Observation:"].
Definition ooda_obs_pat : regex :=
  sec "Observation:" true [lit "Orientation:"; lit "Decision:"; lit "Action:"; lit "Final Answer:"; EndA].
Definition ooda_orient_pat : regex :=
  sec "Orientation:" true [lit "Decision:"; lit "Action:"; lit "Observation:"; lit "Final Answer:"; EndA].
Definition ooda_decision_pat : regex :=
  sec "Decision:" true [lit "Action:"; lit "Observation:"; lit "Orientation:"; lit "Final Answer:"; EndA].
Definition ooda_action_pat : regex :=
  sec "Action:" true [lit "Observation:"; lit "Orientation:"; lit "Decision:"; lit "Final Answer:"; EndA].

Definition ooda_parse (text : string) : ooda_parsed :=
  let s := list_ascii_of_string text in
  let final_answer := search_group1 ooda_final_pat s in
  let cur1 := fold_left (fun cur m =>
                 let x := g1 s m in
                 if nonempty x
                 then {| o_observation := Some x; o_orientation := None; o_decision := None; o_action := None |}
                 else cur) (finditer ooda_obs_pat s) empty_ooda_loop in
  let cur2 := fold_left (fun cur m =>
                 let x := g1 s m in
                 if nonempty x && has (o_observation cur)
                 then {| o_observation := o_observation cur; o_orientation := Some x;
                         o_decision := o_decision cur; o_action := o_action cur |}
                 else cur) (finditer ooda_orient_pat s) cur1 in
  let cur3 := fold_left (fun cur m =>
                 let x := g1 s m in
                 if nonempty x && has (o_observation cur) && has (o_orientation cur)
                 then {| o_observation := o_observation cur; o_orientation := o_orientation cur;
                         o_decision := Some x; o_action := o_action cur |}
                 else cur) (finditer ooda_decision_pat s) cur2 in
  let '(loops, _) := fold_left (fun '(loops, cur) m =>
                 let x := g1 s m in
                 if nonempty x && has (o_observation cur) && has (o_orientation cur) && has (o_decision cur)
                 then (loops ++ [{| o_observation := o_observation cur; o_orientation := o_orientation cur;
                                    o_decision := o_decision cur; o_action := Some x |}], empty_ooda_loop)
                 else (loops, cur)) (finditer ooda_action_pat s) ([], cur3) in
  {| o_loops := loops; o_final_answer := final_answer; o_raw_response := text |}.

(** *** BDIParser.parse *)

Record bdi_cycle := {
  b_beliefs : option string;
  b_desires : option string;
  b_intentions : option string;
  b_execution : option string }.

Definition empty_bdi_cycle : bdi_cycle :=
  {| b_beliefs := None; b_desires := None; b_intentions := None; b_execution := None |}.

Record bdi_parsed := {
  b_cycles : list bdi_cycle;
  b_final_answer : string;
  b_raw_response : string }.

Definition bdi_final_pat : regex := sec "Final Answer:" true [EndA; lit "Beliefs:"].
Definition bdi_beliefs_pat : regex :=
  sec "Beliefs:" true [lit "Desires:"; lit "Intentions:"; lit "Execution:"; lit "Final Answer:"; EndA].
Definition bdi_desires_pat : regex :=
  sec "Desires:" true [lit "Intentions:"; lit "Execution:"; lit "Beliefs:"; lit "Final Answer:"; EndA].
Definition bdi_intentions_pat : regex :=
  sec "Intentions:" true [lit "Execution:"; lit "Beliefs:"; lit "Desires:"; lit "Final Answer:"; EndA].
Definition bdi_execution_pat : regex :=
  sec "Execution:" true [lit "Beliefs:"; lit "Desires:"; lit "Intentions:"; lit "Final Answer:"; EndA].

Definition bdi_parse (text : string) : bdi_parsed :=
  let s := list_ascii_of_string text in
  let final_answer := search_group1 bdi_final_pat s in
  let cur1 := fold_left (fun cur m =>
                 let x := g1 s m in
                 if nonempty x
                 then {| b_beliefs := Some x; b_desires := None; b_intentions := None; b_execution := None |}
                 else cur) (finditer bdi_beliefs_pat s) empty_bdi_cycle in
  let cur2 := fold_left (fun cur m =>
                 let x := g1 s m in
                 if nonempty x && has (b_beliefs cur)
                 then {| b_beliefs := b_beliefs cur; b_desires := Some x;
                         b_intentions := b_intentions cur; b_execution := b_execution cur |}
                 else cur) (finditer bdi_desires_pat s) cur1 in
  let cur3 := fold_left (fun cur m =>
                 let x := g1 s m in
                 if nonempty x && has (b_beliefs cur) && has (b_desires cur)
                 then {| b_beliefs := b_beliefs cur; b_desires := b_desires cur;
                         b_intentions := Some x; b_execution := b_execution cur |}
                 else cur) (finditer bdi_intentions_pat s) cur2 in
  let '(cycles, _) := fold_left (fun '(cycles, cur) m =>
                 let x := g1 s m in
                 if nonempty x && has (b_beliefs cur) && has (b_desires cur) && has (b_intentions cur)
                 then (cycles ++ [{| b_beliefs := b_beliefs cur; b_desires := b_desires cur;
                                     b_intentions := b_intentions cur; b_execution := Some x |}], empty_bdi_cycle)
                 else (cycles, cur)) (finditer bdi_execution_pat s) ([], cur3) in
  {| b_cycles := cycles; b_final_answer := final_answer; b_raw_response := text |}.

(** *** LATParser.parse *)

Record lat_node := {
  l_problem : option string;
  l_branches : option (list (string * string));
  l_selection : option string }.

Definition empty_lat_node : lat_node := {| l_problem := None; l_branches := None; l_selection := None |}.

Record lat_parsed := {
  l_nodes : list lat_node;
  l_final_answer : string;
  l_raw_response : string }.

Definition option_label : regex := seqs [lit "- Option "; Rep Py.is_digit 1 true; lit ":"].

Definition lat_final_pat : regex := sec "Final Answer:" true [EndA; lit "Problem:"].
Definition lat_problem_pat : regex :=
  sec "Problem:" true [lit "Branches:"; lit "Selection:"; lit "Final Answer:"; EndA].
Definition lat_branches_pat : regex :=
  sec "Branches:" false [lit "Selection:"; lit "Problem:"; lit "Final Answer:"; EndA].
Definition lat_option_pat : regex := secr option_label true [lit "  Evaluation:"; EndA].
Definition lat_eval_pat : regex := sec "  Evaluation:" true [option_label; EndA].
Definition lat_selection_pat : regex :=
  sec "Selection:" true [lit "Problem:"; lit "Branches:"; lit "Final Answer:"; EndA].

(** The branches of one [Branches:] section: options and evaluations paired
    up to the shorter of the two lists. *)
Definition lat_branches (branches_text : string) : list (string * string) :=
  let b := list_ascii_of_string branches_text in
  let options := map (g1 b) (finditer lat_option_pat b) in
  let evaluations := map (g1 b) (finditer lat_eval_pat b) in
  combine options evaluations.

Definition lat_parse (text : string) : lat_parsed :=
  let s := list_ascii_of_string text in
  let final_answer := search_group1 lat_final_pat s in
  let cur1 := fold_left (fun cur m =>
                 let x := g1 s m in
                 if nonempty x
                 then {| l_problem := Some x; l_branches := None; l_selection := None |}
                 else cur) (finditer lat_problem_pat s) empty_lat_node in
  let cur2 := fold_left (fun cur m =>
                 let branches := lat_branches (g1 s m) in
                 if nonempty_list branches && has (l_problem cur)
                 then {| l_problem := l_problem cur; l_branches := Some branches;
                         l_selection := l_selection cur |}
                 else cur) (finditer lat_branches_pat s) cur1 in
  let '(nodes, _) := fold_left (fun '(nodes, cur) m =>
                 let x := g1 s m in
                 if nonempty x && has (l_problem cur) && has (l_branches cur)
                 then (nodes ++ [{| l_problem := l_problem cur; l_branches := l_branches cur;
                                    l_selection := Some x |}], empty_lat_node)
                 else (nodes, cur)) (finditer lat_selection_pat s) ([], cur2) in
  {| l_nodes := nodes; l_final_answer := final_answer; l_raw_response := text |}.

(** *** RAISEParser.parse and ReWOOParser.parse *)

Definition step_label : regex := seqs [lit "  Step "; Rep Py.is_digit 1 true; lit ":"].
Definition step_pat : regex := secr step_label true [step_label; EndA].

Definition steps_of (pad : string) : list string :=
  if nonempty pad
  then let p := list_ascii_of_string pad in map (g1 p) (finditer step_pat p)
  else [].

Record raise_parsed := {
  ra_task_analysis : string;
  ra_relevant_examples : string;
  ra_scratch_raw : string;
  ra_scratch_steps : list string;
  ra_final_answer : string;
  ra_raw_response : string }.

Definition raise_parse (text : string) : raise_parsed :=
  let s := list_ascii_of_string text in
  let task_analysis := search_group1 (sec "Task Analysis:" true
        [lit "Relevant Examples:"; lit "Scratch Pad:"; lit "Final Answer:"; EndA]) s in
  let examples := search_group1 (sec "Relevant Examples:" true
        [lit "Scratch Pad:"; lit "Task Analysis:"; lit "Final Answer:"; EndA]) s in
  let scratch_pad := search_group1 (sec "Scratch Pad:" false
        [lit "Final Answer:"; lit "Task Analysis:"; lit "Relevant Examples:"; EndA]) s in
  let final_answer := search_group1 (sec "Final Answer:" true
        [EndA; lit "Task Analysis:"; lit "Relevant Examples:"; lit "Scratch Pad:"]) s in
  {| ra_task_analysis := task_analysis; ra_relevant_examples := examples;
     ra_scratch_raw := scratch_pad; ra_scratch_steps := steps_of scratch_pad;
     ra_final_answer := final_answer; ra_raw_response := text |}.

Record rewoo_parsed := {
  rw_problem_analysis : string;
  rw_reasoning_raw : string;
  rw_reasoning_steps : list string;
  rw_conclusion : string;
  rw_final_answer : string;
  rw_raw_response : string }.

Definition rewoo_parse (text : string) : rewoo_parsed :=
  let s := list_ascii_of_string text in
  let analysis := search_group1 (sec "Problem Analysis:" true
        [lit "Reasoning:"; lit "Conclusion:"; lit "Final Answer:"; EndA]) s in
  let reasoning := search_group1 (sec "Reasoning:" false
        [lit "Conclusion:"; lit "Problem Analysis:"; lit "Final Answer:"; EndA]) s in
  let conclusion := search_group1 (sec "Conclusion:" true
        [lit "Final Answer:"; lit "Problem Analysis:"; lit "Reasoning:"; EndA]) s in
  let final_answer := search_group1 (sec "Final Answer:" true
        [EndA; lit "Problem Analysis:"; lit "Reasoning:"; lit "Conclusion:"]) s in
  {| rw_problem_analysis := analysis; rw_reasoning_raw := reasoning;
     rw_reasoning_steps := steps_of reasoning; rw_conclusion := conclusion;
     rw_final_answer := final_answer; rw_raw_response := text |}.

(** *** create_parser and the dispatch on the parser class *)

Inductive parser := ReActParser | OODAParser | BDIParser | LATParser | RAISEParser | ReWOOParser.

Inductive parsed :=
| PReAct (r : react_parsed)
| POODA (r : ooda_parsed)
| PBDI (r : bdi_parsed)
| PLAT (r : lat_parsed)
| PRAISE (r : raise_parsed)
| PReWOO (r : rewoo_parsed).

Definition parse (p : parser) (text : string) : parsed :=
  match p with
  | ReActParser => PReAct (react_parse text)
  | OODAParser => POODA (ooda_parse text)
  | BDIParser => PBDI (bdi_parse text)
  | LATParser => PLAT (lat_parse text)
  | RAISEParser => PRAISE (raise_parse text)
  | ReWOOParser => PReWOO (rewoo_parse text)
  end.

(** The ["raw_response"] entry of the returned dictionary. *)
Definition raw_response (r : parsed) : string :=
  match r with
  | PReAct x => r_raw_response x
  | POODA x => o_raw_response x
  | PBDI x => b_raw_response x
  | PLAT x => l_raw_response x
  | PRAISE x => ra_raw_response x
  | PReWOO x => rw_raw_response x
  end.

(** [create_parser]: [None] is the [ValueError] for an unknown architecture. *)
Definition create_parser (architecture : string) : option parser :=
  let a := Py.lower architecture in
  if String.eqb a "react" then Some ReActParser
  else if String.eqb a "ooda" then Some OODAParser
  else if String.eqb a "bdi" then Some BDIParser
  else if String.eqb a "lat" then Some LATParser
  else if String.eqb a "raise" then Some RAISEParser
  else if String.eqb a "rewoo" then Some ReWOOParser
  else None.

Definition parser_tags : list string := ["react"; "ooda"; "bdi"; "lat"; "raise"; "rewoo"].

End Parser.

(** ** The workflow scheduler ([harkaam/system/workflow.py]) *)

Module Workflow.
Import Py.

Section Workflow.

(** The values held by the input and result dictionaries. *)
Context {Value : Type}.

Record WorkflowNode := {
  id : string;
  agent_id : string;
  name : string;
  description : string;
  dependencies : list string;
  condition : option (gmap string Value -> bool);
  transform_input : option (gmap string Value -> gmap string Value);
  transform_output : option (Value -> Value) }.

(** [self.nodes] (a dict in insertion order) and the keys of [self.agents]. *)
Record Workflow := {
  nodes : list (string * WorkflowNode);
  agents : list string }.

(** One call [agent.run(task, context=...)] made by [execute]. *)
Record Call := { call_agent : string; call_task : string; call_context : gmap string Value }.

(** The agents' [run] method: given the calls made so far, the agent id, the
    task and the context, it returns a result or raises. *)
Variable run : list Call -> string -> string -> gmap string Value -> res Value.

Definition add_agent (w : Workflow) (agent : string) : Workflow :=
  {| nodes := nodes w;
     agents := if mem agent (agents w) then agents w else agents w ++ [agent] |}.

(** [add_node]; [new_id] is the [uuid4] string drawn for the node. *)
Definition add_node (w : Workflow) (new_id : string) (agent : string) (name : string)
    (description : string) (dependencies : option (list string))
    (condition : option (gmap string Value -> bool))
    (transform_input : option (gmap string Value -> gmap string Value))
    (transform_output : option (Value -> Value)) : Workflow * string :=
  let w1 := if mem agent (agents w) then w else add_agent w agent in
  let node := {| id := new_id; agent_id := agent; name := name; description := description;
                 dependencies := match dependencies with Some l => l | None => [] end;
                 condition := condition; transform_input := transform_input;
                 transform_output := transform_output |} in
  ({| nodes := dict_set new_id node (nodes w1); agents := agents w1 |}, new_id).

(** *** _validate *)

(** The loop [for dep_id in self.nodes[node_id].dependencies] of
    [has_cycle] (and of [visit] below), given the recursive call. *)
Fixpoint cycle_deps (hc : list string -> list string -> string -> res (bool * list string * list string))
    (deps : list string) (temp visited : list string) : res (bool * list string * list string) :=
  match deps with
  | [] => Ok (false, temp, visited)
  | d :: ds =>
      match hc temp visited d with
      | Err e => Err e
      | Ok (true, t, v) => Ok (true, t, v)
      | Ok (false, t, v) => cycle_deps hc ds t v
      end
  end.

(** [has_cycle], with the [temp] and [visited] sets threaded through; the
    recursion depth is bounded by [fuel] (running out is a [RecursionError]). *)
Fixpoint has_cycle (fuel : nat) (ns : list (string * WorkflowNode))
    (temp visited : list string) (node_id : string) : res (bool * list string * list string) :=
  match fuel with
  | O => Err RecursionError
  | S f =>
      if mem node_id temp then Ok (true, temp, visited)
      else if mem node_id visited then Ok (false, temp, visited)
      else
        let temp := node_id :: temp in
        match dict_get node_id ns with
        | None => Err (KeyError node_id)
        | Some n =>
            match cycle_deps (has_cycle f ns) (dependencies n) temp visited with
            | Err e => Err e
            | Ok (true, t, v) => Ok (true, t, v)
            | Ok (false, t, v) => Ok (false, remove node_id t, node_id :: v)
            end
        end
  end.

(** [for node_id in self.nodes: if has_cycle(node_id): raise ...]. *)
Fixpoint check_cycles (fuel : nat) (ns : list (string * WorkflowNode)) (ids : list string)
    (temp visited : list string) : res unit :=
  match ids with
  | [] => Ok tt
  | i :: ids' =>
      match has_cycle fuel ns temp visited i with
      | Err e => Err e
      | Ok (true, _, _) => Err (ValueError "Circular dependency detected in workflow")
      | Ok (false, t, v) => check_cycles fuel ns ids' t v
      end
  end.

Definition fuel_of (w : Workflow) : nat := S (length (nodes w)).

(** The nested loops [for node in self.nodes.values(): for dep_id in
    node.dependencies: if dep_id not in self.nodes: ...]: the first node and
    dependency found. *)
Fixpoint first_dangling (ids : list string) (ns : list (string * WorkflowNode))
    : option (WorkflowNode * string) :=
  match ns with
  | [] => None
  | (_, n) :: ns' =>
      match find (fun d => negb (mem d ids)) (dependencies n) with
      | Some d => Some (n, d)
      | None => first_dangling ids ns'
      end
  end.

Definition validate (w : Workflow) : res unit :=
  match find (fun '(_, n) => negb (mem (agent_id n) (agents w))) (nodes w) with
  | Some (_, n) => Err (ValueError (sapp "Node " (sapp (name n) (sapp " references non-existent agent " (agent_id n)))))
  | None =>
      match first_dangling (map fst (nodes w)) (nodes w) with
      | Some (n, dep_id) =>
          Err (ValueError (sapp "Node " (sapp (name n) (sapp " depends on non-existent node " dep_id))))
      | None => check_cycles (fuel_of w) (nodes w) (map fst (nodes w)) [] []
      end
  end.

(** *** _get_execution_order

    [visited] is always the set of the elements of [result], so membership
    in [visited] is membership in [result]. *)
Fixpoint visit_deps (vis : list string -> list string -> string -> res (list string * list string))
    (deps : list string) (temp result : list string) : res (list string * list string) :=
  match deps with
  | [] => Ok (temp, result)
  | d :: ds =>
      match vis temp result d with
      | Err e => Err e
      | Ok (t, r) => visit_deps vis ds t r
      end
  end.

Fixpoint visit (fuel : nat) (ns : list (string * WorkflowNode))
    (temp result : list string) (node_id : string) : res (list string * list string) :=
  match fuel with
  | O => Err RecursionError
  | S f =>
      if mem node_id temp then Err (ValueError "Circular dependency detected")
      else if mem node_id result then Ok (temp, result)
      else
        let temp := node_id :: temp in
        match dict_get node_id ns with
        | None => Err (KeyError node_id)
        | Some n =>
            match visit_deps (visit f ns) (dependencies n) temp result with
            | Err e => Err e
            | Ok (t, r) => Ok (remove node_id t, r ++ [node_id])
            end
        end
  end.

Fixpoint order_loop (fuel : nat) (ns : list (string * WorkflowNode)) (ids : list string)
    (temp result : list string) : res (list string) :=
  match ids with
  | [] => Ok result
  | i :: ids' =>
      if mem i result then order_loop fuel ns ids' temp result
      else match visit fuel ns temp result i with
           | Err e => Err e
           | Ok (t, r) => order_loop fuel ns ids' t r
           end
  end.

Definition get_execution_order (w : Workflow) : res (list string) :=
  order_loop (fuel_of w) (nodes w) (map fst (nodes w)) [] [].

(** *** execute *)

(** [node_input = {**input_data}] then one entry per computed dependency. *)
Fixpoint collect_inputs (ns : list (string * WorkflowNode)) (results : gmap string Value)
    (deps : list string) (node_input : gmap string Value) : res (gmap string Value) :=
  match deps with
  | [] => Ok node_input
  | d :: ds =>
      match results !! d with
      | Some r =>
          match dict_get d ns with
          | Some dn => collect_inputs ns results ds (<[name dn := r]> node_input)
          | None => Err (KeyError d)
          end
      | None => collect_inputs ns results ds node_input
      end
  end.

Definition task_description (n : WorkflowNode) : string :=
  let t := sapp (name n) (sapp ": " (description n)) in
  if is_empty (strip t) then sapp "Execute task for node " (name n) else t.

Fixpoint exec_loop (w : Workflow) (input_data : gmap string Value) (order : list string)
    (results : gmap string Value) (log : list Call) : res (gmap string Value) * list Call :=
  match order with
  | [] => (Ok results, log)
  | node_id :: order' =>
      match dict_get node_id (nodes w) with
      | None => (Err (KeyError node_id), log)
      | Some n =>
          let skip := match condition n with
                      | Some c => negb (c (results ∪ input_data))
                      | None => false
                      end in
          if skip then exec_loop w input_data order' results log
          else
            match collect_inputs (nodes w) results (dependencies n) input_data with
            | Err e => (Err e, log)
            | Ok node_input =>
                let node_input := match transform_input n with
                                  | Some f => f node_input
                                  | None => node_input
                                  end in
                if negb (mem (agent_id n) (agents w)) then (Err (KeyError (agent_id n)), log)
                else
                  let task := task_description n in
                  let call := {| call_agent := agent_id n; call_task := task; call_context := node_input |} in
                  match run log (agent_id n) task node_input with
                  | Err e => (Err e, log ++ [call])
                  | Ok result =>
                      let out := match transform_output n with
                                 | Some f => f result
                                 | None => result
                                 end in
                      exec_loop w input_data order' (<[node_id := out]> results) (log ++ [call])
                  end
            end
      end
  end.

(** [Workflow.execute]; [log] is the list of agent calls made before. *)
Definition execute (w : Workflow) (input_data : option (gmap string Value)) (log : list Call)
    : res (gmap string Value) * list Call :=
  let input_data := match input_data with Some d => d | None => ∅ end in
  match validate w with
  | Err e => (Err e, log)
  | Ok _ =>
      match get_execution_order w with
      | Err e => (Err e, log)
      | Ok order => exec_loop w input_data order ∅ log
      end
  end.

(** *** The dependency graph *)

(** [a] depends directly on [b]. *)
Definition edge (w : Workflow) (a b : string) : Prop :=
  exists n, dict_get a (nodes w) = Some n /\ In b (dependencies n).

(** Some node lists a dependency id that is not a node id. *)
Definition has_dangling_dependency (w : Workflow) : Prop :=
  exists k n d, In (k, n) (nodes w) /\ In d (dependencies n) /\ ~ In d (map fst (nodes w)).

(** Some node depends transitively on itself. *)
Definition has_cycle_rel (w : Workflow) : Prop :=
  exists a, clos_trans string (edge w) a a.

(** A list in which the dependencies of each element occur after it. *)
Fixpoint ordered (ns : list (string * WorkflowNode)) (v : list string) : Prop :=
  match v with
  | [] => True
  | x :: v' =>
      (forall n, dict_get x ns = Some n -> forall d, In d (dependencies n) -> In d v')
      /\ ordered ns v'
  end.

End Workflow.
End Workflow.

(** ** The agents' control loops ([harkaam/agents]) *)

Module Agents.
Import Py Re Parser.

(** *** _check_completion of the OODA, BDI and RAISE agents

    The three methods share their last lines word for word: the run is
    complete when [yes] or [complete] occurs in the first 100 characters of
    the lowered response; the final answer is the stripped response,
    narrowed to the text captured after [final answer], and an optional
    colon, by an IGNORECASE and DOTALL search, when complete and when the
    search succeeds. *)

Definition final_answer_pat : regex :=
  seqs [lit_ci "final answer"; Opt (lit ":"); Grp 1 (Rep any_char 0 true)].

Definition completion_signal (response : string) : bool :=
  contains "yes" (take 100 (lower response)) || contains "complete" (take 100 (lower response)).

Definition check_completion (response : string) : bool * string :=
  let is_complete := completion_signal response in
  let final_answer := strip response in
  if is_complete then
    let s := list_ascii_of_string final_answer in
    match search final_answer_pat s with
    | Some m => (true, strip (group s m 1))
    | None => (true, final_answer)
    end
  else (false, final_answer).

(** The same output described in words: the text after the first
    occurrence of ["final answer"] in any letter case, less one colon right
    after it. *)
Fixpoint prefix_ci (w l : list ascii) : bool :=
  match w, l with
  | [], _ => true
  | a :: w', b :: l' => Ascii.eqb (lower_char a) (lower_char b) && prefix_ci w' l'
  | _ :: _, [] => false
  end.

Fixpoint after_ci (w l : list ascii) : option (list ascii) :=
  if prefix_ci w l then Some (skipn (length w) l)
  else match l with
       | [] => None
       | _ :: l' => after_ci w l'
       end.

Definition drop_colon (l : list ascii) : list ascii :=
  match l with
  | a :: l' => if Ascii.eqb a ":"%char then l' else l
  | [] => []
  end.

Definition text_after_marker (t : string) : option string :=
  match after_ci (list_ascii_of_string "final answer") (list_ascii_of_string t) with
  | Some rest => Some (string_of_list_ascii (drop_colon rest))
  | None => None
  end.

(** *** String helpers of the agents *)

Definition nonempty_s (s : string) : bool := negb (is_empty s).

(** [sep.join(l)]. *)
Fixpoint join (sep : string) (l : list string) : string :=
  match l with
  | [] => ""
  | [x] => x
  | x :: l' => sapp x (sapp sep (join sep l'))
  end.

(** [str.upper] on one character; [ß], [µ] and [ÿ] have upper forms outside
    one character of Latin-1 and are left alone (the code only upper-cases
    ASCII architecture names and step types). *)
Definition upper_char (a : ascii) : ascii :=
  let n := code a in
  if ((97 <=? n) && (n <=? 122)) || ((224 <=? n) && (n <=? 254) && negb (n =? 247))
  then ascii_of_nat (n - 32) else a.

Definition upper (s : string) : string :=
  string_of_list_ascii (map upper_char (list_ascii_of_string s)).

Definition startswith (s p : string) : bool :=
  prefix_b (list_ascii_of_string p) (list_ascii_of_string s).

Definition endswith (s p : string) : bool :=
  prefix_b (rev (list_ascii_of_string p)) (rev (list_ascii_of_string s)).

(** [s.split(sep, 1)]: [None] when [sep] does not occur (a one-element
    list in Python), else the text before and after its first occurrence. *)
Fixpoint split_once_aux (sep : list ascii) (l : list ascii) (before : list ascii)
    : option (list ascii * list ascii) :=
  if prefix_b sep l then Some (rev before, skipn (length sep) l)
  else match l with
       | [] => None
       | a :: l' => split_once_aux sep l' (a :: before)
       end.

Definition split_once (s sep : string) : option (string * string) :=
  match split_once_aux (list_ascii_of_string sep) (list_ascii_of_string s) [] with
  | Some (a, b) => Some (string_of_list_ascii a, string_of_list_ascii b)
  | None => None
  end.

(** The line boundaries of [str.splitlines] in Latin-1. *)
Definition is_line_break (a : ascii) : bool :=
  let n := code a in
  (n =? 10) || (n =? 11) || (n =? 12) || (n =? 13) || (n =? 28) || (n =? 29) || (n =? 30)
  || (n =? 133).

(** [str.splitlines(keepends=True)]; ["\r\n"] is one boundary. *)
Fixpoint splitlines_aux (l : list ascii) (cur : list ascii) : list (list ascii) :=
  match l with
  | [] => match cur with [] => [] | _ => [rev cur] end
  | a :: l' =>
      if Ascii.eqb a "013"%char then
        match l' with
        | b :: l'' => if Ascii.eqb b "010"%char then rev (b :: a :: cur) :: splitlines_aux l'' []
                      else rev (a :: cur) :: splitlines_aux l' []
        | [] => rev (a :: cur) :: splitlines_aux l' []
        end
      else if is_line_break a then rev (a :: cur) :: splitlines_aux l' []
      else splitlines_aux l' (a :: cur)
  end.

(** [textwrap.indent(text, prefix)]: the prefix goes before every line that
    is not blank. *)
Definition indent (text prefix : string) : string :=
  fold_right sapp ""
    (map (fun line => let s := string_of_list_ascii line in
                      if is_empty (strip s) then s else sapp prefix s)
         (splitlines_aux (list_ascii_of_string text) [])).

Fixpoint repeat_str (s : string) (n : nat) : string :=
  match n with O => "" | S n' => sapp s (repeat_str s n') end.

(** [f"{n}"] for a natural number. *)
Definition str_nat (n : nat) : string := pretty n.

(** *** Results *)

(** One entry of [intermediate_steps]: its [type], its [content] and the
    other keys some agents add ([observation], [depth]). *)
Record step := { st_type : string; st_content : string; st_extra : list (string * string) }.

Definition mk_step (ty content : string) : step := {| st_type := ty; st_content := content; st_extra := [] |}.

(** The values of the [metadata] dict. *)
Inductive meta := MStr (s : string) | MNat (n : nat).

Definition meta_str (m : meta) : string := match m with MStr s => s | MNat n => str_nat n end.

(** [AgentResult]; [final_state] mirrors the agent's history and is not
    modelled. *)
Record agent_result := {
  agent_id : string;
  output : string;
  intermediate_steps : list step;
  metadata : list (string * meta) }.

(** [metadata.get(key, default)], printed. *)
Definition meta_get (md : list (string * meta)) (key default : string) : string :=
  match dict_get key md with Some m => meta_str m | None => default end.

(** [AgentResult.format_output(verbose)]. *)
Definition format_output (r : agent_result) (verbose : bool) : string :=
  let head := sapp "Result from " (sapp (upper (meta_get (metadata r) "architecture" "Agent"))
                (sapp " Agent:" (String "010" EmptyString))) in
  let nl := String "010" EmptyString in
  let formatted := sapp head (sapp (repeat_str "=" 80) (sapp nl nl)) in
  let formatted := sapp formatted (sapp "ANSWER:" (sapp nl (sapp (output r) (sapp nl nl)))) in
  let formatted :=
    if verbose then
      sapp formatted (sapp "THINKING PROCESS:" (sapp nl (sapp (repeat_str "-" 40) (sapp nl
        (fold_right sapp ""
          (map (fun st => let step_type := upper (st_type st) in
                          if nonempty_s step_type && nonempty_s (st_content st)
                          then sapp step_type (sapp ":" (sapp nl (sapp (indent (st_content st) "  ") (sapp nl nl))))
                          else "")
               (intermediate_steps r)))))))
    else formatted in
  sapp formatted (sapp (repeat_str "-" 40) (sapp nl
    (sapp "Iterations: " (sapp (meta_get (metadata r) "iterations" "0") nl)))).

(** *** The stage extractors *)

Definition ooda_field (stage : string) (l : ooda_loop) : option string :=
  if String.eqb stage "observation" then o_observation l
  else if String.eqb stage "orientation" then o_orientation l
  else if String.eqb stage "decision" then o_decision l
  else if String.eqb stage "action" then o_action l
  else None.

(** [<Label>(?:s)?:\s*] then the lazy group [.*?] (DOTALL) up to [next]. *)
Definition label_pat (label : string) (next : regex) : regex :=
  seqs [lit label; Opt (lit "s"); lit ":"; Rep is_space 0 true;
        Grp 1 (Rep any_char 0 false); next].

(** The [stage_patterns] of [OODAAgent._extract_content]. *)
Definition ooda_stage_pattern (stage : string) : option regex :=
  if String.eqb stage "observation" then Some (label_pat "Observation" (alts [lit "Orientation:"; EndA]))
  else if String.eqb stage "orientation" then Some (label_pat "Orientation" (alts [lit "Decision:"; EndA]))
  else if String.eqb stage "decision" then Some (label_pat "Decision" (alts [lit "Action:"; EndA]))
  else if String.eqb stage "action" then Some (label_pat "Action" EndA)
  else None.

(** [OODAAgent._extract_content]. *)
Definition ooda_extract (response stage : string) : string :=
  let parsed := ooda_parse response in
  let content :=
    match find (fun l => has (ooda_field stage l)) (o_loops parsed) with
    | Some l => match ooda_field stage l with Some x => x | None => "" end
    | None => ""
    end in
  let content :=
    if is_empty content then
      match ooda_stage_pattern stage with
      | Some r =>
          let s := list_ascii_of_string (o_raw_response parsed) in
          match search r s with Some m => strip (group s m 1) | None => content end
      | None => content
      end
    else content in
  if is_empty content then response else content.

(** The keys of a BDI cycle are [beliefs], [desires], [intentions] and
    [execution]; [actions] is none of them. *)
Definition bdi_field (section_type : string) (c : bdi_cycle) : option string :=
  if String.eqb section_type "beliefs" then b_beliefs c
  else if String.eqb section_type "desires" then b_desires c
  else if String.eqb section_type "intentions" then b_intentions c
  else if String.eqb section_type "execution" then b_execution c
  else None.

(** The [patterns] of [BDIAgent._extract_section]; the label's plural [s]
    is optional. *)
Definition bdi_section_pattern (section_type : string) : option regex :=
  if String.eqb section_type "beliefs" then
    Some (label_pat "Belief" (alts [lit "Desire"; lit "Intention"; lit "Action"; EndA]))
  else if String.eqb section_type "desires" then
    Some (label_pat "Desire" (alts [lit "Intention"; lit "Action"; EndA]))
  else if String.eqb section_type "intentions" then
    Some (label_pat "Intention" (alts [lit "Act"; lit "Execution"; EndA]))
  else if String.eqb section_type "actions" then Some (label_pat "Action" EndA)
  else None.

(** [BDIAgent._extract_section]. *)
Definition bdi_extract (response section_type : string) : string :=
  let parsed := bdi_parse response in
  let section_content :=
    match find (fun c => has (bdi_field section_type c)) (b_cycles parsed) with
    | Some c => match bdi_field section_type c with Some x => x | None => "" end
    | None => ""
    end in
  let section_content :=
    if is_empty section_content then
      match bdi_section_pattern section_type with
      | Some r =>
          let s := list_ascii_of_string (b_raw_response parsed) in
          match search r s with
          | Some m => strip (group s m 1)
          | None => b_raw_response parsed
          end
      | None => section_content
      end
    else section_content in
  if is_empty section_content then response else section_content.

(** The dict returned by [ReActAgent._get_next_step]; an absent key is [None]. *)
Record next_step := {
  ns_thought : option string;
  ns_action : option string;
  ns_final_answer : option string }.

(** [ReActAgent._get_next_step] after the gateway call. *)
Definition react_next_step (response : string) : next_step :=
  let parsed := react_parse response in
  let '(thought, action) :=
    match rev (r_cycles parsed) with
    | last_cycle :: _ => (rc_thought last_cycle, rc_action last_cycle)
    | [] => (None, None)
    end in
  let final_answer :=
    if nonempty_s (r_final_answer parsed) then Some (r_final_answer parsed) else None in
  if has thought || has action || has final_answer
  then {| ns_thought := thought; ns_action := action; ns_final_answer := final_answer |}
  else {| ns_thought := Some response; ns_action := None; ns_final_answer := None |}.

(** [str.lower()[:100]] contains ["yes"]: the LAT and RAISE yes/no stages. *)
Definition says_yes (response : string) : bool := contains "yes" (take 100 (lower response)).

(** *** Tools, the model gateway and the state of a run

    A run calls the model gateway ([llm_client.generate]) in a fixed order;
    [gateway n] is the reply to the [n]-th call (or the exception it raises).
    The prompts sent are not modelled: no claim is about them.  A run is a
    computation in a state monad whose state is the number of calls made. *)

(** The argument of [Tool.execute]: [{"query": q}], or a value decoded by
    [json.loads]. *)
Inductive params {Json : Type} := Query (q : string) | Loaded (j : Json).
Arguments params : clear implicits.

Record tool {Value Json : Type} := {
  tool_name : string;
  tool_description : string;
  tool_execute : params Json -> res Value }.
Arguments tool : clear implicits.

Definition M (A : Type) : Type := nat -> res (A * nat).

Definition ret {A : Type} (a : A) : M A := fun n => Ok (a, n).

Definition mbind {A B : Type} (m : M A) (f : A -> M B) : M B :=
  fun n => match m n with Ok (a, n') => f a n' | Err e => Err e end.

Local Notation "'let*' x ':=' m 'in' f" := (mbind m (fun x => f))
  (at level 200, x name, m at level 100, f at level 200).

(** The marker that prefixes a partial answer. *)
Definition not_completed : string := "Task not completed within maximum iterations. ".

(** [(?:use\s+)?(\w+)(?::|,|\s+with|,?\s+)?\s+] followed by the group
    [.*] (group 2), with IGNORECASE (OODA, BDI). *)
Definition tool_pat : regex :=
  seqs [Opt (Seq (lit_ci "use") (Rep is_space 1 true));
        Grp 1 (Rep is_word 1 true);
        Opt (alts [lit ":"; lit ","; Seq (Rep is_space 1 true) (lit_ci "with");
                   Seq (Opt (lit ",")) (Rep is_space 1 true)]);
        Rep is_space 1 true;
        Grp 2 (Rep not_nl 0 true)].

(** [use (\w+)(?::|,|\s+with)?\s+] followed by the group [.*] (group 2),
    with IGNORECASE (ReAct). *)
Definition react_tool_pat : regex :=
  seqs [lit_ci "use "; Grp 1 (Rep is_word 1 true);
        Opt (alts [lit ":"; lit ","; Seq (Rep is_space 1 true) (lit_ci "with")]);
        Rep is_space 1 true;
        Grp 2 (Rep not_nl 0 true)].

(** [search(?::|,|\s+for)?\s+] followed by the group [.*] (group 1), with
    IGNORECASE (ReAct). *)
Definition react_search_pat : regex :=
  seqs [lit_ci "search";
        Opt (alts [lit ":"; lit ","; Seq (Rep is_space 1 true) (lit_ci "for")]);
        Rep is_space 1 true;
        Grp 1 (Rep not_nl 0 true)].

Section Agents.
Context {Value Json : Type}.

Variable gateway : nat -> res string.
Variable json_loads : string -> res Json.
(** Whether an exception of [json.loads] is a [JSONDecodeError]. *)
Variable is_decode_error : exn -> bool.
(** [json.dumps(result, indent=2)]; it raises on values it cannot encode. *)
Variable json_dumps : Value -> res string.
(** [str(e)]. *)
Variable exn_str : exn -> string.

(** [llm_client.generate(...)]: the reply to the next call. *)
Definition generate : M string :=
  fun n => match gateway n with Ok s => Ok (s, S n) | Err e => Err e end.

(** [next((t for t in self.tools if t.name.lower() == name), None)]. *)
Definition find_tool (tools : list (tool Value Json)) (name : string) : option (tool Value Json) :=
  find (fun t => String.eqb (lower (tool_name t)) name) tools.

Definition tool_names (tools : list (tool Value Json)) : string := join ", " (map tool_name tools).

(** [OODAAgent._execute_action], on the latest decision. *)
Definition ooda_execute_action (tools : list (tool Value Json)) (decision : string) : string :=
  let s := list_ascii_of_string decision in
  match search tool_pat s with
  | Some m =>
      let tool_name := lower (strip (group s m 1)) in
      let parameter := strip (group s m 2) in
      match find_tool tools tool_name with
      | Some t =>
          match bind (tool_execute t (Query parameter)) json_dumps with
          | Ok d => ("Action result: Used " ++ Agents.tool_name t ++ " with parameter '"
                     ++ parameter ++ "' and got: " ++ d)%string
          | Err e => ("Error executing tool " ++ Agents.tool_name t ++ ": " ++ exn_str e)%string
          end
      | None => ("Could not find tool '" ++ tool_name ++ "'. Available tools: "
                 ++ tool_names tools)%string
      end
  | None => ("Action taken based on decision: " ++ decision)%string
  end.

(** [BDIAgent._execute_actions], on the latest selected actions. *)
Definition bdi_execute_actions (tools : list (tool Value Json)) (actions : string) : string :=
  let s := list_ascii_of_string actions in
  match search tool_pat s with
  | Some m =>
      let tool_name := lower (strip (group s m 1)) in
      let parameter := strip (group s m 2) in
      match find_tool tools tool_name with
      | Some t =>
          match bind (tool_execute t (Query parameter)) json_dumps with
          | Ok d => ("Action result: Used " ++ Agents.tool_name t ++ " with parameter '"
                     ++ parameter ++ "' and got: " ++ d)%string
          | Err e => ("Error executing tool " ++ Agents.tool_name t ++ ": " ++ exn_str e)%string
          end
      | None => ("Could not find tool '" ++ tool_name ++ "'.")%string
      end
  | None => ("Actions performed: " ++ actions ++ " (no specific tool used)")%string
  end.

(** The inner [try] of [ReActAgent._execute_action], which builds the
    tool's parameters; an exception other than [JSONDecodeError] goes on
    to the outer [try]. *)
Definition react_parameters (tool_input : string) : res (params Json) :=
  if startswith tool_input "{" && endswith tool_input "}"
  then match json_loads tool_input with
       | Ok j => Ok (Loaded j)
       | Err e => if is_decode_error e then Ok (Query tool_input) else Err e
       end
  else Ok (Query tool_input).

(** The body of the [try] of [ReActAgent._execute_action]. *)
Definition react_try_action (tools : list (tool Value Json)) (action : string) : res string :=
  let s := list_ascii_of_string action in
  match search react_tool_pat s, search react_search_pat s with
  | Some m, _ =>
      let tool_name := strip (group s m 1) in
      let tool_input := strip (group s m 2) in
      bind (react_parameters tool_input) (fun parameters =>
      match find_tool tools (lower tool_name) with
      | Some t =>
          bind (tool_execute t parameters) (fun result =>
          bind (json_dumps result) (fun d =>
          Ok ("Tool '" ++ tool_name ++ "' returned: " ++ d)%string))
      | None => Ok ("Error: Tool '" ++ tool_name ++ "' not found. Available tools: "
                    ++ tool_names tools)%string
      end)
  | None, Some m =>
      let search_query := strip (group s m 1) in
      match find_tool tools "search" with
      | Some t =>
          bind (tool_execute t (Query search_query)) (fun result =>
          bind (json_dumps result) (fun d =>
          Ok ("Search results for '" ++ search_query ++ "': " ++ d)%string))
      | None => Ok "Error: No search tool available."
      end
  | None, None =>
      Ok ("Action '" ++ action ++ "' was taken, but no specific tool was utilized. "
          ++ "Please use a tool if you need to retrieve information.")%string
  end.

(** [ReActAgent._execute_action]: every exception becomes the observation. *)
Definition react_execute_action (tools : list (tool Value Json)) (action : string) : string :=
  match react_try_action tools action with
  | Ok obs => obs
  | Err e => ("Error executing action: " ++ exn_str e)%string
  end.

(** *** The controllers

    Each [while not is_done and iterations < max_iterations] loop is a
    [Fixpoint] on a fuel that the callers set to [max_iterations]: every pass
    raises [iterations] by at least one, so the fuel never runs out before
    the loop condition fails. *)

(** [_check_completion] of OODA, BDI and RAISE: one gateway call. *)
Definition stage_check_completion : M (bool * string) :=
  let* response := generate in ret (check_completion response).

(** The main loop of [OODAAgent.execute]. *)
Fixpoint ooda_loop (tools : list (tool Value Json)) (fuel max_iterations iterations : nat)
    (is_done : bool) (final_answer : string) (steps : list step)
    : M (nat * bool * string * list step) :=
  match fuel with
  | O => ret (iterations, is_done, final_answer, steps)
  | S fuel' =>
      if negb is_done && (iterations <? max_iterations) then
        let iterations := S iterations in
        let* r1 := generate in
        let observation := ooda_extract r1 "observation" in
        let* r2 := generate in
        let orientation := ooda_extract r2 "orientation" in
        let* r3 := generate in
        let decision := ooda_extract r3 "decision" in
        let action_result := ooda_execute_action tools decision in
        let steps := steps ++ [mk_step "observation" observation; mk_step "orientation" orientation;
                               mk_step "decision" decision; mk_step "action" action_result] in
        let* c := stage_check_completion in
        ooda_loop tools fuel' max_iterations iterations (fst c) (snd c) steps
      else ret (iterations, is_done, final_answer, steps)
  end.

(** [OODAAgent.execute]; [aid] is the agent's [id]. *)
Definition ooda_execute (tools : list (tool Value Json)) (aid : string) (max_iterations : nat)
    : M agent_result :=
  let* r := ooda_loop tools max_iterations max_iterations 0 false "" [] in
  let '(iterations, is_done, final_answer, steps) := r in
  let* final_answer :=
    (if is_done then ret final_answer
     else let* partial := generate in ret (not_completed ++ partial)%string) in
  ret {| agent_id := aid; output := final_answer; intermediate_steps := steps;
         metadata := [("architecture", MStr "ooda"); ("iterations", MNat iterations)] |}.

(** The main loop of [BDIAgent.execute]. *)
Fixpoint bdi_loop (tools : list (tool Value Json)) (fuel max_iterations iterations : nat)
    (is_done : bool) (final_answer : string) (steps : list step)
    : M (nat * bool * string * list step) :=
  match fuel with
  | O => ret (iterations, is_done, final_answer, steps)
  | S fuel' =>
      if negb is_done && (iterations <? max_iterations) then
        let iterations := S iterations in
        let* r1 := generate in
        let beliefs := bdi_extract r1 "beliefs" in
        let* r2 := generate in
        let desires := bdi_extract r2 "desires" in
        let* r3 := generate in
        let intentions := bdi_extract r3 "intentions" in
        let* r4 := generate in
        let actions := bdi_extract r4 "actions" in
        let action_results := bdi_execute_actions tools actions in
        let steps := steps ++ [mk_step "beliefs" beliefs; mk_step "desires" desires;
                               mk_step "intentions" intentions; mk_step "actions" actions;
                               mk_step "results" action_results] in
        let* c := stage_check_completion in
        bdi_loop tools fuel' max_iterations iterations (fst c) (snd c) steps
      else ret (iterations, is_done, final_answer, steps)
  end.

(** [BDIAgent.execute]; its [_generate_partial_answer] adds the marker. *)
Definition bdi_execute (tools : list (tool Value Json)) (aid : string) (max_iterations : nat)
    : M agent_result :=
  let* r := bdi_loop tools max_iterations max_iterations 0 false "" [] in
  let '(iterations, is_done, final_answer, steps) := r in
  let* final_answer :=
    (if is_done then ret final_answer
     else let* response := generate in ret (not_completed ++ response)%string) in
  ret {| agent_id := aid; output := final_answer; intermediate_steps := steps;
         metadata := [("architecture", MStr "bdi"); ("iterations", MNat iterations)] |}.

(** The main loop of [ReActAgent.execute]. *)
Fixpoint react_loop (tools : list (tool Value Json)) (fuel max_iterations iterations : nat)
    (is_done : bool) (final_answer : string) (steps : list step)
    : M (nat * bool * string * list step) :=
  match fuel with
  | O => ret (iterations, is_done, final_answer, steps)
  | S fuel' =>
      if negb is_done && (iterations <? max_iterations) then
        let iterations := S iterations in
        let* response := generate in
        let next := react_next_step response in
        let steps :=
          match ns_thought next with
          | Some thought => if nonempty_s thought then steps ++ [mk_step "thought" thought] else steps
          | None => steps
          end in
        let steps :=
          match ns_action next with
          | Some action =>
              if nonempty_s action then
                steps ++ [{| st_type := "action"; st_content := action;
                             st_extra := [("observation", react_execute_action tools action)] |}]
              else steps
          | None => steps
          end in
        let '(is_done, final_answer) :=
          match ns_final_answer next with
          | Some fa => if nonempty_s fa then (true, fa) else (is_done, final_answer)
          | None => (is_done, final_answer)
          end in
        react_loop tools fuel' max_iterations iterations is_done final_answer steps
      else ret (iterations, is_done, final_answer, steps)
  end.

(** [ReActAgent.execute]. *)
Definition react_execute (tools : list (tool Value Json)) (aid : string) (max_iterations : nat)
    : M agent_result :=
  let* r := react_loop tools max_iterations max_iterations 0 false "" [] in
  let '(iterations, is_done, final_answer, steps) := r in
  let* final_answer :=
    (if is_done then ret final_answer
     else let* partial := generate in ret (not_completed ++ partial)%string) in
  ret {| agent_id := aid; output := final_answer; intermediate_steps := steps;
         metadata := [("architecture", MStr "react"); ("iterations", MNat iterations)] |}.

(** The search loop of [LATAgent.execute]: node selection, the simulation
    question, optionally simulation and reflection, then the terminal-state
    question, each one gateway call. *)
Fixpoint lat_loop (fuel max_depth current_depth : nat) (current_path : list string)
    (steps : list step) : M (list string * list step) :=
  match fuel with
  | O => ret (current_path, steps)
  | S fuel' =>
      if current_depth <? max_depth then
        let* selected_node := generate in
        let steps := steps ++ [{| st_type := "node_selection"; st_content := selected_node;
                                  st_extra := [("depth", str_nat current_depth)] |}] in
        let* need_simulation := generate in
        let* steps :=
          (if says_yes need_simulation then
             let* simulation_results := generate in
             let* reflection := generate in
             ret (steps ++ [{| st_type := "simulation"; st_content := simulation_results;
                               st_extra := [("depth", str_nat current_depth)] |};
                            {| st_type := "reflection"; st_content := reflection;
                               st_extra := [("depth", str_nat current_depth)] |}])
           else ret steps) in
        let current_path := current_path ++ [selected_node] in
        let current_depth := S current_depth in
        let* terminal := generate in
        if says_yes terminal then ret (current_path, steps)
        else lat_loop fuel' max_depth current_depth current_path steps
      else ret (current_path, steps)
  end.

(** [LATAgent.execute]: no completion check and no partial answer; the
    output is the reply to the last call. *)
Definition lat_execute (aid : string) (max_depth : nat) (search_strategy : string)
    : M agent_result :=
  let* decision_tree := generate in
  let* r := lat_loop max_depth max_depth 0 [] [mk_step "decision_tree_creation" decision_tree] in
  let '(current_path, steps) := r in
  let* best_path := generate in
  let* out := generate in
  ret {| agent_id := aid; output := out;
         intermediate_steps := steps ++ [mk_step "best_path_selection" best_path;
                                         mk_step "output_generation" out];
         metadata := [("architecture", MStr "lat"); ("max_depth", MNat max_depth);
                      ("search_strategy", MStr search_strategy);
                      ("path_length", MNat (length current_path))] |}.

(** What [BaseAgent.run] returns: the formatted text or the record. *)
Inductive run_output := Formatted (text : string) | Unformatted (result : agent_result).

(** [BaseAgent.run(task, **kwargs)]: [execute] is the agent's [execute] on
    the task; [format_output_kw] is the [format_output] keyword, [True] when
    absent; [verbose] is the agent's configuration. *)
Definition run (verbose : bool) (execute : M agent_result) (format_output_kw : option bool)
    : M run_output :=
  let fmt := match format_output_kw with Some b => b | None => true end in
  let* result := execute in
  ret (if fmt then Formatted (format_output result verbose) else Unformatted result).

End Agents.

End Agents.

(** ** RAISE: the scratch pad ([harkaam/agents/raise_agent.py]) *)

Module RaisePad.
Import Py Re Agents.

(** [f"## {section}\n"]; the code passes the literal section names
    [Examples], [Thoughts], [Tool Results], [Observations] and
    [Progress Summary], which hold no regex metacharacter, so the compiled
    pattern is this text matched literally. *)
Definition section_header (section : string) : string :=
  ("## " ++ section ++ String "010" EmptyString)%string.

(** [RAISEAgent._update_scratch_pad]: the existence test is an IGNORECASE
    search, the split that follows is case-sensitive; when the section
    occurs only in another letter case, [parts[1]] raises [IndexError]. *)
Definition update_scratch_pad (scratch_pad section content : string) : res string :=
  let header := section_header section in
  match search (lit_ci header) (list_ascii_of_string scratch_pad) with
  | Some _ =>
      match split_once scratch_pad header with
      | None => Err (IndexError "list index out of range")
      | Some (part0, part1) =>
          match split_once part1 (String "010" "##") with
          | Some (_, rest) =>
              Ok (part0 ++ header ++ content ++ String "010" (String "010" "##") ++ rest)%string
          | None => Ok (part0 ++ header ++ content ++ String "010" (String "010" EmptyString))%string
          end
      end
  | None =>
      Ok (scratch_pad ++ String "010" (String "010" EmptyString) ++ header ++ content
          ++ String "010" EmptyString)%string
  end.

End RaisePad.

(** ** RAISE: the controller ([harkaam/agents/raise_agent.py]) *)

Module RaiseAgent.
Import Py Re Agents RaisePad.

Local Notation "'let*' x ':=' m 'in' f" := (mbind m (fun x => f))
  (at level 200, x name, m at level 100, f at level 200).

Definition nl : string := String "010" EmptyString.

(** [{tool.name: tool.description for tool in self.tools}]: a name keeps
    the place of its first tool and the description of its last. *)
Definition tool_descriptions {Value Json : Type} (tools : list (tool Value Json))
    : list (string * string) :=
  fold_left (fun d t => dict_set (tool_name t) (tool_description t) d) tools [].

(** The scratch pad that [_initialize_scratch_pad] builds itself. *)
Definition basic_scratch_pad {Value Json : Type} (task : string) (tools : list (tool Value Json))
    : string :=
  ("# Scratch Pad for: " ++ task ++ nl ++ nl ++ "## Initial Context" ++ nl
   ++ "Task: " ++ task ++ nl ++ nl
   ++ match tools with
      | [] => ""
      | _ :: _ =>
          nl ++ "## Available Tools" ++ nl
          ++ String.concat "" (map (fun '(tool_name, tool_desc) =>
                                      "- " ++ tool_name ++ ": " ++ tool_desc ++ nl)
                                   (tool_descriptions tools))
      end)%string.

(** A step that raises [e] without calling the gateway. *)
Definition lift {A : Type} (x : res A) : M A :=
  fun n => match x with Ok a => Ok (a, n) | Err e => Err e end.

Section Raise.
Context {Value Json : Type}.
Variable gateway : nat -> res string.
(** [json.dumps(result, indent=2)]. *)
Variable json_dumps : Value -> res string.
(** [str(e)]. *)
Variable exn_str : exn -> string.

(** [_initialize_scratch_pad]: one gateway call. *)
Definition initialize_scratch_pad (task : string) (tools : list (tool Value Json)) : M string :=
  let* response := generate gateway in
  ret (if negb (contains "Scratch Pad" response) && negb (startswith (strip response) "#")
       then basic_scratch_pad task tools
       else response).

(** [_should_use_tools]: no call when there is no tool. *)
Definition should_use_tools (tools : list (tool Value Json)) : M bool :=
  match tools with
  | [] => ret false
  | _ :: _ => let* response := generate gateway in ret (says_yes response)
  end.

(** [_use_tools] after the gateway call, on its reply. *)
Definition tool_result (tools : list (tool Value Json)) (response : string) : string :=
  let s := list_ascii_of_string response in
  match search tool_pat s with
  | Some m =>
      let tool_name := lower (strip (group s m 1)) in
      let parameter := strip (group s m 2) in
      match find_tool tools tool_name with
      | Some t =>
          match bind (tool_execute t (Query parameter)) json_dumps with
          | Ok d => ("Used " ++ Agents.tool_name t ++ " with parameter '" ++ parameter
                     ++ "' and got: " ++ d)%string
          | Err e => ("Error executing tool " ++ Agents.tool_name t ++ ": " ++ exn_str e)%string
          end
      | None => ("Could not find tool '" ++ tool_name ++ "'. Available tools: "
                 ++ tool_names tools)%string
      end
  | None => ("Unclear tool usage in response: " ++ response)%string
  end.

(** [_use_tools]: one gateway call. *)
Definition use_tools (tools : list (tool Value Json)) : M string :=
  let* response := generate gateway in ret (tool_result tools response).

(** The body of the main loop of [RAISEAgent.execute]; each
    [_generate_llm_step] is one gateway call, and its [_check_completion]
    is the one of OODA and BDI. *)
Definition raise_pass (tools : list (tool Value Json)) (scratch_pad : string) (steps : list step)
    : M (string * list step * (bool * string)) :=
  let* examples := generate gateway in
  let* scratch_pad := lift (update_scratch_pad scratch_pad "Examples" examples) in
  let steps := steps ++ [mk_step "examples" examples] in
  let* thoughts := generate gateway in
  let* scratch_pad := lift (update_scratch_pad scratch_pad "Thoughts" thoughts) in
  let steps := steps ++ [mk_step "thoughts" thoughts] in
  let* should_use := should_use_tools tools in
  let* r :=
    (if should_use then
       let* tool_results := use_tools tools in
       let* scratch_pad := lift (update_scratch_pad scratch_pad "Tool Results" tool_results) in
       let steps := steps ++ [mk_step "tool_results" tool_results] in
       let* observations := generate gateway in
       let* scratch_pad := lift (update_scratch_pad scratch_pad "Observations" observations) in
       ret (scratch_pad, steps ++ [mk_step "observations" observations])
     else ret (scratch_pad, steps)) in
  let '(scratch_pad, steps) := r in
  let* updated_pad := generate gateway in
  let* scratch_pad :=
    (if startswith (strip updated_pad) "#" || contains "Scratch Pad" updated_pad
     then ret updated_pad
     else lift (update_scratch_pad scratch_pad "Progress Summary" updated_pad)) in
  let* c := stage_check_completion gateway in
  ret (scratch_pad, steps, c).

(** The main loop of [RAISEAgent.execute]. *)
Fixpoint raise_loop (tools : list (tool Value Json)) (fuel max_iterations iterations : nat)
    (is_done : bool) (final_answer scratch_pad : string) (steps : list step)
    : M (nat * bool * string * string * list step) :=
  match fuel with
  | O => ret (iterations, is_done, final_answer, scratch_pad, steps)
  | S fuel' =>
      if negb is_done && (iterations <? max_iterations) then
        let iterations := S iterations in
        let* r := raise_pass tools scratch_pad steps in
        let '(scratch_pad, steps, c) := r in
        raise_loop tools fuel' max_iterations iterations (fst c) (snd c) scratch_pad steps
      else ret (iterations, is_done, final_answer, scratch_pad, steps)
  end.

(** [RAISEAgent.execute]; [_initialize_context] makes no call. *)
Definition raise_execute (tools : list (tool Value Json)) (aid task : string)
    (max_iterations : nat) : M agent_result :=
  let* scratch_pad := initialize_scratch_pad task tools in
  let* r := raise_loop tools max_iterations max_iterations 0 false "" scratch_pad [] in
  let '(iterations, is_done, final_answer, scratch_pad, steps) := r in
  let* final_answer :=
    (if is_done then ret final_answer
     else let* partial := generate gateway in ret (not_completed ++ partial)%string) in
  ret {| agent_id := aid; output := final_answer; intermediate_steps := steps;
         metadata := [("architecture", MStr "raise"); ("iterations", MNat iterations);
                      ("scratch_pad", MStr scratch_pad)] |}.

End Raise.

End RaiseAgent.

(** ** ReWOO ([harkaam/agents/rewoo.py]) *)

Module ReWOO.
Import Py Re Parser Agents.

Local Notation "'let*' x ':=' m 'in' f" := (mbind m (fun x => f))
  (at level 200, x name, m at level 100, f at level 200).

Definition worker_or_task : regex := alts [lit "Worker"; lit "Task"].

Definition dot_bar_paren (a : ascii) : bool :=
  Ascii.eqb a "."%char || Ascii.eqb a "|"%char || Ascii.eqb a ")"%char.

Section Patterns.
(** The character class [[•]] (U+2022).  A text is modelled as a sequence of
    8-bit characters, which fixes no code for this character; [bullet] is
    the test of a character against it, and every result below holds for
    any such test. *)
Variable bullet : ascii -> bool.

(** The [task_patterns] of [_assign_worker_tasks], all with DOTALL; the
    lookahead [(?=...)] is [Ahead]. *)
Definition task_patterns : list regex :=
  [ seqs [worker_or_task; Rep is_space 1 true; Rep is_digit 1 true; lit ":"; Rep is_space 0 true;
          Grp 1 (Rep any_char 0 false);
          Ahead (alts [seqs [worker_or_task; Rep is_space 1 true; Rep is_digit 1 true; lit ":"]; EndA])];
    seqs [worker_or_task; Rep is_space 1 true; Rep is_digit 1 true; Cls dot_bar_paren;
          Rep is_space 0 true; Grp 1 (Rep any_char 0 false);
          Ahead (alts [seqs [worker_or_task; Rep is_space 1 true; Rep is_digit 1 true]; EndA])];
    seqs [Rep is_digit 1 true; lit "."; Rep is_space 0 true; Grp 1 (Rep any_char 0 false);
          Ahead (alts [Seq (Rep is_digit 1 true) (lit "."); EndA])];
    seqs [lit "- "; Grp 1 (Rep any_char 0 false); Ahead (alts [lit "-"; EndA])];
    seqs [Cls bullet; Rep is_space 0 true; Grp 1 (Rep any_char 0 false);
          Ahead (alts [Cls bullet; EndA])];
    seqs [lit "Subtask"; Rep is_space 1 true; Rep is_digit 1 true; lit ":"; Rep is_space 0 true;
          Grp 1 (Rep any_char 0 false); Ahead (alts [lit "Subtask"; EndA])] ].

End Patterns.

(** [re.findall] of a pattern with one group: the group of each match. *)
Definition findall (r : regex) (text : string) : list string :=
  let s := list_ascii_of_string text in map (fun m => group s m 1) (finditer r s).

(** [[task.strip() for task in tasks if task.strip()]]. *)
Definition clean_tasks (tasks : list string) : list string :=
  map strip (List.filter (fun t => nonempty_s (strip t)) tasks).

(** [for pattern in task_patterns: ...]: [None] when no pattern gives a
    task. *)
Fixpoint try_patterns (patterns : list regex) (text : string) (num_workers : nat)
    : option (list string) :=
  match patterns with
  | [] => None
  | pattern :: ps =>
      let tasks := findall pattern text in
      if nonempty_list tasks then
        let cleaned_tasks := clean_tasks tasks in
        if nonempty_list cleaned_tasks then Some (firstn num_workers cleaned_tasks)
        else try_patterns ps text num_workers
      else try_patterns ps text num_workers
  end.

(** [_create_default_tasks]. *)
Definition create_default_tasks (task : string) (num_workers : nat) : list string :=
  map (fun i => match i with
                | 0 => "Analyze the core aspects of " ++ task
                | 1 => "Consider alternative approaches to " ++ task
                | _ => "Identify potential challenges or edge cases in " ++ task
                end%string) (seq 0 num_workers).

(** The [worker_tasks] step holds a list, so the result keeps the steps
    [plan], [worker_tasks], [worker_<i>_result] and [solution] field by
    field. *)
Record rewoo_result := {
  rr_agent_id : string;
  rr_output : string;
  rr_plan : string;
  rr_worker_tasks : list string;
  rr_worker_results : list string;
  rr_metadata : list (string * meta) }.

Section ReWOO.
Variable bullet : ascii -> bool.
Variable gateway : nat -> res string.

(** [_assign_worker_tasks], called with a context that holds the plan;
    the extraction request is one gateway call. *)
Definition assign_worker_tasks (task plan : string) (num_workers : nat) : M (list string) :=
  match try_patterns (task_patterns bullet) plan num_workers with
  | Some tasks => ret tasks
  | None =>
      let* extraction_response := generate gateway in
      match try_patterns (task_patterns bullet) extraction_response num_workers with
      | Some tasks => ret tasks
      | None => ret (create_default_tasks task num_workers)
      end
  end.

(** The worker loop: one call per worker task, in order. *)
Fixpoint run_workers (worker_tasks : list string) : M (list string) :=
  match worker_tasks with
  | [] => ret []
  | _ :: ts =>
      let* worker_result := generate gateway in
      let* rest := run_workers ts in
      ret (worker_result :: rest)
  end.

(** [ReWOOAgent.execute]; [reasoning_depth] is reported as given. *)
Definition rewoo_execute (aid task : string) (reasoning_depth : meta) (reasoning_style : string)
    (num_workers : nat) : M rewoo_result :=
  let* plan := generate gateway in
  let* worker_tasks := assign_worker_tasks task plan num_workers in
  let* worker_results := run_workers worker_tasks in
  let* solution := generate gateway in
  ret {| rr_agent_id := aid; rr_output := solution; rr_plan := plan;
         rr_worker_tasks := worker_tasks; rr_worker_results := worker_results;
         rr_metadata := [("architecture", MStr "rewoo"); ("reasoning_depth", reasoning_depth);
                         ("reasoning_style", MStr reasoning_style);
                         ("num_workers", MNat num_workers)] |}.

End ReWOO.

End ReWOO.

(** ** The tool registry ([harkaam/core/tools.py]) *)

Module ToolRegistry.
Import Py Agents.

Section Registry.
Context {Value Json : Type}.

(** [self.tools]: a dict from names to tools, in insertion order. *)
Definition registry := list (string * tool Value Json).

Definition register (r : registry) (t : tool Value Json) : registry := dict_set (tool_name t) t r.

Definition get (r : registry) (name : string) : option (tool Value Json) := dict_get name r.

Definition list_tools (r : registry) : list (tool Value Json) := map snd r.

End Registry.

End ToolRegistry.

(** ** Properties of the matcher and the parsers *)

Module ParserFacts.
Import Re Parser.

Lemma fold_left_inv {A B : Type} (P : B -> Prop) (f : B -> A -> B) (l : list A) (b : B) :
  P b -> (forall b a, P b -> P (f b a)) -> P (fold_left f l b).
Proof.
  intros Hb Hf. revert b Hb. induction l as [|a l IH]; intros b Hb; simpl; auto.
Qed.

Lemma skipn_nth_error {A : Type} (s : list A) (i : nat) (a : A) :
  nth_error s i = Some a -> skipn i s = a :: skipn (S i) s.
Proof.
  revert s. induction i as [|i IHi]; intros [|y s] Hn; simpl in *; try discriminate.
  - injection Hn as ->; reflexivity.
  - apply IHi; exact Hn.
Qed.

(** [Seq (lit w) r] against [fold_right] with [r] at the tail: both match
    only where [w] is a prefix. *)
Lemma mt_seq_lit_prefix (s : list ascii) (w : list ascii) (r : regex) i c k x :
  mt s (Seq (fold_right (fun a r => Seq (Cls (Ascii.eqb a)) r) Eps w) r) i c k = Some x ->
  Py.prefix_b w (skipn i s) = true.
Proof.
  revert i c k. induction w as [|a w IH]; intros i c k H; [reflexivity|].
  simpl in H. destruct (nth_error s i) as [b|] eqn:Hn; [|discriminate].
  destruct (Ascii.eqb a b) eqn:Hab; [|discriminate].
  apply Ascii.eqb_eq in Hab; subst b.
  assert (H' : mt s (Seq (fold_right (fun a r => Seq (Cls (Ascii.eqb a)) r) Eps w) r) (S i) c k = Some x)
    by exact H.
  apply IH in H'.
  rewrite (skipn_nth_error s i a Hn). simpl. rewrite Ascii.eqb_refl. exact H'.
Qed.

Lemma first_some_none {A B : Type} (f : A -> option B) (l : list A) :
  (forall x, In x l -> f x = None) -> first_some f l = None.
Proof.
  induction l as [|x l IH]; intros H; simpl; [reflexivity|].
  rewrite (H x (or_introl eq_refl)). apply IH. intros y Hy. apply H. right; exact Hy.
Qed.

Lemma prefix_b_nil (w : list ascii) : w <> [] -> Py.prefix_b w [] = false.
Proof. destruct w; [congruence|reflexivity]. Qed.

(** If the label of a section pattern does not occur in the text, the
    pattern finds nothing. *)
Lemma finditer_sec_absent (lab : string) (ws : bool) (terms : list regex) (s : list ascii) :
  lab <> EmptyString ->
  Py.contains lab (string_of_list_ascii s) = false ->
  finditer (sec lab ws terms) s = [].
Proof.
  intros Hne Hc. unfold finditer.
  assert (Hnone : forall pos, search_from s (sec lab ws terms) pos = None).
  { intros pos. unfold search_from. apply first_some_none. intros i _.
    unfold match_at.
    destruct (mt s (sec lab ws terms) i [] (fun j c => Some (j, c))) as [[j c]|] eqn:Hm;
      [|reflexivity].
    exfalso. unfold sec, secr in Hm. simpl in Hm. unfold lit in Hm.
    apply mt_seq_lit_prefix in Hm.
    unfold Py.contains in Hc. rewrite list_ascii_of_string_of_list_ascii in Hc.
    destruct (le_lt_dec i (length s)) as [Hle|Hlt].
    - assert (Hin : In i (seq 0 (S (length s)))) by (apply in_seq; lia).
      assert (He : existsb (fun i => Py.prefix_b (list_ascii_of_string lab) (skipn i s))
                     (seq 0 (S (length s))) = true).
      { apply existsb_exists. exists i. split; assumption. }
      congruence.
    - rewrite skipn_all2 in Hm by lia.
      rewrite prefix_b_nil in Hm; [discriminate|].
      destruct lab; simpl; congruence. }
  destruct (S (S (length s))); simpl; [reflexivity|]. rewrite Hnone. reflexivity.
Qed.

End ParserFacts.

Module ParserClaims.
Import Re Parser ParserFacts.

Lemma raw_response_parse (p : parser) (text : string) : raw_response (parse p text) = text.
Proof.
  destruct p; simpl.
  - unfold react_parse. cbv zeta. destruct (fold_left _ _ _). reflexivity.
  - unfold ooda_parse. cbv zeta. destruct (fold_left _ _ _). reflexivity.
  - unfold bdi_parse. cbv zeta. destruct (fold_left _ _ _). reflexivity.
  - unfold lat_parse. cbv zeta. destruct (fold_left _ _ _). reflexivity.
  - reflexivity.
  - reflexivity.
Qed.

(** C3: for every input text and every tag accepted by [create_parser]
    (its lower-cased form is one of the six architectures), [create_parser]
    returns a parser whose [parse] is total (it cannot fail) and returns a
    record whose raw-text field is the input text. *)
Theorem parse_total_keeps_raw (tag text : string) (Hvalid : In (Py.lower tag) parser_tags) :
  exists p, create_parser tag = Some p /\ raw_response (parse p text) = text.
Proof.
  unfold create_parser. simpl in Hvalid.
  destruct Hvalid as [H|[H|[H|[H|[H|[H|[]]]]]]]; rewrite <- H; simpl;
    eexists; (split; [reflexivity|apply raw_response_parse]).
Qed.

Lemma parse_total_keeps_raw_witness :
  In (Py.lower "ReAct") parser_tags /\
  exists p, create_parser "ReAct" = Some p /\ raw_response (parse p "") = "".
Proof.
  split; [vm_compute; auto|].
  apply (parse_total_keeps_raw "ReAct" ""). vm_compute. auto.
Defined.

End ParserClaims.

Module GroupOrder.
Import Re Parser ParserFacts.

(** The predecessor rule of each grammar, read on one emitted group. *)
Definition react_cycle_ok (c : react_cycle) : Prop :=
  rc_thought c <> None /\ (rc_action c <> None -> rc_thought c <> None) /\
  (rc_observation c <> None -> rc_action c <> None).

Definition ooda_loop_ok (l : ooda_loop) : Prop :=
  o_observation l <> None /\ o_orientation l <> None /\ o_decision l <> None /\ o_action l <> None.

Definition bdi_cycle_ok (c : bdi_cycle) : Prop :=
  b_beliefs c <> None /\ b_desires c <> None /\ b_intentions c <> None /\ b_execution c <> None.

Definition lat_node_ok (n : lat_node) : Prop :=
  l_problem n <> None /\ l_branches n <> None /\ l_selection n <> None.

Lemma has_some {A} (o : option A) : has o = true -> o <> None.
Proof. destruct o; simpl; congruence. Qed.

Ltac split_andb :=
  repeat match goal with
  | H : (_ && _)%bool = true |- _ => apply andb_prop in H; destruct H
  end.

Lemma react_groups_ok (text : string) : Forall react_cycle_ok (r_cycles (react_parse text)).
Proof.
  unfold react_parse. cbv zeta.
  set (s := list_ascii_of_string text).
  set (cur1 := fold_left _ (finditer react_thought_pat s) empty_react_cycle).
  assert (H1 : rc_observation cur1 = None).
  { apply (fold_left_inv (fun cur => rc_observation cur = None)); [reflexivity|].
    intros b m Hb. destruct (nonempty _); simpl; auto. }
  set (cur2 := fold_left _ (finditer react_action_pat s) cur1).
  assert (H2 : rc_observation cur2 = None).
  { apply (fold_left_inv (fun cur => rc_observation cur = None)); [exact H1|].
    intros b m Hb. destruct (_ && _)%bool; simpl; auto. }
  match goal with
  | |- context [fold_left ?f (finditer react_obs_pat s) ([], cur2)] =>
      assert (H3 : (fun '(cs, cur) => Forall react_cycle_ok cs /\ rc_observation cur = None)
                     (fold_left f (finditer react_obs_pat s) ([], cur2)));
      [apply fold_left_inv; [split; [constructor|exact H2]|]|]
  end.
  - intros [cs cur] m [Hcs Hcur].
    destruct (_ && _ && _)%bool eqn:E; simpl; [|split; assumption].
    split_andb. split; [|reflexivity].
    apply Forall_app; split; [exact Hcs|]. constructor; [|constructor].
    unfold react_cycle_ok; simpl.
    split; [apply has_some; assumption|]. split; [intros _; apply has_some; assumption|].
    intros _; apply has_some; assumption.
  - match goal with |- context [fold_left ?f (finditer react_obs_pat s) ?i] =>
      destruct (fold_left f (finditer react_obs_pat s) i) as [cs cur3] end. simpl in H3. destruct H3 as [Hcs Hcur]. simpl.
    destruct (has (rc_thought cur3)) eqn:Et; [|exact Hcs].
    apply Forall_app; split; [exact Hcs|]. constructor; [|constructor].
    unfold react_cycle_ok. split; [apply has_some; exact Et|].
    split; [intros _; apply has_some; exact Et|]. rewrite Hcur. congruence.
Qed.

Lemma react_no_thought_no_group (text : string) :
  Py.contains "Thought:" text = false -> r_cycles (react_parse text) = [].
Proof.
  intros Hc. unfold react_parse. cbv zeta.
  set (s := list_ascii_of_string text).
  assert (Hf : finditer react_thought_pat s = []).
  { apply finditer_sec_absent; [discriminate|].
    unfold s. rewrite string_of_list_ascii_of_string. exact Hc. }
  rewrite Hf. simpl.
  set (cur2 := fold_left _ (finditer react_action_pat s) empty_react_cycle).
  assert (H2 : cur2 = empty_react_cycle).
  { apply (fold_left_inv (fun cur => cur = empty_react_cycle)); [reflexivity|].
    intros b m Hb. subst b. simpl. rewrite andb_false_r. reflexivity. }
  match goal with
  | |- context [fold_left ?f (finditer react_obs_pat s) ([], cur2)] =>
      assert (H3 : fold_left f (finditer react_obs_pat s) ([], cur2) = ([], empty_react_cycle));
      [apply (fold_left_inv (fun p => p = ([], empty_react_cycle))); [rewrite H2; reflexivity|]|]
  end.
  - intros b m Hb. subst b. simpl. rewrite andb_false_r. reflexivity.
  - rewrite H3. reflexivity.
Qed.

Lemma ooda_groups_ok (text : string) : Forall ooda_loop_ok (o_loops (ooda_parse text)).
Proof.
  unfold ooda_parse. cbv zeta.
  match goal with
  | |- context [fold_left ?f (finditer ooda_action_pat ?s) ([], ?c)] =>
      assert (H3 : (fun '(ls, _) => Forall ooda_loop_ok ls) (fold_left f (finditer ooda_action_pat s) ([], c)));
      [apply fold_left_inv; [constructor|]|]
  end.
  - intros [ls cur] m Hls.
    destruct (_ && _ && _ && _)%bool eqn:E; simpl; [|assumption].
    split_andb. apply Forall_app; split; [exact Hls|]. constructor; [|constructor].
    unfold ooda_loop_ok; simpl. repeat split; try (apply has_some; assumption); congruence.
  - match goal with |- context [fold_left ?f (finditer ooda_action_pat ?s) ?i] =>
      destruct (fold_left f (finditer ooda_action_pat s) i) as [ls cur] end. exact H3.
Qed.

Lemma bdi_groups_ok (text : string) : Forall bdi_cycle_ok (b_cycles (bdi_parse text)).
Proof.
  unfold bdi_parse. cbv zeta.
  match goal with
  | |- context [fold_left ?f (finditer bdi_execution_pat ?s) ([], ?c)] =>
      assert (H3 : (fun '(ls, _) => Forall bdi_cycle_ok ls) (fold_left f (finditer bdi_execution_pat s) ([], c)));
      [apply fold_left_inv; [constructor|]|]
  end.
  - intros [ls cur] m Hls.
    destruct (_ && _ && _ && _)%bool eqn:E; simpl; [|assumption].
    split_andb. apply Forall_app; split; [exact Hls|]. constructor; [|constructor].
    unfold bdi_cycle_ok; simpl. repeat split; try (apply has_some; assumption); congruence.
  - match goal with |- context [fold_left ?f (finditer bdi_execution_pat ?s) ?i] =>
      destruct (fold_left f (finditer bdi_execution_pat s) i) as [ls cur] end. exact H3.
Qed.

Lemma lat_groups_ok (text : string) : Forall lat_node_ok (l_nodes (lat_parse text)).
Proof.
  unfold lat_parse. cbv zeta.
  match goal with
  | |- context [fold_left ?f (finditer lat_selection_pat ?s) ([], ?c)] =>
      assert (H3 : (fun '(ls, _) => Forall lat_node_ok ls) (fold_left f (finditer lat_selection_pat s) ([], c)));
      [apply fold_left_inv; [constructor|]|]
  end.
  - intros [ls cur] m Hls.
    destruct (_ && _ && _)%bool eqn:E; simpl; [|assumption].
    split_andb. apply Forall_app; split; [exact Hls|]. constructor; [|constructor].
    unfold lat_node_ok; simpl. repeat split; try (apply has_some; assumption); congruence.
  - match goal with |- context [fold_left ?f (finditer lat_selection_pat ?s) ?i] =>
      destruct (fold_left f (finditer lat_selection_pat s) i) as [ls cur] end. exact H3.
Qed.

(** C4 (as amended): every group the grouping parsers emit obeys the
    predecessor rule of its grammar: a ReAct group always has a thought
    and has an observation only together with an action; OODA, BDI and LAT
    groups are only emitted complete.  The labels are matched label by
    label over the whole text, not in text order; the ReAct parser produces
    no group at all when the text has no ["Thought:"] label. *)
Theorem groups_respect_predecessors (text : string) :
  Forall react_cycle_ok (r_cycles (react_parse text)) /\
  Forall ooda_loop_ok (o_loops (ooda_parse text)) /\
  Forall bdi_cycle_ok (b_cycles (bdi_parse text)) /\
  Forall lat_node_ok (l_nodes (lat_parse text)) /\
  (Py.contains "Thought:" text = false -> r_cycles (react_parse text) = []).
Proof.
  split; [apply react_groups_ok|]. split; [apply ooda_groups_ok|].
  split; [apply bdi_groups_ok|]. split; [apply lat_groups_ok|].
  apply react_no_thought_no_group.
Qed.

(** C4, the claim as stated: ["Action: X"] comes first in the text, with
    no ["Thought:"] label before it, and the ReAct parser still produces a
    group holding that action (taking the thought that follows it). *)
Lemma action_before_thought_grouped :
  let text := ("Action: X" ++ String "010"%char "Thought: Y")%string in
  Py.prefix_b (list_ascii_of_string "Action: X") (list_ascii_of_string text) = true /\
  r_cycles (react_parse text) =
    [{| rc_thought := Some "Y"; rc_action := Some "X"; rc_observation := None |}].
Proof. vm_compute. split; reflexivity. Qed.

End GroupOrder.

(** ** Small workflows used as examples *)

Module WorkflowExamples.
Import Workflow.

Definition mk_node {Value : Type} (i agent nm : string) (deps : list string)
    (cond : option (gmap string Value -> bool)) : @WorkflowNode Value :=
  {| id := i; agent_id := agent; name := nm; description := ""; dependencies := deps;
     condition := cond; transform_input := None; transform_output := None |}.

(** [A -> [B]], [B -> [A]]. *)
Definition cyclic_wf : @Workflow nat :=
  {| nodes := [("A", mk_node "A" "agent" "A" ["B"] None); ("B", mk_node "B" "agent" "B" ["A"] None)];
     agents := ["agent"] |}.

(** [A], [B -> [A]], [C -> [A; B]]. *)
Definition abc_wf : @Workflow nat :=
  {| nodes := [("A", mk_node "A" "agent" "A" [] None); ("B", mk_node "B" "agent" "B" ["A"] None);
               ("C", mk_node "C" "agent" "C" ["A"; "B"] None)];
     agents := ["agent"] |}.

(** Node [a] (display name [A]) is guarded by a predicate that is always
    false; node [b] depends on [a]. *)
Definition guarded_wf : @Workflow string :=
  {| nodes := [("a", mk_node "a" "agent" "A" [] (Some (fun _ => false)));
               ("b", mk_node "b" "agent" "B" ["a"] None)];
     agents := ["agent"] |}.

(** An initial input that already has a key [A]. *)
Definition guarded_input : gmap string string := <["A" := "from input"]> ∅.

(** Every agent answers ["done"]. *)
Definition run_done : list (@Call string) -> string -> string -> gmap string string -> Py.res string :=
  fun _ _ _ _ => Py.Ok "done".

Definition run_zero : list (@Call nat) -> string -> string -> gmap string nat -> Py.res nat :=
  fun _ _ _ _ => Py.Ok 0.

Definition empty_wf : @Workflow nat := {| nodes := []; agents := [] |}.

End WorkflowExamples.

(** ** Facts about the scheduler *)

Module WorkflowFacts.
Import Py Workflow.

Lemma mem_In (x : string) (l : list string) : mem x l = true <-> In x l.
Proof.
  unfold mem. rewrite existsb_exists. split.
  - intros (y & Hy & E). apply String.eqb_eq in E. subst. exact Hy.
  - intros H. exists x. split; [exact H | apply String.eqb_refl].
Qed.

Lemma mem_notIn (x : string) (l : list string) : mem x l = false <-> ~ In x l.
Proof.
  rewrite <- mem_In. destruct (mem x l); split; congruence.
Qed.

Lemma dict_get_In {V : Type} (k : string) (d : list (string * V)) (v : V) :
  dict_get k d = Some v -> In (k, v) d.
Proof.
  induction d as [|[k' v'] d IH]; simpl; [discriminate|].
  destruct (String.eqb_spec k k') as [->|_].
  - intros [= ->]. left. reflexivity.
  - intros H. right. apply IH, H.
Qed.

Lemma dict_get_key {V : Type} (k : string) (d : list (string * V)) (v : V) :
  dict_get k d = Some v -> In k (map fst d).
Proof.
  intros H. apply dict_get_In in H. apply (in_map fst) in H. exact H.
Qed.

Section Graph.
Context {Value : Type}.
Implicit Types (w : @Workflow Value) (ns : list (string * @WorkflowNode Value)).

Lemma ordered_closed ns v y z :
  ordered ns v -> In y v ->
  (exists n, dict_get y ns = Some n /\ In z (dependencies n)) -> In z v.
Proof.
  induction v as [|x v IH]; simpl; [tauto|].
  intros [Hx Hv] [<-|Hy] (n & Hn & Hz).
  - right. exact (Hx n Hn z Hz).
  - right. apply IH; eauto.
Qed.

Lemma ordered_reach w v y z :
  ordered (nodes w) v -> In y v -> clos_trans string (edge w) y z -> In z v.
Proof.
  intros Ho Hy Hc. induction Hc as [a b Hab|a b c _ IH1 _ IH2].
  - exact (ordered_closed _ _ _ _ Ho Hy Hab).
  - apply IH2, IH1, Hy.
Qed.

Lemma ordered_acyclic w v a :
  ordered (nodes w) v -> In a v -> ~ clos_trans string (edge w) a a.
Proof.
  induction v as [|x v IH]; simpl; [tauto|].
  intros [Hx Hv] [->|Ha] Hc.
  - apply clos_trans_t1n in Hc. inversion Hc as [y0 Hab|y z0 Hay Hyx]; subst.
    + destruct Hab as (n & Hn & Hz). apply (IH Hv (Hx n Hn a Hz)).
      apply t_step. exists n. split; assumption.
    + destruct Hay as (n & Hn & Hy). pose proof (Hx n Hn y Hy) as Hyv.
      apply clos_t1n_trans in Hyx.
      pose proof (ordered_reach w v y a Hv Hyv Hyx) as Hav.
      apply (IH Hv Hav). eapply t_trans; [apply t_step; exists n; split; eassumption|exact Hyx].
  - exact (IH Hv Ha Hc).
Qed.

Lemma cycle_deps_false ns hc deps temp v t v1 :
  (forall temp v id t v', ordered ns v -> hc temp v id = Ok (false, t, v') ->
     ordered ns v' /\ incl v v' /\ In id v') ->
  ordered ns v -> cycle_deps hc deps temp v = Ok (false, t, v1) ->
  ordered ns v1 /\ incl v v1 /\ (forall d, In d deps -> In d v1).
Proof.
  intros Hhc. revert temp v. induction deps as [|d ds IH]; simpl; intros temp v Ho H.
  - injection H as <- <-. split; [exact Ho|split; [apply incl_refl|tauto]].
  - destruct (hc temp v d) as [[[[|] t2] v2]|e] eqn:E; [discriminate| |discriminate].
    destruct (Hhc _ _ _ _ _ Ho E) as (Ho2 & Hi2 & Hd2).
    destruct (IH _ _ Ho2 H) as (Ho1 & Hi1 & Hds).
    split; [exact Ho1|split; [eapply incl_tran; eassumption|]].
    intros d' [<-|Hd']; [apply Hi1, Hd2|apply Hds, Hd'].
Qed.

Lemma has_cycle_false fuel ns temp v id t v' :
  ordered ns v -> has_cycle fuel ns temp v id = Ok (false, t, v') ->
  ordered ns v' /\ incl v v' /\ In id v'.
Proof.
  revert temp v id t v'. induction fuel as [|f IH]; simpl; intros temp v id t v' Ho H;
    [discriminate|].
  destruct (mem id temp); [discriminate|].
  destruct (mem id v) eqn:Ev.
  - injection H as <- <-. split; [exact Ho|split; [apply incl_refl|apply mem_In, Ev]].
  - destruct (dict_get id ns) as [n|] eqn:En; [|discriminate].
    destruct (cycle_deps (has_cycle f ns) (dependencies n) (id :: temp) v)
      as [[[[|] t1] v1]|e] eqn:Ec; [discriminate| |discriminate].
    injection H as <- <-.
    destruct (cycle_deps_false ns _ _ _ _ _ _ IH Ho Ec) as (Ho1 & Hi1 & Hd1).
    split; [|split].
    + simpl. split; [|exact Ho1]. intros n' En' d Hd. rewrite En in En'.
      injection En' as <-. apply Hd1, Hd.
    + intros x Hx. right. apply Hi1, Hx.
    + left. reflexivity.
Qed.

Lemma check_cycles_ok fuel ns ids temp v :
  ordered ns v -> check_cycles fuel ns ids temp v = Ok tt ->
  exists vf, ordered ns vf /\ incl v vf /\ forall i, In i ids -> In i vf.
Proof.
  revert temp v. induction ids as [|i ids IH]; simpl; intros temp v Ho H.
  - exists v. split; [exact Ho|split; [apply incl_refl|tauto]].
  - destruct (has_cycle fuel ns temp v i) as [[[[|] t1] v1]|e] eqn:E;
      [discriminate| |discriminate].
    destruct (has_cycle_false _ _ _ _ _ _ _ Ho E) as (Ho1 & Hi1 & Hin1).
    destruct (IH _ _ Ho1 H) as (vf & Hof & Hivf & Hall).
    exists vf. split; [exact Hof|split; [eapply incl_tran; eassumption|]].
    intros j [<-|Hj]; [apply Hivf, Hin1|apply Hall, Hj].
Qed.

Lemma first_dangling_None ids (ns : list (string * @WorkflowNode Value)) :
  first_dangling ids ns = None <->
  forall k n d, In (k, n) ns -> In d (dependencies n) -> mem d ids = true.
Proof.
  induction ns as [|[k0 n0] ns IH]; simpl.
  - split; [intros _ k n d []|reflexivity].
  - destruct (find (fun d => negb (mem d ids)) (dependencies n0)) as [d0|] eqn:E.
    + split; [discriminate|]. intros H. exfalso.
      apply find_some in E as [Hd0 Hm]. rewrite (H k0 n0 d0 (or_introl eq_refl) Hd0) in Hm.
      discriminate.
    + rewrite IH. split.
      * intros H k n d [Hkn|Hkn] Hd; [|exact (H k n d Hkn Hd)].
        injection Hkn as <- <-. pose proof (find_none _ _ E d Hd) as Hf.
        apply negb_false_iff in Hf. exact Hf.
      * intros H k n d Hkn Hd. exact (H k n d (or_intror Hkn) Hd).
Qed.

Lemma validate_deps w :
  validate w = Ok tt ->
  forall k n d, In (k, n) (nodes w) -> In d (dependencies n) -> In d (map fst (nodes w)).
Proof.
  unfold validate. intros H k n d Hkn Hd.
  destruct (find _ (nodes w)) as [[? ?]|]; [discriminate|].
  destruct (first_dangling _ (nodes w)) as [[? ?]|] eqn:E; [discriminate|].
  apply mem_In. exact (proj1 (first_dangling_None _ _) E k n d Hkn Hd).
Qed.

Lemma validate_acyclic w :
  validate w = Ok tt -> forall a, ~ clos_trans string (edge w) a a.
Proof.
  unfold validate. intros H a Hc.
  destruct (find _ (nodes w)) as [[? ?]|]; [discriminate|].
  destruct (first_dangling _ (nodes w)) as [[? ?]|]; [discriminate|].
  destruct (check_cycles_ok _ (nodes w) _ _ [] I H) as (vf & Ho & _ & Hall).
  assert (Ha : In a (map fst (nodes w))).
  { apply clos_trans_t1n in Hc.
    inversion Hc as [y (n & Hn & _)|y z (n & Hn & _) _]; exact (dict_get_key _ _ _ Hn). }
  exact (ordered_acyclic w vf a Ho (Hall a Ha) Hc).
Qed.

Lemma validate_rejects w :
  has_dangling_dependency w \/ has_cycle_rel w -> exists e, validate w = Err e.
Proof.
  intros Hbad. destruct (validate w) as [[]|e] eqn:E; [|eauto].
  exfalso. destruct Hbad as [(k & n & d & Hkn & Hd & Hnd)|(a & Hc)].
  - exact (Hnd (validate_deps w E k n d Hkn Hd)).
  - exact (validate_acyclic w E a Hc).
Qed.

Lemma execute_rejects run w input log :
  has_dangling_dependency w \/ has_cycle_rel w ->
  exists e, validate w = Err e /\ execute run w input log = (Err e, log).
Proof.
  intros Hbad. destruct (validate_rejects w Hbad) as (e & E).
  exists e. split; [exact E|]. unfold execute. rewrite E. reflexivity.
Qed.

Lemma dict_get_exists {V : Type} (k : string) (d : list (string * V)) :
  In k (map fst d) -> exists v, dict_get k d = Some v.
Proof.
  induction d as [|[k' v'] d IH]; simpl; [tauto|].
  intros Hk. destruct (String.eqb_spec k k') as [->|Hne]; [eauto|].
  apply IH. destruct Hk as [->|Hk]; [congruence|exact Hk].
Qed.

Lemma remove_cons_notin x l : ~ In x l -> remove x (x :: l) = l.
Proof.
  unfold remove. cbn [List.filter]. rewrite String.eqb_refl. cbn [negb].
  induction l as [|y l IH]; simpl; intros Hx; [reflexivity|].
  destruct (String.eqb_spec x y) as [->|_]; [exfalso; apply Hx; left; reflexivity|].
  simpl. f_equal. apply IH. intros H. apply Hx. right. exact H.
Qed.

Lemma NoDup_snoc (l : list string) x : List.NoDup l -> ~ In x l -> List.NoDup (l ++ [x]).
Proof.
  induction l as [|y l IH]; simpl; intros Hl Hx.
  - constructor; [simpl; tauto|constructor].
  - inversion Hl as [|? ? Hy Hl']; subst. constructor.
    + rewrite in_app_iff. simpl. intros [H|[H|H]]; [tauto| |tauto]. subst. apply Hx. left. reflexivity.
    + apply IH; [exact Hl'|]. intros H. apply Hx. right. exact H.
Qed.

Lemma step_then_reach w x y z :
  edge w x y -> clos_refl_trans string (edge w) y z -> clos_trans string (edge w) x z.
Proof.
  intros Hxy Hyz. apply clos_rt_rtn1 in Hyz. induction Hyz as [|z1 z2 Hz _ IH].
  - apply t_step, Hxy.
  - eapply t_trans; [exact IH|apply t_step, Hz].
Qed.

Lemma ordered_snoc ns r x :
  ordered ns (rev r) ->
  (forall n, dict_get x ns = Some n -> forall d, In d (dependencies n) -> In d r) ->
  ordered ns (rev (r ++ [x])).
Proof.
  intros Ho Hx. rewrite rev_unit. simpl. split; [|exact Ho].
  intros n Hn d Hd. apply in_rev. rewrite rev_involutive. exact (Hx n Hn d Hd).
Qed.

Section Order.
Variable w : @Workflow Value.
Let ns := nodes w.
Let keys := map fst (nodes w).
Hypothesis Hdeps : forall k n d, dict_get k ns = Some n -> In d (dependencies n) -> In d keys.
Hypothesis Hacyc : forall a, ~ clos_trans string (edge w) a a.

Definition pre (r : list string) : Prop :=
  List.NoDup r /\ ordered ns (rev r) /\ incl r keys.

Lemma visit_ok fuel temp result id :
  List.NoDup temp -> incl temp keys -> In id keys ->
  (forall t, In t temp -> clos_trans string (edge w) t id) ->
  length (nodes w) + 1 <= fuel + length temp -> pre result ->
  exists r', visit fuel ns temp result id = Ok (temp, r') /\ pre r' /\ In id r' /\
    exists new, r' = result ++ new /\
      forall e, In e new -> clos_refl_trans string (edge w) id e.
Proof.
  revert temp result id. induction fuel as [|f IH]; intros temp result id Hnd Hinc Hid Hanc Hlen Hpre.
  - pose proof (NoDup_incl_length Hnd Hinc) as Hl. unfold keys in Hl.
    rewrite length_map in Hl. simpl in Hlen. lia.
  - simpl.
    assert (Hnt : ~ In id temp) by (intros H; exact (Hacyc id (Hanc id H))).
    apply mem_notIn in Hnt as Hm. rewrite Hm.
    destruct (mem id result) eqn:Er.
    { exists result. split; [reflexivity|]. split; [exact Hpre|]. split; [apply mem_In, Er|].
      exists []. split; [rewrite app_nil_r; reflexivity|simpl; tauto]. }
    apply mem_notIn in Er.
    destruct (dict_get_exists id ns Hid) as (n & En). unfold ns in En |- *. rewrite En.
    assert (Hdeps_loop : forall ds, incl ds (dependencies n) -> forall r0, pre r0 ->
      exists r1, visit_deps (visit f (nodes w)) ds (id :: temp) r0 = Ok (id :: temp, r1) /\
        pre r1 /\ (forall d, In d ds -> In d r1) /\
        exists new, r1 = r0 ++ new /\ forall e, In e new -> clos_trans string (edge w) id e).
    { induction ds as [|d ds IHds]; simpl; intros Hds r0 Hp0.
      - exists r0. split; [reflexivity|]. split; [exact Hp0|]. split; [tauto|].
        exists []. split; [rewrite app_nil_r; reflexivity|simpl; tauto].
      - assert (Hed : edge w id d) by (exists n; split; [exact En|apply Hds; left; reflexivity]).
        destruct (IH (id :: temp) r0 d) as (r2 & E2 & Hp2 & Hd2 & new2 & -> & Hnew2).
        + constructor; assumption.
        + intros t [<-|Ht]; [exact Hid|apply Hinc, Ht].
        + apply (Hdeps id n d En), Hds. left. reflexivity.
        + intros t [<-|Ht]; [apply t_step, Hed|eapply t_trans; [apply Hanc, Ht|apply t_step, Hed]].
        + simpl. lia.
        + exact Hp0.
        + unfold ns in E2. rewrite E2.
          destruct (IHds (fun x Hx => Hds x (or_intror Hx)) (r0 ++ new2) Hp2)
            as (r1 & E1 & Hp1 & Hd1 & new1 & -> & Hnew1).
          exists (r0 ++ new2 ++ new1). rewrite app_assoc. split; [exact E1|].
          split; [exact Hp1|]. split.
          * intros d' [<-|Hd']; [apply in_or_app; left; exact Hd2|apply Hd1, Hd'].
          * exists (new2 ++ new1). split; [rewrite app_assoc; reflexivity|].
            intros e He. apply in_app_iff in He as [He|He];
              [exact (step_then_reach w id d e Hed (Hnew2 e He))|exact (Hnew1 e He)]. }
    destruct (Hdeps_loop (dependencies n) (incl_refl _) result Hpre)
      as (r1 & E1 & (Hnd1 & Ho1 & Hinc1) & Hd1 & new & -> & Hnew).
    rewrite E1, (remove_cons_notin id temp Hnt).
    exists ((result ++ new) ++ [id]). split; [reflexivity|].
    assert (Hni : ~ In id (result ++ new)).
    { rewrite in_app_iff. intros [H|H]; [exact (Er H)|exact (Hacyc id (Hnew id H))]. }
    split; [split; [|split]|split].
    + apply NoDup_snoc; assumption.
    + apply ordered_snoc; [exact Ho1|]. intros n' En' d Hd. unfold ns in En'.
      rewrite En in En'. injection En' as <-. apply Hd1, Hd.
    + intros x Hx. apply in_app_iff in Hx as [Hx|[<-|[]]]; [apply Hinc1, Hx|exact Hid].
    + apply in_or_app. right. left. reflexivity.
    + exists (new ++ [id]). split; [rewrite app_assoc; reflexivity|].
      intros e He. apply in_app_iff in He as [He|[<-|[]]];
        [apply clos_t_clos_rt, Hnew, He|apply rt_refl].
Qed.

Lemma order_loop_ok fuel ids result :
  length (nodes w) + 1 <= fuel -> incl ids keys -> pre result ->
  exists r, order_loop fuel ns ids [] result = Ok r /\ pre r /\ incl ids r /\ incl result r.
Proof.
  revert result. induction ids as [|i ids IH]; simpl; intros result Hf Hids Hp.
  - exists result. split; [reflexivity|]. split; [exact Hp|]. split; [intros ? []|apply incl_refl].
  - destruct (mem i result) eqn:Ei.
    + destruct (IH result Hf (fun x Hx => Hids x (or_intror Hx)) Hp) as (r & E & Hpr & Hir & Hrr).
      exists r. split; [exact E|]. split; [exact Hpr|]. split; [|exact Hrr].
      intros x [<-|Hx]; [apply Hrr, mem_In, Ei|apply Hir, Hx].
    + destruct (visit_ok fuel [] result i (List.NoDup_nil _) (incl_nil_l _) (Hids i (or_introl eq_refl))
        (fun t Ht => match Ht with end) ltac:(simpl; lia) Hp)
        as (r1 & E1 & Hp1 & Hi1 & new & -> & _).
      rewrite E1.
      destruct (IH (result ++ new) Hf (fun x Hx => Hids x (or_intror Hx)) Hp1) as (r & E & Hpr & Hir & Hrr).
      exists r. split; [exact E|]. split; [exact Hpr|]. split.
      * intros x [<-|Hx]; [apply Hrr, Hi1|apply Hir, Hx].
      * intros x Hx. apply Hrr, in_or_app. left. exact Hx.
Qed.

Lemma get_execution_order_ok :
  exists order, get_execution_order w = Ok order /\ pre order /\ incl keys order.
Proof.
  unfold get_execution_order, fuel_of.
  destruct (order_loop_ok (S (length (nodes w))) keys [] ltac:(lia) (incl_refl _)
    ltac:(split; [apply List.NoDup_nil|split; [exact I|intros ? []]])) as (r & E & Hp & Hk & _).
  exists r. split; [exact E|]. split; assumption.
Qed.

End Order.

Lemma ordered_middle ns l1 x l2 :
  ordered ns (l1 ++ x :: l2) ->
  forall n, dict_get x ns = Some n -> forall d, In d (dependencies n) -> In d l2.
Proof.
  induction l1 as [|y l1 IH]; simpl.
  - intros [Hx _]. exact Hx.
  - intros [_ Ho]. exact (IH Ho).
Qed.

End Graph.

Lemma dict_set_fresh {V : Type} (k : string) (v : V) (d : list (string * V)) :
  ~ In k (map fst d) -> dict_set k v d = d ++ [(k, v)].
Proof.
  induction d as [|[k' v'] d IH]; simpl; intros Hk; [reflexivity|].
  destruct (String.eqb_spec k k') as [->|_]; [exfalso; apply Hk; left; reflexivity|].
  f_equal. apply IH. intros H. apply Hk. right. exact H.
Qed.

Lemma dict_get_snoc {V : Type} (k k' : string) (v : V) (d : list (string * V)) :
  dict_get k (d ++ [(k', v)]) = match dict_get k d with
                                | Some x => Some x
                                | None => if String.eqb k k' then Some v else None
                                end.
Proof.
  induction d as [|[k1 v1] d IH]; simpl; [reflexivity|].
  destruct (String.eqb k k1); [reflexivity|exact IH].
Qed.

Lemma dict_get_notin {V : Type} (k : string) (d : list (string * V)) :
  ~ In k (map fst d) -> dict_get k d = None.
Proof.
  destruct (dict_get k d) as [v|] eqn:E; [|reflexivity].
  intros H. exfalso. exact (H (dict_get_key _ _ _ E)).
Qed.

Section Exec.
Context {Value : Type}.
Variable run : list (@Call Value) -> string -> string -> gmap string Value -> res Value.

Lemma exec_loop_no_entry w input order results log r log' k :
  exec_loop run w input order results log = (Ok r, log') ->
  results !! k = None -> ~ In k order -> r !! k = None.
Proof.
  revert results log. induction order as [|i order IH]; simpl; intros results log E Hk Hin.
  - injection E as <- _. exact Hk.
  - destruct (dict_get i (nodes w)) as [n|]; [|discriminate].
    assert (Hin' : ~ In k order) by tauto.
    destruct (match condition n with Some c => _ | None => _ end).
    { exact (IH _ _ E Hk Hin'). }
    destruct (collect_inputs (nodes w) results (dependencies n) input); [|discriminate].
    destruct (negb (mem (agent_id n) (agents w))); [discriminate|].
    destruct (run log (agent_id n) _ _); [|discriminate].
    apply (IH _ _ E); [|exact Hin'].
    rewrite lookup_insert_ne; [exact Hk|]. intros ->. apply Hin. left. reflexivity.
Qed.

(** The keys missing from the merged input of a node. *)
Lemma collect_inputs_absent (ns : list (string * @WorkflowNode Value)) results deps m0 m :
  collect_inputs ns results deps m0 = Ok m ->
  forall x, m !! x = None <->
    m0 !! x = None /\
    forall d dn r, In d deps -> results !! d = Some r -> dict_get d ns = Some dn -> name dn <> x.
Proof.
  revert m0. induction deps as [|d ds IH]; simpl; intros m0 E x.
  - injection E as ->. split; [intros H; split; [exact H|tauto]|tauto].
  - destruct (results !! d) as [rd|] eqn:Ed.
    + destruct (dict_get d ns) as [dn|] eqn:En; [|discriminate].
      rewrite (IH _ E x), lookup_insert_None. split.
      * intros [[H0 Hne] Hrest]. split; [exact H0|].
        intros d' dn' r' [<-|Hd'] Hr' Hn'.
        -- rewrite En in Hn'. injection Hn' as <-. exact Hne.
        -- exact (Hrest d' dn' r' Hd' Hr' Hn').
      * intros [H0 Hall]. split; [split; [exact H0|]|].
        -- exact (Hall d dn rd (or_introl eq_refl) Ed En).
        -- intros d' dn' r' Hd'. exact (Hall d' dn' r' (or_intror Hd')).
    + rewrite (IH _ E x). split.
      * intros [H0 Hrest]. split; [exact H0|].
        intros d' dn' r' [<-|Hd'] Hr'; [rewrite Ed in Hr'; discriminate|exact (Hrest d' dn' r' Hd' Hr')].
      * intros [H0 Hall]. split; [exact H0|]. intros d' dn' r' Hd'. exact (Hall d' dn' r' (or_intror Hd')).
Qed.

End Exec.

End WorkflowFacts.

(** ** The scheduler's properties *)

Module WorkflowClaims.
Import Py Workflow WorkflowExamples WorkflowFacts.

(** C1: [execute] validates the whole graph before running any node: when
    some node lists a dependency id that is not a node id, or some node
    depends transitively on itself, [_validate] raises, and [execute]
    returns that error with the log of agent calls unchanged (no agent is
    run and no results mapping is returned). *)
Theorem execute_fails_fast {Value : Type}
    (run : list (@Call Value) -> string -> string -> gmap string Value -> res Value)
    (w : @Workflow Value) (input : option (gmap string Value)) (log : list (@Call Value))
    (Hbad : has_dangling_dependency w \/ has_cycle_rel w) :
  exists e, validate w = Err e /\ execute run w input log = (Err e, log).
Proof.
  exact (execute_rejects run w input log Hbad).
Qed.

Lemma execute_fails_fast_witness :
  has_cycle_rel cyclic_wf /\
  exists e, validate cyclic_wf = Err e /\ execute run_zero cyclic_wf None [] = (Err e, []).
Proof.
  assert (H : has_cycle_rel cyclic_wf).
  { exists "A"%string. eapply t_trans; apply t_step.
    - exists (mk_node "A" "agent" "A" ["B"] None). split; [reflexivity|simpl; left; reflexivity].
    - exists (mk_node "B" "agent" "B" ["A"] None). split; [reflexivity|simpl; left; reflexivity]. }
  split; [exact H|]. apply (execute_fails_fast run_zero cyclic_wf None []). right. exact H.
Defined.

(** C2: when every dependency id is a node id and the dependency relation
    is acyclic, [_get_execution_order] returns an order that holds every
    node id exactly once, in which each node comes after all of its
    dependencies. *)
Theorem execution_order_topological {Value : Type} (w : @Workflow Value)
    (Hdeps : ~ has_dangling_dependency w) (Hacyc : ~ has_cycle_rel w) :
  exists order, get_execution_order w = Ok order /\ List.NoDup order /\
    (forall k, In k order <-> In k (map fst (nodes w))) /\
    (forall before k after n d, order = before ++ k :: after ->
       dict_get k (nodes w) = Some n -> In d (dependencies n) -> In d before).
Proof.
  assert (Hd : forall k n d, dict_get k (nodes w) = Some n -> In d (dependencies n) ->
                 In d (map fst (nodes w))).
  { intros k n d Hn Hd. destruct (in_dec String.string_dec d (map fst (nodes w))) as [Hin|Hout];
      [exact Hin|]. exfalso. apply Hdeps. exists k, n, d. split; [apply dict_get_In, Hn|tauto]. }
  assert (Ha : forall a, ~ clos_trans string (edge w) a a) by (intros a Hc; apply Hacyc; exists a; exact Hc).
  destruct (get_execution_order_ok w Hd Ha) as (order & E & (Hnd & Ho & Hinc) & Hall).
  exists order. split; [exact E|]. split; [exact Hnd|]. split.
  - intros k. split; [apply Hinc|apply Hall].
  - intros before k after n d -> Hn Hdn.
    rewrite rev_app_distr in Ho. simpl in Ho. rewrite <- app_assoc in Ho. simpl in Ho.
    apply in_rev. exact (ordered_middle _ _ _ _ Ho n Hn d Hdn).
Qed.

Lemma execution_order_topological_witness :
  get_execution_order abc_wf = Ok ["A"; "B"; "C"]%string /\
  exists order, get_execution_order abc_wf = Ok order /\ List.NoDup order /\
    (forall k, In k order <-> In k (map fst (nodes abc_wf))) /\
    (forall before k after n d, order = before ++ k :: after ->
       dict_get k (nodes abc_wf) = Some n -> In d (dependencies n) -> In d before).
Proof.
  assert (Hv : validate abc_wf = Ok tt) by (vm_compute; reflexivity).
  split; [vm_compute; reflexivity|].
  apply execution_order_topological.
  - intros (k & n & d & Hkn & Hd & Hnd). exact (Hnd (validate_deps abc_wf Hv k n d Hkn Hd)).
  - intros (a & Hc). exact (validate_acyclic abc_wf Hv a Hc).
Defined.

(** C7 (counterexample): node [a], display name [A], is skipped by its
    guard and writes no result, but the merged input of its dependent [b]
    still has the key [A], taken from the initial input. *)
Lemma skipped_dependency_key_present :
  execute run_done guarded_wf (Some guarded_input) [] =
    (Ok (<["b" := "done"]> ∅), [{| call_agent := "agent"; call_task := "B: ";
                                   call_context := guarded_input |}])%string /\
  guarded_input !! "A"%string = Some "from input"%string.
Proof.
  split; vm_compute; reflexivity.
Qed.

(** C7 (amended): a node whose guard evaluates false over
    [{**input_data, **results}] is skipped: the loop goes on with the same
    results, and a node that comes once in the order never gets an entry in
    the returned results. The merged input of any node lacks the key [x]
    exactly when the initial input lacks it and no dependency that already
    has a result is displayed under the name [x]; a dependency without a
    result adds no entry, so the skipped node's display name is missing from
    a dependent's input only when the initial input and the other computed
    dependencies do not supply it. *)
Theorem guard_skip_no_entry {Value : Type}
    (run : list (@Call Value) -> string -> string -> gmap string Value -> res Value)
    (w : @Workflow Value) (input : gmap string Value) (k : string) (rest : list string)
    (results : gmap string Value) (log : list (@Call Value))
    (n : @WorkflowNode Value) (c : gmap string Value -> bool)
    (Hn : dict_get k (nodes w) = Some n) (Hc : condition n = Some c)
    (Hfalse : c (results ∪ input) = false)
    (Hnone : results !! k = None) (Honce : ~ In k rest) :
  exec_loop run w input (k :: rest) results log = exec_loop run w input rest results log /\
  (forall r log', exec_loop run w input (k :: rest) results log = (Ok r, log') -> r !! k = None) /\
  (forall results' deps m x, collect_inputs (nodes w) results' deps input = Ok m ->
     (m !! x = None <->
      input !! x = None /\
      forall d dn r, In d deps -> results' !! d = Some r -> dict_get d (nodes w) = Some dn ->
        name dn <> x)).
Proof.
  assert (Hstep : exec_loop run w input (k :: rest) results log =
                  exec_loop run w input rest results log).
  { simpl. rewrite Hn, Hc, Hfalse. reflexivity. }
  split; [exact Hstep|split].
  - intros r log' E. rewrite Hstep in E. exact (exec_loop_no_entry run w input rest results log r log' k E Hnone Honce).
  - intros results' deps m x E. exact (collect_inputs_absent _ _ _ _ _ E x).
Qed.

Lemma guard_skip_no_entry_witness :
  exec_loop run_done guarded_wf guarded_input ["a"; "b"]%string ∅ [] =
    exec_loop run_done guarded_wf guarded_input ["b"]%string ∅ [] /\
  (forall r log', exec_loop run_done guarded_wf guarded_input ["a"; "b"]%string ∅ [] = (Ok r, log') ->
     r !! "a"%string = None) /\
  (forall results' deps m x, collect_inputs (nodes guarded_wf) results' deps guarded_input = Ok m ->
     (m !! x = None <->
      guarded_input !! x = None /\
      forall d dn r, In d deps -> results' !! d = Some r -> dict_get d (nodes guarded_wf) = Some dn ->
        name dn <> x)).
Proof.
  apply (guard_skip_no_entry run_done guarded_wf guarded_input "a" ["b"] ∅ []
           (mk_node "a" "agent" "A" [] (Some (fun _ => false))) (fun _ => false)).
  - reflexivity.
  - reflexivity.
  - reflexivity.
  - vm_compute. reflexivity.
  - simpl. intros [H|[]]. discriminate.
Defined.

(** C10: [add_node] validates nothing: for any dependency list, it returns
    the drawn id, stores the node under it (dependencies defaulting to
    [[]]) after the existing nodes, leaves the other nodes unchanged and
    registers the agent. A dangling dependency or a cycle in the result is
    only reported by a later [execute], which then fails before running any
    node. *)
Theorem add_node_no_validation {Value : Type}
    (run : list (@Call Value) -> string -> string -> gmap string Value -> res Value)
    (w : @Workflow Value) (new_id agent nm desc : string) (deps : option (list string))
    (cond : option (gmap string Value -> bool))
    (ti : option (gmap string Value -> gmap string Value)) (to : option (Value -> Value))
    (Hfresh : ~ In new_id (map fst (nodes w))) :
  let '(w', nid) := add_node w new_id agent nm desc deps cond ti to in
  nid = new_id /\
  dict_get new_id (nodes w') =
    Some {| id := new_id; agent_id := agent; name := nm; description := desc;
            dependencies := match deps with Some l => l | None => [] end;
            condition := cond; transform_input := ti; transform_output := to |} /\
  map fst (nodes w') = map fst (nodes w) ++ [new_id] /\
  (forall k, k <> new_id -> dict_get k (nodes w') = dict_get k (nodes w)) /\
  In agent (agents w') /\
  (has_dangling_dependency w' \/ has_cycle_rel w' ->
   forall input log, exists e, execute run w' input log = (Err e, log)).
Proof.
  unfold add_node.
  assert (Hn1 : nodes (if mem agent (agents w) then w else add_agent w agent) = nodes w)
    by (destruct (mem agent (agents w)); reflexivity).
  assert (Ha1 : In agent (agents (if mem agent (agents w) then w else add_agent w agent))).
  { destruct (mem agent (agents w)) eqn:E; simpl; [apply mem_In, E|rewrite E].
    apply in_or_app. right. left. reflexivity. }
  simpl. rewrite Hn1, (dict_set_fresh _ _ _ Hfresh).
  split; [reflexivity|]. split; [|split; [|split; [|split]]].
  - rewrite dict_get_snoc, (dict_get_notin _ _ Hfresh), String.eqb_refl. reflexivity.
  - rewrite map_app. reflexivity.
  - intros k Hk. rewrite dict_get_snoc. destruct (dict_get k (nodes w)); [reflexivity|].
    destruct (String.eqb_spec k new_id); [contradiction|reflexivity].
  - exact Ha1.
  - intros Hbad input log. destruct (execute_rejects run _ input log Hbad) as (e & _ & E).
    exists e. exact E.
Qed.

Lemma add_node_no_validation_witness :
  ~ In "n1"%string (map fst (nodes empty_wf)) /\
  let '(w', nid) := add_node empty_wf "n1" "agent" "N1" "" (Some ["ghost"]) None None None in
  nid = "n1"%string /\
  dict_get "n1" (nodes w') =
    Some {| id := "n1"; agent_id := "agent"; name := "N1"; description := "";
            dependencies := ["ghost"]; condition := None; transform_input := None;
            transform_output := None |} /\
  map fst (nodes w') = map fst (nodes empty_wf) ++ ["n1"] /\
  (forall k, k <> "n1"%string -> dict_get k (nodes w') = dict_get k (nodes empty_wf)) /\
  In "agent"%string (agents w') /\
  (has_dangling_dependency w' \/ has_cycle_rel w' ->
   forall input log, exists e, execute run_zero w' input log = (Err e, log)).
Proof.
  split; [simpl; tauto|].
  exact (add_node_no_validation run_zero empty_wf "n1" "agent" "N1" "" (Some ["ghost"]) None None None
           ltac:(simpl; tauto)).
Defined.

End WorkflowClaims.

(** ** The completion check *)

Module CompletionFacts.
Import Py Re Agents ParserFacts.

Lemma run_len_any (l : list ascii) : run_len any_char l = length l.
Proof. induction l as [|a l IH]; simpl; [reflexivity|rewrite IH; reflexivity]. Qed.

Lemma skipn_nth_error_none {A : Type} (s : list A) (i : nat) :
  nth_error s i = None -> skipn i s = [].
Proof.
  intros H. apply nth_error_None in H. apply skipn_all2. exact H.
Qed.

Lemma mt_lit_ci (s : list ascii) (w : list ascii) i c k :
  mt s (fold_right (fun a r => Seq (Cls (fun x => Ascii.eqb (lower_char a) (lower_char x))) r) Eps w) i c k =
  if prefix_ci w (skipn i s) then k (i + length w) c else None.
Proof.
  revert i c k. induction w as [|a w IH]; intros i c k; simpl.
  - rewrite Nat.add_0_r. destruct (skipn i s); reflexivity.
  - destruct (nth_error s i) as [b|] eqn:Hn.
    + rewrite (skipn_nth_error s i b Hn). simpl.
      destruct (Ascii.eqb (lower_char a) (lower_char b)); simpl; [|reflexivity].
      rewrite IH. rewrite Nat.add_succ_r. reflexivity.
    + rewrite (skipn_nth_error_none s i Hn). reflexivity.
Qed.

Lemma prefix_ci_length (w l : list ascii) : prefix_ci w l = true -> length w <= length l.
Proof.
  revert l. induction w as [|a w IH]; intros [|b l]; simpl; try lia; try discriminate.
  intros H. apply andb_prop in H as [_ H]. apply IH in H. lia.
Qed.

Definition marker : list ascii := list_ascii_of_string "final answer".

Lemma match_at_final (s : list ascii) (i : nat) :
  option_map (fun m => group s m 1) (match_at s final_answer_pat i) =
  if prefix_ci marker (skipn i s)
  then Some (string_of_list_ascii (drop_colon (skipn (length marker) (skipn i s))))
  else None.
Proof.
  unfold match_at, final_answer_pat. cbn [seqs mt].
  unfold lit_ci. rewrite mt_lit_ci. fold marker.
  destruct (prefix_ci marker (skipn i s)) eqn:Hp; [|reflexivity].
  apply prefix_ci_length in Hp. rewrite length_skipn in Hp.
  assert (Hm : length marker = 12) by reflexivity.
  rewrite skipn_skipn. replace (length marker + i) with (i + length marker) by lia.
  set (p := i + length marker).
  unfold lit. cbn [fold_right list_ascii_of_string mt].
  destruct (nth_error s p) as [b|] eqn:Hb.
  - assert (Hpl : p < length s) by (apply nth_error_Some; congruence).
    rewrite (skipn_nth_error s p b Hb).
    rewrite !run_len_any, !Nat.sub_0_r, !seq_S, !rev_unit. cbn [first_some length].
    destruct (Ascii.eqb ":" b) eqn:Hc.
    + apply Ascii.eqb_eq in Hc. subst b. cbn. unfold group. cbn [m_caps cap_lookup].
      rewrite ?Nat.eqb_refl.
      rewrite firstn_all2 by lia. reflexivity.
    + cbn. unfold group. cbn [m_caps cap_lookup]. rewrite ?Nat.eqb_refl.
      rewrite Ascii.eqb_sym, Hc.
      rewrite (skipn_nth_error s p b Hb), firstn_all2 by (simpl; lia). reflexivity.
  - rewrite (skipn_nth_error_none s p Hb).
    rewrite !run_len_any, !Nat.sub_0_r, !seq_S, !rev_unit. cbn.
    unfold group. cbn [m_caps cap_lookup]. rewrite ?Nat.eqb_refl.
    rewrite (skipn_nth_error_none s p Hb), firstn_nil. reflexivity.
Qed.

Lemma after_ci_eq (w l : list ascii) :
  after_ci w l = if prefix_ci w l then Some (skipn (length w) l)
                 else match l with [] => None | _ :: l' => after_ci w l' end.
Proof. destruct l; reflexivity. Qed.

(** The search for the final-answer marker finds the first occurrence of
    the marker in any letter case and captures the rest of the text after
    an optional colon. *)
Lemma search_final_answer (s : list ascii) :
  option_map (fun m => group s m 1) (search final_answer_pat s) =
  option_map (fun rest => string_of_list_ascii (drop_colon rest)) (after_ci marker s).
Proof.
  unfold search, search_from. rewrite Nat.sub_0_r.
  assert (H : forall d pos, d + pos = S (length s) ->
    option_map (fun m => group s m 1) (first_some (match_at s final_answer_pat) (seq pos d)) =
    option_map (fun rest => string_of_list_ascii (drop_colon rest)) (after_ci marker (skipn pos s))).
  { induction d as [|d IH]; intros pos Hd.
    - rewrite skipn_all2 by lia. reflexivity.
    - simpl seq. cbn [first_some]. pose proof (match_at_final s pos) as Hm.
      rewrite after_ci_eq.
      destruct (match_at s final_answer_pat pos) as [m|] eqn:E.
      + destruct (prefix_ci marker (skipn pos s)); [|discriminate].
        simpl in Hm |- *. injection Hm as ->. reflexivity.
      + destruct (prefix_ci marker (skipn pos s)); [discriminate|].
        destruct (nth_error s pos) as [a|] eqn:Ha.
        * rewrite (skipn_nth_error s pos a Ha). apply IH. lia.
        * rewrite (skipn_nth_error_none s pos Ha).
          apply nth_error_None in Ha. replace d with 0 by lia. reflexivity. }
  apply (H (S (length s)) 0). lia.
Qed.

(** [check_completion] in words: the signal, and the stripped response,
    replaced when complete by the stripped text after the marker if the
    stripped response has one. *)
Lemma check_completion_spec (response : string) :
  check_completion response =
  (completion_signal response,
   if completion_signal response then
     match text_after_marker (strip response) with
     | Some rest => strip rest
     | None => strip response
     end
   else strip response).
Proof.
  unfold check_completion, text_after_marker.
  destruct (completion_signal response); [|reflexivity].
  pose proof (search_final_answer (list_ascii_of_string (strip response))) as H.
  fold marker.
  destruct (search final_answer_pat (list_ascii_of_string (strip response))) as [m|];
    destruct (after_ci marker (list_ascii_of_string (strip response))) as [rest|];
    simpl in H; try discriminate; [|reflexivity].
  injection H as ->. reflexivity.
Qed.

End CompletionFacts.

(** ** Facts about the agent controllers *)

Module AgentFacts.
Import Py Re Parser Agents.

Local Notation "'let*' x ':=' m 'in' f" := (mbind m (fun x => f))
  (at level 200, x name, m at level 100, f at level 200).

(** A computation that returns, whatever the number of calls made before. *)
Definition total {A : Type} (m : M A) : Prop :=
  forall n, exists a n', m n = Ok (a, n').

Lemma mbind_ok {A B : Type} (m : M A) (f : A -> M B) n a n' :
  m n = Ok (a, n') -> mbind m f n = f a n'.
Proof. intros H. unfold mbind. rewrite H. reflexivity. Qed.

Lemma total_ret {A : Type} (a : A) : total (ret a).
Proof. intros n. exists a, n. reflexivity. Qed.

Lemma total_bind {A B : Type} (m : M A) (f : A -> M B) :
  total m -> (forall a, total (f a)) -> total (mbind m f).
Proof.
  intros Hm Hf n. destruct (Hm n) as (a & n' & E).
  rewrite (mbind_ok m f n a n' E). apply Hf.
Qed.

Lemma mbind_inv {A B : Type} (m : M A) (f : A -> M B) n b n'' :
  mbind m f n = Ok (b, n'') -> exists a n', m n = Ok (a, n') /\ f a n' = Ok (b, n'').
Proof. unfold mbind. destruct (m n) as [[a n']|e]; [eauto|discriminate]. Qed.

Lemma generate_inv (gateway : nat -> res string) n a n' :
  generate gateway n = Ok (a, n') -> gateway n = Ok a /\ n' = S n.
Proof.
  unfold generate. destruct (gateway n); [intros H; injection H as <- <-; auto|discriminate].
Qed.

(** Peel the gateway calls of a run that returned. *)
Ltac peel H :=
  repeat (cbv beta iota zeta in H;
          match type of H with
          | context [match generate ?g ?i with _ => _ end] =>
              let G := fresh "G" in let r := fresh "r" in let m := fresh "m" in
              destruct (generate g i) as [[r m]|?] eqn:G; [|discriminate H];
              apply generate_inv in G as [G ->]
          end).

Ltac ret_inv H := unfold ret in H; injection H as <- <- <- <- <-.

Section Gateway.
Context {Value Json : Type}.
Variable gateway : nat -> res string.
Variable json_loads : string -> res Json.
Variable is_decode_error : exn -> bool.
Variable json_dumps : Value -> res string.
Variable exn_str : exn -> string.

(** The gateway never raises. *)
Hypothesis Hok : forall i, exists r, gateway i = Ok r.

Lemma generate_ok n r : gateway n = Ok r -> generate gateway n = Ok (r, S n).
Proof. intros H. unfold generate. rewrite H. reflexivity. Qed.

Lemma total_generate : total (generate gateway).
Proof. intros n. destruct (Hok n) as [r E]. exists r, (S n). apply generate_ok, E. Qed.

Ltac tot :=
  repeat (cbv zeta;
          first [ apply total_ret
                | apply total_bind; [first [apply total_generate | idtac] | intros ?] ]).

Lemma ooda_loop_total (tools : list (tool Value Json)) fuel : forall k it d fa st,
  total (ooda_loop gateway json_dumps exn_str tools fuel k it d fa st).
Proof.
  induction fuel as [|fuel IH]; intros k it d fa st; simpl.
  - apply total_ret.
  - destruct (negb d && (it <? k)); [|apply total_ret].
    unfold stage_check_completion. tot. apply IH.
Qed.

Lemma bdi_loop_total (tools : list (tool Value Json)) fuel : forall k it d fa st,
  total (bdi_loop gateway json_dumps exn_str tools fuel k it d fa st).
Proof.
  induction fuel as [|fuel IH]; intros k it d fa st; simpl.
  - apply total_ret.
  - destruct (negb d && (it <? k)); [|apply total_ret].
    unfold stage_check_completion. tot. apply IH.
Qed.

Lemma react_loop_total (tools : list (tool Value Json)) fuel : forall k it d fa st,
  total (react_loop gateway json_loads is_decode_error json_dumps exn_str tools fuel k it d fa st).
Proof.
  induction fuel as [|fuel IH]; intros k it d fa st; simpl.
  - apply total_ret.
  - destruct (negb d && (it <? k)); [|apply total_ret].
    tot. destruct (ns_final_answer _) as [f|]; [destruct (nonempty_s f)|]; apply IH.
Qed.

Lemma ooda_execute_total (tools : list (tool Value Json)) aid k :
  total (ooda_execute gateway json_dumps exn_str tools aid k).
Proof.
  unfold ooda_execute. apply total_bind; [apply ooda_loop_total|].
  intros [[[it d] fa] st]. destruct d; tot.
Qed.

Lemma bdi_execute_total (tools : list (tool Value Json)) aid k :
  total (bdi_execute gateway json_dumps exn_str tools aid k).
Proof.
  unfold bdi_execute. apply total_bind; [apply bdi_loop_total|].
  intros [[[it d] fa] st]. destruct d; tot.
Qed.

Lemma react_execute_total (tools : list (tool Value Json)) aid k :
  total (react_execute gateway json_loads is_decode_error json_dumps exn_str tools aid k).
Proof.
  unfold react_execute. apply total_bind; [apply react_loop_total|].
  intros [[[it d] fa] st]. destruct d; tot.
Qed.

(** When the completion check of the first pass signals completion, the run
    stops there and its output is the answer [check_completion] returns. *)
Lemma ooda_completes_first (tools : list (tool Value Json)) aid k n r :
  gateway (3 + n) = Ok r -> completion_signal r = true ->
  exists res, ooda_execute gateway json_dumps exn_str tools aid (S k) n = Ok (res, 4 + n) /\
    output res = snd (check_completion r) /\
    dict_get "iterations" (metadata res) = Some (MNat 1).
Proof.
  intros Er Hc.
  cbv [ooda_execute ooda_loop stage_check_completion mbind generate ret negb andb Nat.ltb Nat.leb].
  destruct (Hok n) as [r0 E0]; rewrite E0; cbv beta iota zeta.
  destruct (Hok (S n)) as [r1 E1]; rewrite E1; cbv beta iota zeta.
  destruct (Hok (S (S n))) as [r2 E2]; rewrite E2; cbv beta iota zeta.
  simpl in Er. rewrite Er. cbv beta iota zeta.
  rewrite CompletionFacts.check_completion_spec, Hc. cbv beta iota zeta delta [fst snd].
  destruct k as [|k]; cbv beta iota zeta delta [negb andb]; eexists; split; try reflexivity;
    split; reflexivity.
Qed.

Lemma bdi_completes_first (tools : list (tool Value Json)) aid k n r :
  gateway (4 + n) = Ok r -> completion_signal r = true ->
  exists res, bdi_execute gateway json_dumps exn_str tools aid (S k) n = Ok (res, 5 + n) /\
    output res = snd (check_completion r) /\
    dict_get "iterations" (metadata res) = Some (MNat 1).
Proof.
  intros Er Hc.
  cbv [bdi_execute bdi_loop stage_check_completion mbind generate ret negb andb Nat.ltb Nat.leb].
  destruct (Hok n) as [r0 E0]; rewrite E0; cbv beta iota zeta.
  destruct (Hok (S n)) as [r1 E1]; rewrite E1; cbv beta iota zeta.
  destruct (Hok (S (S n))) as [r2 E2]; rewrite E2; cbv beta iota zeta.
  destruct (Hok (S (S (S n)))) as [r3 E3]; rewrite E3; cbv beta iota zeta.
  simpl in Er. rewrite Er. cbv beta iota zeta.
  rewrite CompletionFacts.check_completion_spec, Hc. cbv beta iota zeta delta [fst snd].
  destruct k as [|k]; cbv beta iota zeta delta [negb andb]; eexists; split; try reflexivity;
    split; reflexivity.
Qed.

End Gateway.

Lemma fst_check_completion r : fst (check_completion r) = completion_signal r.
Proof. rewrite CompletionFacts.check_completion_spec. reflexivity. Qed.

Section Passes.
Context {Value Json : Type}.
Variable gateway : nat -> res string.
Variable json_loads : string -> res Json.
Variable is_decode_error : exn -> bool.
Variable json_dumps : Value -> res string.
Variable exn_str : exn -> string.
Variable tools : list (tool Value Json).
Variable k : nat.

(** One pass of the OODA loop: four calls, four steps, the last one the
    result of [_execute_action], then the loop goes on with the answer of
    the completion check. *)
Lemma ooda_loop_pass fuel it fa st n r1 r2 r3 r4 :
  it < k -> gateway n = Ok r1 -> gateway (S n) = Ok r2 -> gateway (S (S n)) = Ok r3 ->
  gateway (S (S (S n))) = Ok r4 ->
  ooda_loop gateway json_dumps exn_str tools (S fuel) k it false fa st n =
  ooda_loop gateway json_dumps exn_str tools fuel k (S it)
    (completion_signal r4) (snd (check_completion r4))
    (st ++ [mk_step "observation" (ooda_extract r1 "observation");
            mk_step "orientation" (ooda_extract r2 "orientation");
            mk_step "decision" (ooda_extract r3 "decision");
            mk_step "action" (ooda_execute_action json_dumps exn_str tools (ooda_extract r3 "decision"))])
    (4 + n).
Proof.
  intros Hk E1 E2 E3 E4. cbn [ooda_loop].
  rewrite (proj2 (Nat.ltb_lt _ _) Hk). cbv [negb andb mbind stage_check_completion ret generate].
  rewrite E1, E2, E3, E4. rewrite fst_check_completion. reflexivity.
Qed.

(** One pass of the BDI loop: five calls, five steps, the last one the
    result of [_execute_actions]. *)
Lemma bdi_loop_pass fuel it fa st n r1 r2 r3 r4 r5 :
  it < k -> gateway n = Ok r1 -> gateway (S n) = Ok r2 -> gateway (S (S n)) = Ok r3 ->
  gateway (S (S (S n))) = Ok r4 -> gateway (S (S (S (S n)))) = Ok r5 ->
  bdi_loop gateway json_dumps exn_str tools (S fuel) k it false fa st n =
  bdi_loop gateway json_dumps exn_str tools fuel k (S it)
    (completion_signal r5) (snd (check_completion r5))
    (st ++ [mk_step "beliefs" (bdi_extract r1 "beliefs");
            mk_step "desires" (bdi_extract r2 "desires");
            mk_step "intentions" (bdi_extract r3 "intentions");
            mk_step "actions" (bdi_extract r4 "actions");
            mk_step "results" (bdi_execute_actions json_dumps exn_str tools (bdi_extract r4 "actions"))])
    (5 + n).
Proof.
  intros Hk E1 E2 E3 E4 E5. cbn [bdi_loop].
  rewrite (proj2 (Nat.ltb_lt _ _) Hk). cbv [negb andb mbind stage_check_completion ret generate].
  rewrite E1, E2, E3, E4, E5. rewrite fst_check_completion. reflexivity.
Qed.

(** One pass of the ReAct loop whose reply has an action: after the
    optional thought, the action is recorded with the observation that
    [_execute_action] returns, and the loop goes on. *)
Lemma react_loop_action_pass fuel it fa st n r a :
  it < k -> gateway n = Ok r -> ns_action (react_next_step r) = Some a -> nonempty_s a = true ->
  exists st0 d fa',
    (st0 = st \/ exists t, st0 = st ++ [mk_step "thought" t]) /\
    react_loop gateway json_loads is_decode_error json_dumps exn_str tools (S fuel) k it false fa st n =
    react_loop gateway json_loads is_decode_error json_dumps exn_str tools fuel k (S it) d fa'
      (st0 ++ [{| st_type := "action"; st_content := a;
                  st_extra := [("observation",
                                react_execute_action json_loads is_decode_error json_dumps exn_str
                                  tools a)] |}])
      (S n).
Proof.
  intros Hk E Ha Hne. cbn [react_loop].
  rewrite (proj2 (Nat.ltb_lt _ _) Hk). cbv [negb andb mbind ret generate].
  rewrite E. cbv beta iota zeta. rewrite Ha, Hne.
  set (st0 := match ns_thought (react_next_step r) with
              | Some thought => if nonempty_s thought then st ++ [mk_step "thought" thought] else st
              | None => st
              end).
  exists st0.
  destruct (ns_final_answer (react_next_step r)) as [f|]; [destruct (nonempty_s f)|];
    do 2 eexists; (split; [|reflexivity]);
    unfold st0; destruct (ns_thought _) as [t|]; try destruct (nonempty_s t); eauto.
Qed.

Hypothesis Hok : forall i, exists r, gateway i = Ok r.

(** When the completion check of pass [p + 1] of the OODA loop (counted
    from iteration [it]) is the first to say yes, the loop stops there with
    that check's answer. *)
Lemma ooda_loop_first_signal p : forall fuel it fa st n r,
  it + p < k -> p < fuel ->
  (forall j r', j < p -> gateway (n + 4 * j + 3) = Ok r' -> completion_signal r' = false) ->
  gateway (n + 4 * p + 3) = Ok r -> completion_signal r = true ->
  exists st', ooda_loop gateway json_dumps exn_str tools fuel k it false fa st n
              = Ok ((it + S p, true, snd (check_completion r), st'), n + 4 * S p).
Proof.
  induction p as [|p IH]; intros fuel it fa st n r Hk Hf Hb Er Hc;
    (destruct fuel as [|fuel]; [lia|]);
    destruct (Hok n) as [r1 E1]; destruct (Hok (S n)) as [r2 E2];
    destruct (Hok (S (S n))) as [r3 E3]; destruct (Hok (S (S (S n)))) as [r4 E4];
    rewrite (ooda_loop_pass fuel it fa st n r1 r2 r3 r4 ltac:(lia) E1 E2 E3 E4).
  - assert (r4 = r) as ->.
    { rewrite <- Nat.add_assoc in Er. simpl in Er. rewrite Nat.add_comm in Er. simpl in Er.
      congruence. }
    rewrite Hc. replace (it + 1) with (S it) by lia. replace (n + 4 * 1) with (4 + n) by lia.
    destruct fuel as [|fuel]; cbn [ooda_loop]; cbv [negb andb ret]; eexists; reflexivity.
  - assert (Hr4 : completion_signal r4 = false).
    { apply (Hb 0 r4); [lia|]. rewrite <- E4. f_equal. lia. }
    rewrite Hr4.
    match goal with
    | |- context [ooda_loop _ _ _ _ _ _ _ false ?fa1 ?st1 _] =>
        destruct (IH fuel (S it) fa1 st1 (4 + n) r ltac:(lia) ltac:(lia)) as (st' & EL)
    end.
    + intros j r' Hj Er'. apply (Hb (S j) r'); [lia|]. rewrite <- Er'. f_equal. lia.
    + rewrite <- Er. f_equal. lia.
    + exact Hc.
    + rewrite EL. exists st'. replace (S it + S p) with (it + S (S p)) by lia.
      replace (4 + n + 4 * S p) with (n + 4 * S (S p)) by lia. reflexivity.
Qed.

(** The same for BDI, whose completion check is the fifth call of a pass. *)
Lemma bdi_loop_first_signal p : forall fuel it fa st n r,
  it + p < k -> p < fuel ->
  (forall j r', j < p -> gateway (n + 5 * j + 4) = Ok r' -> completion_signal r' = false) ->
  gateway (n + 5 * p + 4) = Ok r -> completion_signal r = true ->
  exists st', bdi_loop gateway json_dumps exn_str tools fuel k it false fa st n
              = Ok ((it + S p, true, snd (check_completion r), st'), n + 5 * S p).
Proof.
  induction p as [|p IH]; intros fuel it fa st n r Hk Hf Hb Er Hc;
    (destruct fuel as [|fuel]; [lia|]);
    destruct (Hok n) as [r1 E1]; destruct (Hok (S n)) as [r2 E2];
    destruct (Hok (S (S n))) as [r3 E3]; destruct (Hok (S (S (S n)))) as [r4 E4];
    destruct (Hok (S (S (S (S n))))) as [r5 E5];
    rewrite (bdi_loop_pass fuel it fa st n r1 r2 r3 r4 r5 ltac:(lia) E1 E2 E3 E4 E5).
  - assert (r5 = r) as ->.
    { rewrite <- Nat.add_assoc in Er. simpl in Er. rewrite Nat.add_comm in Er. simpl in Er.
      congruence. }
    rewrite Hc. replace (it + 1) with (S it) by lia. replace (n + 5 * 1) with (5 + n) by lia.
    destruct fuel as [|fuel]; cbn [bdi_loop]; cbv [negb andb ret]; eexists; reflexivity.
  - assert (Hr5 : completion_signal r5 = false).
    { apply (Hb 0 r5); [lia|]. rewrite <- E5. f_equal. lia. }
    rewrite Hr5.
    match goal with
    | |- context [bdi_loop _ _ _ _ _ _ _ false ?fa1 ?st1 _] =>
        destruct (IH fuel (S it) fa1 st1 (5 + n) r ltac:(lia) ltac:(lia)) as (st' & EL)
    end.
    + intros j r' Hj Er'. apply (Hb (S j) r'); [lia|]. rewrite <- Er'. f_equal. lia.
    + rewrite <- Er. f_equal. lia.
    + exact Hc.
    + rewrite EL. exists st'. replace (S it + S p) with (it + S (S p)) by lia.
      replace (5 + n + 5 * S p) with (n + 5 * S (S p)) by lia. reflexivity.
Qed.

(** When the completion check of pass [q + 1] of an OODA run is the first
    to say yes, the run reports [q + 1] iterations and outputs the answer
    of that check. *)
Lemma ooda_completes_at aid q n r :
  q < k ->
  (forall j r', j < q -> gateway (n + 4 * j + 3) = Ok r' -> completion_signal r' = false) ->
  gateway (n + 4 * q + 3) = Ok r -> completion_signal r = true ->
  exists res, ooda_execute gateway json_dumps exn_str tools aid k n = Ok (res, n + 4 * S q) /\
    output res = snd (check_completion r) /\
    dict_get "iterations" (metadata res) = Some (MNat (S q)).
Proof.
  intros Hq Hb Er Hc.
  destruct (ooda_loop_first_signal q k 0 "" [] n r ltac:(lia) Hq Hb Er Hc) as (st' & EL).
  unfold ooda_execute, mbind. rewrite EL. cbv [ret].
  eexists. split; [reflexivity|]. split; reflexivity.
Qed.

Lemma bdi_completes_at aid q n r :
  q < k ->
  (forall j r', j < q -> gateway (n + 5 * j + 4) = Ok r' -> completion_signal r' = false) ->
  gateway (n + 5 * q + 4) = Ok r -> completion_signal r = true ->
  exists res, bdi_execute gateway json_dumps exn_str tools aid k n = Ok (res, n + 5 * S q) /\
    output res = snd (check_completion r) /\
    dict_get "iterations" (metadata res) = Some (MNat (S q)).
Proof.
  intros Hq Hb Er Hc.
  destruct (bdi_loop_first_signal q k 0 "" [] n r ltac:(lia) Hq Hb Er Hc) as (st' & EL).
  unfold bdi_execute, mbind. rewrite EL. cbv [ret].
  eexists. split; [reflexivity|]. split; reflexivity.
Qed.

End Passes.

(** The gateway never signals completion: neither the completion check of
    OODA and BDI nor a final answer for ReAct. *)
Definition never_completes (gateway : nat -> res string) : Prop :=
  forall i r, gateway i = Ok r ->
    completion_signal r = false /\ r_final_answer (react_parse r) = EmptyString.

Lemma react_no_final_answer r :
  r_final_answer (react_parse r) = EmptyString -> ns_final_answer (react_next_step r) = None.
Proof.
  intros H. unfold react_next_step. rewrite H.
  destruct (rev (r_cycles (react_parse r))) as [|c cs]; simpl;
    [reflexivity|]. destruct (has (rc_thought c) || has (rc_action c)); reflexivity.
Qed.

Section Budget.
Context {Value Json : Type}.
Variable gateway : nat -> res string.
Variable json_loads : string -> res Json.
Variable is_decode_error : exn -> bool.
Variable json_dumps : Value -> res string.
Variable exn_str : exn -> string.
Hypothesis Hok : forall i, exists r, gateway i = Ok r.
Hypothesis Hnever : never_completes gateway.

Ltac step_call n :=
  let r := fresh "r" in let E := fresh "E" in
  destruct (Hok n) as [r E]; rewrite E; cbv beta iota zeta delta [fst snd].

Lemma ooda_budget_one (tools : list (tool Value Json)) aid n :
  exists r res, gateway (4 + n) = Ok r /\
    ooda_execute gateway json_dumps exn_str tools aid 1 n = Ok (res, 5 + n) /\
    output res = (not_completed ++ r)%string /\
    dict_get "iterations" (metadata res) = Some (MNat 1).
Proof.
  cbv [ooda_execute ooda_loop stage_check_completion mbind generate ret negb andb Nat.ltb Nat.leb].
  step_call n. step_call (S n). step_call (S (S n)). step_call (S (S (S n))).
  rewrite CompletionFacts.check_completion_spec, (proj1 (Hnever _ _ E2)). cbv beta iota zeta delta [fst snd].
  step_call (S (S (S (S n)))).
  eexists _, _. split; [exact E3|]. split; [reflexivity|]. split; reflexivity.
Qed.

Lemma bdi_budget_one (tools : list (tool Value Json)) aid n :
  exists r res, gateway (5 + n) = Ok r /\
    bdi_execute gateway json_dumps exn_str tools aid 1 n = Ok (res, 6 + n) /\
    output res = (not_completed ++ r)%string /\
    dict_get "iterations" (metadata res) = Some (MNat 1).
Proof.
  cbv [bdi_execute bdi_loop stage_check_completion mbind generate ret negb andb Nat.ltb Nat.leb].
  step_call n. step_call (S n). step_call (S (S n)). step_call (S (S (S n))).
  step_call (S (S (S (S n)))).
  rewrite CompletionFacts.check_completion_spec, (proj1 (Hnever _ _ E3)).
  cbv beta iota zeta delta [fst snd].
  step_call (S (S (S (S (S n))))).
  eexists _, _. split; [exact E4|]. split; [reflexivity|]. split; reflexivity.
Qed.

(** ReAct makes one call in its only pass, and reports one iteration. *)
Lemma react_budget_one (tools : list (tool Value Json)) aid n :
  exists r res, gateway (1 + n) = Ok r /\
    react_execute gateway json_loads is_decode_error json_dumps exn_str tools aid 1 n
      = Ok (res, 2 + n) /\
    output res = (not_completed ++ r)%string /\
    dict_get "iterations" (metadata res) = Some (MNat 1).
Proof.
  cbv [react_execute react_loop mbind generate ret negb andb Nat.ltb Nat.leb].
  step_call n.
  rewrite (react_no_final_answer _ (proj2 (Hnever _ _ E))).
  cbv beta iota zeta delta [fst snd negb andb Nat.ltb Nat.leb].
  step_call (S n).
  eexists _, _. split; [exact E0|]. split; [reflexivity|]. split; reflexivity.
Qed.

End Budget.

End AgentFacts.

(** ** Facts about the RAISE controller *)

Module RaiseFacts.
Import Py Re Parser Agents RaisePad RaiseAgent AgentFacts.

Lemma update_scratch_pad_err sp section content e :
  update_scratch_pad sp section content = Err e -> e = IndexError "list index out of range".
Proof.
  unfold update_scratch_pad. destruct (search _ _); [|discriminate].
  destruct (split_once _ _) as [[part0 part1]|]; [|congruence].
  destruct (split_once part1 _) as [[? ?]|]; discriminate.
Qed.

Lemma lift_inv {A : Type} (x : res A) n a n' : lift x n = Ok (a, n') -> x = Ok a /\ n' = n.
Proof. unfold lift. destruct x; [intros H; injection H as <- <-; auto|discriminate]. Qed.

Lemma ret_inv {A : Type} (a b : A) n n' : ret a n = Ok (b, n') -> a = b /\ n' = n.
Proof. unfold ret. intros H. injection H as <- <-. auto. Qed.

(** The only exception a computation raises is the [IndexError] of
    [_update_scratch_pad]. *)
Definition index_error_only {A : Type} (m : M A) : Prop :=
  forall n e, m n = Err e -> e = IndexError "list index out of range".

Lemma ieo_ret {A : Type} (a : A) : index_error_only (ret a).
Proof. intros n e H. discriminate. Qed.

Lemma ieo_bind {A B : Type} (m : M A) (f : A -> M B) :
  index_error_only m -> (forall a, index_error_only (f a)) -> index_error_only (mbind m f).
Proof.
  intros Hm Hf n e. unfold mbind. destruct (m n) as [[a n']|e'] eqn:E; [apply Hf|].
  intros H. injection H as <-. exact (Hm n e' E).
Qed.

Lemma ieo_lift_update sp section content : index_error_only (lift (update_scratch_pad sp section content)).
Proof.
  intros n e. unfold lift. destruct (update_scratch_pad sp section content) eqn:E; [discriminate|].
  intros H. injection H as <-. exact (update_scratch_pad_err _ _ _ _ E).
Qed.

Section Raise.
Context {Value Json : Type}.
Variable gateway : nat -> res string.
Variable json_dumps : Value -> res string.
Variable exn_str : exn -> string.
Variable tools : list (tool Value Json).

(** After the checks of every earlier pass said no, the pass whose check
    says yes ends the loop, with the answer of that check. *)
Lemma raise_pass_check sp st n sp' st' c n' :
  raise_pass gateway json_dumps exn_str tools sp st n = Ok ((sp', st', c), n') ->
  exists m r, n' = S m /\ gateway m = Ok r /\ c = check_completion r.
Proof.
  unfold raise_pass. intros H.
  repeat (cbv beta zeta in H;
          match type of H with
          | mbind _ _ _ = Ok _ => apply mbind_inv in H as (? & ? & ? & H)
          | (match ?x with pair _ _ => _ end) _ = Ok _ => destruct x
          end).
  apply ret_inv in H as [H ->]. injection H as _ _ <-.
  match goal with
  | G : stage_check_completion _ _ = Ok _ |- _ =>
      unfold stage_check_completion in G; apply mbind_inv in G as (r & m & G & G');
      apply generate_inv in G as [G ->]; apply ret_inv in G' as [<- ->]
  end.
  eauto.
Qed.

Lemma raise_loop_stops k fuel it fa sp st n sp' st' c n' :
  it < k -> raise_pass gateway json_dumps exn_str tools sp st n = Ok ((sp', st', c), n') ->
  fst c = true ->
  raise_loop gateway json_dumps exn_str tools (S fuel) k it false fa sp st n
    = Ok ((S it, true, snd c, sp', st'), n').
Proof.
  intros Hk Hp Hc. cbn [raise_loop]. rewrite (proj2 (Nat.ltb_lt _ _) Hk).
  cbv [negb andb mbind]. rewrite Hp. destruct c as [b a]. simpl in Hc. subst b.
  destruct fuel; reflexivity.
Qed.

Lemma raise_loop_done k fuel : forall it fa sp st n it' fa' sp' st' n',
  raise_loop gateway json_dumps exn_str tools fuel k it false fa sp st n
    = Ok ((it', true, fa', sp', st'), n') ->
  exists m r, n' = S m /\ gateway m = Ok r /\ check_completion r = (true, fa').
Proof.
  induction fuel as [|fuel IH]; intros it fa sp st n it' fa' sp' st' n' H; cbn [raise_loop] in H.
  - apply ret_inv in H as [H _]. discriminate.
  - destruct (it <? k); cbv [negb andb] in H; [|apply ret_inv in H as [H _]; discriminate].
    apply mbind_inv in H as ([[sp1 st1] [b a]] & n1 & HP & H). cbv beta iota zeta in H.
    apply raise_pass_check in HP as (m & r & -> & Hr & Hc).
    destruct b; [|exact (IH _ _ _ _ _ _ _ _ _ _ H)].
    destruct fuel; cbn [raise_loop] in H; cbv [negb andb] in H; apply ret_inv in H as [H ->];
      injection H as _ <- _ _; exists m, r; auto.
Qed.

(** Whatever [RAISEAgent.execute] returns, its output is either the answer
    of a completion check that said yes, the reply to its last call, or the
    not-completed notice followed by that reply. *)
Lemma raise_execute_output aid task k n res0 n' :
  raise_execute gateway json_dumps exn_str tools aid task k n = Ok (res0, n') ->
  exists m r, n' = S m /\ gateway m = Ok r /\
    (check_completion r = (true, output res0) \/ output res0 = (not_completed ++ r)%string).
Proof.
  unfold raise_execute. intros H.
  apply mbind_inv in H as (sp0 & n1 & _ & H).
  apply mbind_inv in H as ([[[[it d] fa] sp] st] & n2 & HL & H). cbv beta iota zeta in H.
  destruct d.
  - apply raise_loop_done in HL as (m & r & -> & Hr & Hc).
    apply mbind_inv in H as (fa1 & n3 & H1 & H). apply ret_inv in H1 as [<- ->].
    apply ret_inv in H as [<- ->]. exists m, r. auto.
  - apply mbind_inv in H as (fa1 & n3 & H1 & H). apply mbind_inv in H1 as (r & m & G & H1).
    apply generate_inv in G as [G ->]. apply ret_inv in H1 as [<- ->].
    apply ret_inv in H as [<- ->]. exists n2, r. auto.
Qed.

(** With budget 1 and a gateway that never says yes to a completion check,
    a run that returns reports one iteration and outputs the notice
    followed by the reply to its last call. *)
Lemma raise_budget_one aid task n res0 n' :
  (forall i r, gateway i = Ok r -> completion_signal r = false) ->
  raise_execute gateway json_dumps exn_str tools aid task 1 n = Ok (res0, n') ->
  exists m r, n' = S m /\ gateway m = Ok r /\ output res0 = (not_completed ++ r)%string /\
    dict_get "iterations" (metadata res0) = Some (MNat 1).
Proof.
  intros Hno H. unfold raise_execute in H.
  apply mbind_inv in H as (sp0 & n1 & _ & H).
  apply mbind_inv in H as ([[[[it d] fa] sp] st] & n2 & HL & H). cbv beta iota zeta in H.
  cbn [raise_loop] in HL. cbv [negb andb Nat.ltb Nat.leb] in HL.
  apply mbind_inv in HL as ([[sp1 st1] [b a]] & n3 & HP & HL). cbv beta iota zeta in HL.
  apply raise_pass_check in HP as (m & r & -> & Hr & Hc).
  assert (Hb : b = false)
    by (pose proof (fst_check_completion r) as F; rewrite <- Hc in F; simpl in F;
        rewrite F; apply (Hno _ _ Hr)).
  subst b. cbn [raise_loop] in HL.
  apply ret_inv in HL as [HL ->]. injection HL as <- <- <- <- <-.
  apply mbind_inv in H as (fa1 & n3 & H1 & H). apply mbind_inv in H1 as (r1 & m1 & G & H1).
  apply generate_inv in G as [G ->]. apply ret_inv in H1 as [<- ->].
  apply ret_inv in H as [<- ->]. exists (S m), r1. auto.
Qed.

(** When [_should_use_tools] says yes, the pass records the string that
    [_use_tools] returns as its [tool_results] step. *)
Lemma raise_pass_tool_results sp st n sp' st' c n' r3 r4 :
  tools <> [] -> gateway (S (S n)) = Ok r3 -> says_yes r3 = true ->
  gateway (S (S (S n))) = Ok r4 ->
  raise_pass gateway json_dumps exn_str tools sp st n = Ok ((sp', st', c), n') ->
  exists ex th ob,
    st' = st ++ [mk_step "examples" ex; mk_step "thoughts" th;
                 mk_step "tool_results" (tool_result json_dumps exn_str tools r4);
                 mk_step "observations" ob].
Proof.
  intros Ht E3 Hy E4 H. unfold raise_pass in H.
  apply mbind_inv in H as (ex & n1 & G & H). apply generate_inv in G as [_ ->].
  apply mbind_inv in H as (sp1 & n2 & L & H). apply lift_inv in L as [_ ->]. cbv beta zeta in H.
  apply mbind_inv in H as (th & n3 & G & H). apply generate_inv in G as [_ ->].
  apply mbind_inv in H as (sp2 & n4 & L & H). apply lift_inv in L as [_ ->]. cbv beta zeta in H.
  apply mbind_inv in H as (b & n5 & G & H).
  destruct tools as [|t ts]; [congruence|]. unfold should_use_tools in G.
  apply mbind_inv in G as (r & n6 & G' & G). apply generate_inv in G' as [G' ->].
  rewrite E3 in G'. injection G' as <-. apply ret_inv in G as [<- ->]. rewrite Hy in H.
  apply mbind_inv in H as ([sp3 st3] & n7 & B & H).
  unfold use_tools in B. apply mbind_inv in B as (tr & n8 & B1 & B).
  apply mbind_inv in B1 as (r' & n9 & G & B1). apply generate_inv in G as [G ->].
  rewrite E4 in G. injection G as <-. apply ret_inv in B1 as [<- ->].
  apply mbind_inv in B as (sp4 & n10 & L & B). apply lift_inv in L as [_ ->]. cbv beta zeta in B.
  apply mbind_inv in B as (ob & n11 & G & B). apply generate_inv in G as [_ ->].
  apply mbind_inv in B as (sp5 & n12 & L & B). apply lift_inv in L as [_ ->].
  apply ret_inv in B as [B ->]. injection B as <- <-. cbv beta iota zeta in H.
  apply mbind_inv in H as (up & n13 & _ & H). apply mbind_inv in H as (sp6 & n14 & _ & H).
  apply mbind_inv in H as (c' & n15 & _ & H). apply ret_inv in H as [H _].
  injection H as _ <- _. exists ex, th, ob. rewrite <- !app_assoc. reflexivity.
Qed.

Hypothesis Hok : forall i, exists r, gateway i = Ok r.

Lemma ieo_generate : index_error_only (generate gateway).
Proof. intros n e. unfold generate. destruct (Hok n) as [r E]. rewrite E. discriminate. Qed.

Ltac ieo :=
  repeat (cbv beta zeta;
          match goal with
          | |- index_error_only (ret _) => apply ieo_ret
          | |- index_error_only (generate _) => apply ieo_generate
          | |- index_error_only (lift (update_scratch_pad _ _ _)) => apply ieo_lift_update
          | |- index_error_only (mbind _ _) => apply ieo_bind; [|intros ?]
          | |- index_error_only (match ?x with _ => _ end) => destruct x
          | |- index_error_only (stage_check_completion _) => unfold stage_check_completion
          | |- index_error_only (should_use_tools _ _) => unfold should_use_tools
          | |- index_error_only (use_tools _ _ _ _) => unfold use_tools
          | |- index_error_only (initialize_scratch_pad _ _ _) => unfold initialize_scratch_pad
          end).

Lemma raise_pass_ieo sp st : index_error_only (raise_pass gateway json_dumps exn_str tools sp st).
Proof. unfold raise_pass. ieo. Qed.

Lemma raise_loop_ieo k fuel : forall it d fa sp st,
  index_error_only (raise_loop gateway json_dumps exn_str tools fuel k it d fa sp st).
Proof.
  induction fuel as [|fuel IH]; intros it d fa sp st; cbn [raise_loop]; [apply ieo_ret|].
  destruct (negb d && (it <? k)); [|apply ieo_ret].
  apply ieo_bind; [apply raise_pass_ieo|]. intros [[sp1 st1] c]. apply IH.
Qed.

(** A RAISE run on a gateway that never raises raises nothing but the
    [IndexError] of [_update_scratch_pad]. *)
Lemma raise_execute_ieo aid task k :
  index_error_only (raise_execute gateway json_dumps exn_str tools aid task k).
Proof.
  unfold raise_execute. apply ieo_bind; [unfold initialize_scratch_pad; ieo|intros sp].
  apply ieo_bind; [apply raise_loop_ieo|]. intros [[[[it d] fa] sp1] st]. ieo.
Qed.

End Raise.

End RaiseFacts.

(** ** What a raising or unknown tool gives, controller by controller *)

Module ToolFacts.
Import Py Re Parser Agents RaiseAgent.

Section Tools.
Context {Value Json : Type}.
Variable json_loads : string -> res Json.
Variable is_decode_error : exn -> bool.
Variable json_dumps : Value -> res string.
Variable exn_str : exn -> string.
Variable tools : list (tool Value Json).

Lemma ooda_action_raises decision m t e :
  let s := list_ascii_of_string decision in
  search tool_pat s = Some m ->
  find_tool tools (lower (strip (group s m 1))) = Some t ->
  tool_execute t (Query (strip (group s m 2))) = Err e ->
  ooda_execute_action json_dumps exn_str tools decision
    = ("Error executing tool " ++ tool_name t ++ ": " ++ exn_str e)%string.
Proof. intros s Hm Ht He. unfold ooda_execute_action. fold s. rewrite Hm, Ht, He. reflexivity. Qed.

Lemma ooda_action_unknown decision m :
  let s := list_ascii_of_string decision in
  search tool_pat s = Some m ->
  find_tool tools (lower (strip (group s m 1))) = None ->
  ooda_execute_action json_dumps exn_str tools decision
    = ("Could not find tool '" ++ lower (strip (group s m 1)) ++ "'. Available tools: "
       ++ tool_names tools)%string.
Proof. intros s Hm Ht. unfold ooda_execute_action. fold s. rewrite Hm, Ht. reflexivity. Qed.

Lemma bdi_action_raises actions m t e :
  let s := list_ascii_of_string actions in
  search tool_pat s = Some m ->
  find_tool tools (lower (strip (group s m 1))) = Some t ->
  tool_execute t (Query (strip (group s m 2))) = Err e ->
  bdi_execute_actions json_dumps exn_str tools actions
    = ("Error executing tool " ++ tool_name t ++ ": " ++ exn_str e)%string.
Proof. intros s Hm Ht He. unfold bdi_execute_actions. fold s. rewrite Hm, Ht, He. reflexivity. Qed.

Lemma bdi_action_unknown actions m :
  let s := list_ascii_of_string actions in
  search tool_pat s = Some m ->
  find_tool tools (lower (strip (group s m 1))) = None ->
  bdi_execute_actions json_dumps exn_str tools actions
    = ("Could not find tool '" ++ lower (strip (group s m 1)) ++ "'.")%string.
Proof. intros s Hm Ht. unfold bdi_execute_actions. fold s. rewrite Hm, Ht. reflexivity. Qed.

Lemma raise_tool_raises response m t e :
  let s := list_ascii_of_string response in
  search tool_pat s = Some m ->
  find_tool tools (lower (strip (group s m 1))) = Some t ->
  tool_execute t (Query (strip (group s m 2))) = Err e ->
  tool_result json_dumps exn_str tools response
    = ("Error executing tool " ++ tool_name t ++ ": " ++ exn_str e)%string.
Proof. intros s Hm Ht He. unfold tool_result. fold s. rewrite Hm, Ht, He. reflexivity. Qed.

Lemma raise_tool_unknown response m :
  let s := list_ascii_of_string response in
  search tool_pat s = Some m ->
  find_tool tools (lower (strip (group s m 1))) = None ->
  tool_result json_dumps exn_str tools response
    = ("Could not find tool '" ++ lower (strip (group s m 1)) ++ "'. Available tools: "
       ++ tool_names tools)%string.
Proof. intros s Hm Ht. unfold tool_result. fold s. rewrite Hm, Ht. reflexivity. Qed.

(** Whatever the body of the [try] of [ReActAgent._execute_action] raises
    becomes the observation. *)
Lemma react_action_caught action e :
  react_try_action json_loads is_decode_error json_dumps tools action = Err e ->
  react_execute_action json_loads is_decode_error json_dumps exn_str tools action
    = ("Error executing action: " ++ exn_str e)%string.
Proof. intros H. unfold react_execute_action. rewrite H. reflexivity. Qed.

Lemma react_action_raises action m params t e :
  let s := list_ascii_of_string action in
  search react_tool_pat s = Some m ->
  react_parameters json_loads is_decode_error (strip (group s m 2)) = Ok params ->
  find_tool tools (lower (strip (group s m 1))) = Some t ->
  tool_execute t params = Err e ->
  react_execute_action json_loads is_decode_error json_dumps exn_str tools action
    = ("Error executing action: " ++ exn_str e)%string.
Proof.
  intros s Hm Hp Ht He. apply react_action_caught.
  unfold react_try_action. fold s. rewrite Hm. cbv zeta. rewrite Hp. simpl. rewrite Ht, He. reflexivity.
Qed.

Lemma react_action_unknown action m params :
  let s := list_ascii_of_string action in
  search react_tool_pat s = Some m ->
  react_parameters json_loads is_decode_error (strip (group s m 2)) = Ok params ->
  find_tool tools (lower (strip (group s m 1))) = None ->
  react_execute_action json_loads is_decode_error json_dumps exn_str tools action
    = ("Error: Tool '" ++ strip (group s m 1) ++ "' not found. Available tools: "
       ++ tool_names tools)%string.
Proof.
  intros s Hm Hp Ht. unfold react_execute_action, react_try_action. fold s. rewrite Hm. cbv zeta.
  rewrite Hp. simpl. rewrite Ht. reflexivity.
Qed.

Lemma react_search_raises action m t e :
  let s := list_ascii_of_string action in
  search react_tool_pat s = None ->
  search react_search_pat s = Some m ->
  find_tool tools "search" = Some t ->
  tool_execute t (Query (strip (group s m 1))) = Err e ->
  react_execute_action json_loads is_decode_error json_dumps exn_str tools action
    = ("Error executing action: " ++ exn_str e)%string.
Proof.
  intros s Hn Hm Ht He. apply react_action_caught.
  unfold react_try_action. fold s. rewrite Hn, Hm. cbv zeta. rewrite Ht, He. reflexivity.
Qed.

(** [find_tool] on a lowercased name: the first tool whose lowercased name
    is that name, or none when no tool's lowercased name is. *)
Lemma find_tool_some name t :
  find_tool tools name = Some t ->
  lower (tool_name t) = name /\
  exists before after, tools = before ++ t :: after /\
    forall t', In t' before -> lower (tool_name t') <> name.
Proof.
  unfold find_tool. induction tools as [|t0 ts IH]; simpl; [discriminate|].
  destruct (String.eqb (lower (tool_name t0)) name) eqn:Eq.
  - intros E. injection E as <-. apply String.eqb_eq in Eq.
    split; [exact Eq|]. exists [], ts. split; [reflexivity|]. intros t' [].
  - intros E. destruct (IH E) as (Hn & before & after & -> & Hb).
    split; [exact Hn|]. exists (t0 :: before), after. split; [reflexivity|].
    intros t' [<-|Ht']; [|apply Hb, Ht'].
    apply String.eqb_neq, Eq.
Qed.

Lemma find_tool_none name :
  find_tool tools name = None -> forall t, In t tools -> lower (tool_name t) <> name.
Proof.
  intros E t Ht. unfold find_tool in E.
  pose proof (find_none _ _ E t Ht) as H. simpl in H. apply String.eqb_neq, H.
Qed.

End Tools.

End ToolFacts.

(** ** Example gateways and tools for the agent controllers *)

Module AgentExamples.
Import Py Agents.

(** A gateway that always answers [no]. *)
Definition gw_no : nat -> res string := fun _ => Ok "no".

(** A gateway that always answers [ yes ], with the spaces. *)
Definition gw_yes : nat -> res string := fun _ => Ok " yes ".

(** A gateway that always asks for the [calc] tool. *)
Definition gw_calc : nat -> res string := fun _ => Ok "use calc with 2+2".

(** A ReAct reply with a thought and an action naming the [calc] tool. *)
Definition gw_react_calc : nat -> res string :=
  fun _ => Ok ("Thought: compute" ++ String "010"%char EmptyString ++ "Action: use calc with 2+2")%string.

(** A tool whose [execute] always raises. *)
Definition failing_calc : tool nat nat :=
  {| tool_name := "Calc"; tool_description := "arithmetic";
     tool_execute := fun _ => Err (Raised "boom") |}.

Definition dumps_nat (v : nat) : res string := Ok (str_nat v).

Definition exn_text (e : exn) : string :=
  match e with
  | ValueError m | IndexError m | Raised m => m
  | KeyError k => k
  | RecursionError => "maximum recursion depth exceeded"
  end.

Definition no_json (s : string) : res nat := Err (ValueError "Expecting value").

(** A gateway that answers [no] to the completion check of the first OODA
    pass (call 3) and [ yes ] to the one of the second (call 7). *)
Definition gw_yes_second : nat -> res string :=
  fun i => if Nat.eqb i 7 then Ok " yes " else Ok "no".

(** A gateway whose reply is a scratch pad with an [EXAMPLES] section, in
    capitals. *)
Definition gw_caps_pad : nat -> res string :=
  fun _ => Ok ("# pad" ++ String "010" EmptyString ++ "## EXAMPLES" ++ String "010" EmptyString
               ++ "x")%string.

(** A gateway for one RAISE pass: a scratch pad, examples, thoughts, yes to
    the use of tools, a call of the [calc] tool, then [no]. *)
Definition gw_raise_calc : nat -> res string :=
  fun i => Ok (nth i ["# Scratch Pad"; "e"; "t"; "yes"; "use calc with 2+2"] "no")%string.

(** A tool whose exception text holds a scratch pad header in lower case. *)
Definition failing_calc_header : tool nat nat :=
  {| tool_name := "Calc"; tool_description := "arithmetic";
     tool_execute := fun _ => Err (Raised ("## observations" ++ String "010" EmptyString)%string) |}.

End AgentExamples.

(** ** The claims on the agent controllers *)

Module AgentClaims.
Import Py Re Parser Agents RaiseAgent AgentFacts RaiseFacts ToolFacts AgentExamples.

(** C5 (amended): the completion check that OODA, BDI and RAISE share
    signals completion exactly when [yes] or [complete] occurs in the first
    100 characters of the lowered reply; its answer is the stripped reply,
    replaced, when it signals completion, by the stripped text after the
    first [final answer] (any case), less one optional colon, when the
    stripped reply has that marker.  At whichever pass it comes, the first
    check that says yes ends the run and its answer is the output: OODA and
    BDI then report the number of that pass as their iteration count; every
    RAISE pass ends with the check, a check that says yes stops the loop
    with its answer, and a RAISE run that returns outputs either the answer
    of a check that said yes to its last call, or the not-completed notice
    followed by the reply to its last call. *)
Theorem completion_check_output {Value Json : Type} (gateway : nat -> res string)
    (json_dumps : Value -> res string) (exn_str : exn -> string)
    (tools : list (tool Value Json)) (aid task : string) (k n : nat)
    (Hok : forall i, exists r, gateway i = Ok r) :
  let answer (response : string) :=
    if completion_signal response then
      match text_after_marker (strip response) with
      | Some rest => strip rest
      | None => strip response
      end
    else strip response in
  (forall response, completion_signal response =
     (contains "yes" (take 100 (lower response)) || contains "complete" (take 100 (lower response)))) /\
  (forall response m, gateway m = Ok response ->
     stage_check_completion gateway m = Ok ((completion_signal response, answer response), S m)) /\
  (forall q response, q < k ->
     (forall j r, j < q -> gateway (n + 4 * j + 3) = Ok r -> completion_signal r = false) ->
     gateway (n + 4 * q + 3) = Ok response -> completion_signal response = true ->
     exists res, ooda_execute gateway json_dumps exn_str tools aid k n = Ok (res, n + 4 * S q) /\
       output res = answer response /\
       dict_get "iterations" (metadata res) = Some (MNat (S q))) /\
  (forall q response, q < k ->
     (forall j r, j < q -> gateway (n + 5 * j + 4) = Ok r -> completion_signal r = false) ->
     gateway (n + 5 * q + 4) = Ok response -> completion_signal response = true ->
     exists res, bdi_execute gateway json_dumps exn_str tools aid k n = Ok (res, n + 5 * S q) /\
       output res = answer response /\
       dict_get "iterations" (metadata res) = Some (MNat (S q))) /\
  (forall sp st m sp' st' c m',
     raise_pass gateway json_dumps exn_str tools sp st m = Ok ((sp', st', c), m') ->
     exists m0 response, m' = S m0 /\ gateway m0 = Ok response /\
       c = (completion_signal response, answer response)) /\
  (forall fuel it fa sp st m sp' st' c m', it < k ->
     raise_pass gateway json_dumps exn_str tools sp st m = Ok ((sp', st', c), m') ->
     fst c = true ->
     raise_loop gateway json_dumps exn_str tools (S fuel) k it false fa sp st m
       = Ok ((S it, true, snd c, sp', st'), m')) /\
  (forall res n', raise_execute gateway json_dumps exn_str tools aid task k n = Ok (res, n') ->
     exists m response, n' = S m /\ gateway m = Ok response /\
       ((completion_signal response = true /\ output res = answer response) \/
        output res = (not_completed ++ response)%string)).
Proof.
  intros answer.
  assert (Hans : forall r, check_completion r = (completion_signal r, answer r))
    by (intros r; apply CompletionFacts.check_completion_spec).
  split; [intros response; reflexivity|].
  split; [|split; [|split; [|split; [|split]]]].
  - intros response m E. unfold stage_check_completion, mbind, ret.
    rewrite (generate_ok gateway m response E), Hans. reflexivity.
  - intros q response Hq Hb E Hc.
    destruct (ooda_completes_at gateway json_dumps exn_str tools k Hok aid q n response Hq Hb E Hc)
      as (res & H1 & H2 & H3).
    exists res. rewrite Hans in H2. auto.
  - intros q response Hq Hb E Hc.
    destruct (bdi_completes_at gateway json_dumps exn_str tools k Hok aid q n response Hq Hb E Hc)
      as (res & H1 & H2 & H3).
    exists res. rewrite Hans in H2. auto.
  - intros sp st m sp' st' c m' H.
    destruct (raise_pass_check gateway json_dumps exn_str tools sp st m sp' st' c m' H)
      as (m0 & r & -> & E & ->).
    exists m0, r. rewrite Hans. auto.
  - intros fuel it fa sp st m sp' st' c m' Hk H Hc.
    exact (raise_loop_stops gateway json_dumps exn_str tools k fuel it fa sp st m sp' st' c m' Hk H Hc).
  - intros res n' H.
    destruct (raise_execute_output gateway json_dumps exn_str tools aid task k n res n' H)
      as (m & r & -> & E & [Hc|Ho]).
    + exists m, r. rewrite Hans in Hc. injection Hc as H1 H2. auto.
    + exists m, r. auto.
Qed.

(** An OODA run whose first check says no and whose second says yes. *)
Lemma completion_check_output_witness :
  (forall i, exists r, gw_yes_second i = Ok r) /\
  exists res, ooda_execute gw_yes_second dumps_nat exn_text ([] : list (tool nat nat)) "agent" 2 0
                = Ok (res, 8) /\
    output res = "yes" /\ dict_get "iterations" (metadata res) = Some (MNat 2).
Proof.
  assert (Hok : forall i, exists r, gw_yes_second i = Ok r)
    by (intros i; unfold gw_yes_second; destruct (Nat.eqb i 7); eexists; reflexivity).
  split; [exact Hok|].
  destruct (completion_check_output gw_yes_second dumps_nat exn_text ([] : list (tool nat nat))
              "agent" "task" 2 0 Hok) as (_ & _ & Ho & _).
  destruct (Ho 1 " yes ") as (res & H1 & H2 & H3).
  - lia.
  - intros j r Hj E. assert (j = 0) as -> by lia. injection E as <-. vm_compute. reflexivity.
  - reflexivity.
  - vm_compute. reflexivity.
  - exists res. split; [exact H1|]. split; [rewrite H2; vm_compute; reflexivity|exact H3].
Defined.

(** C5 (counterexample): a completing reply with no [final answer] marker
    is not output whole: the OODA run on the reply [" yes "] outputs
    ["yes"]. *)
Lemma completion_output_is_stripped :
  check_completion " yes " = (true, "yes") /\
  exists res, ooda_execute gw_yes dumps_nat exn_text ([] : list (tool nat nat)) "agent" 1 0
                = Ok (res, 4) /\ output res = "yes" /\ output res <> " yes ".
Proof.
  split; [vm_compute; reflexivity|].
  eexists. split; [vm_compute; reflexivity|]. split; [reflexivity|discriminate].
Qed.

Lemma gw_no_never_completes : never_completes gw_no.
Proof. intros i r E. injection E as <-. split; vm_compute; reflexivity. Qed.







(** A ReAct run whose only tool raises: the exception text is the
    observation of the action and the run returns. *)
Lemma failing_tool_observed :
  exists res, react_execute gw_react_calc no_json (fun _ => true) dumps_nat exn_text
                [failing_calc] "agent" 1 0 = Ok (res, 2) /\
     In {| st_type := "action"; st_content := "use calc with 2+2";
           st_extra := [("observation", "Error executing action: boom")] |}
        (intermediate_steps res).
Proof. eexists. split; [vm_compute; reflexivity|]. vm_compute; tauto. Qed.

(** C9 (counterexample): [run] with the [format_output] keyword left out
    returns the formatted text, not the result record. *)
Lemma run_returns_text :
  exists text, run false (ooda_execute gw_no dumps_nat exn_text ([] : list (tool nat nat)) "agent" 1)
                 None 0 = Ok (Formatted text, 5) /\
    startswith text "Result from OODA Agent:" = true.
Proof. eexists. split; [vm_compute; reflexivity|]. vm_compute. reflexivity. Qed.

(** C9 (amended): [run] returns [format_output(result, verbose)] of the
    record [result] that [execute] returns, unless [format_output=False] is
    passed, when it returns that record; it raises exactly when [execute]
    raises.  For OODA, BDI and ReAct, [execute] raises only when a gateway
    call raises, so [run] then never raises, whether the run completes or
    exhausts its budget. *)
Theorem run_formats_result {Value Json : Type} (gateway : nat -> res string)
    (json_loads : string -> res Json) (is_decode_error : exn -> bool)
    (json_dumps : Value -> res string) (exn_str : exn -> string)
    (tools : list (tool Value Json)) (aid : string) (k : nat) (verbose : bool)
    (Hok : forall i, exists r, gateway i = Ok r) :
  (forall (execute : M agent_result) (fmt : option bool) n,
     run verbose execute fmt n =
       match execute n with
       | Ok (result, n') =>
           Ok (match fmt with
               | Some false => Unformatted result
               | _ => Formatted (format_output result verbose)
               end, n')
       | Err e => Err e
       end) /\
  (forall fmt n, exists o n', run verbose (ooda_execute gateway json_dumps exn_str tools aid k) fmt n
                                = Ok (o, n')) /\
  (forall fmt n, exists o n', run verbose (bdi_execute gateway json_dumps exn_str tools aid k) fmt n
                                = Ok (o, n')) /\
  (forall fmt n, exists o n',
     run verbose (react_execute gateway json_loads is_decode_error json_dumps exn_str tools aid k)
       fmt n = Ok (o, n')).
Proof.
  assert (Hrun : forall (execute : M agent_result) fmt n,
    run verbose execute fmt n =
      match execute n with
      | Ok (result, n') =>
          Ok (match fmt with
              | Some false => Unformatted result
              | _ => Formatted (format_output result verbose)
              end, n')
      | Err e => Err e
      end).
  { intros execute fmt n. unfold run, mbind, ret.
    destruct (execute n) as [[result n']|e]; [|reflexivity].
    destruct fmt as [[]|]; reflexivity. }
  assert (Htot : forall execute : M agent_result, total execute ->
                 forall fmt n, exists o n', run verbose execute fmt n = Ok (o, n')).
  { intros execute Hex fmt n. rewrite Hrun. destruct (Hex n) as (result & n' & ->).
    eexists _, _. reflexivity. }
  split; [exact Hrun|]. split; [|split]; apply Htot.
  - apply (ooda_execute_total gateway json_dumps exn_str Hok).
  - apply (bdi_execute_total gateway json_dumps exn_str Hok).
  - apply (react_execute_total gateway json_loads is_decode_error json_dumps exn_str Hok).
Qed.

Lemma run_formats_result_witness :
  (forall i, exists r, gw_no i = Ok r) /\
  (forall (execute : M agent_result) (fmt : option bool) n,
     run false execute fmt n =
       match execute n with
       | Ok (result, n') =>
           Ok (match fmt with
               | Some false => Unformatted result
               | _ => Formatted (format_output result false)
               end, n')
       | Err e => Err e
       end) /\
  (forall fmt n, exists o n', run false (ooda_execute gw_no dumps_nat exn_text
                                          ([] : list (tool nat nat)) "agent" 1) fmt n = Ok (o, n')) /\
  (forall fmt n, exists o n', run false (bdi_execute gw_no dumps_nat exn_text
                                          ([] : list (tool nat nat)) "agent" 1) fmt n = Ok (o, n')) /\
  (forall fmt n, exists o n',
     run false (react_execute gw_no no_json (fun _ => true) dumps_nat exn_text
                  ([] : list (tool nat nat)) "agent" 1) fmt n = Ok (o, n')).
Proof.
  split; [intros i; exists "no"; reflexivity|].
  apply (run_formats_result gw_no no_json (fun _ => true) dumps_nat exn_text [] "agent" 1 false).
  intros i; exists "no"; reflexivity.
Defined.

End AgentClaims.

(** ** Further properties of the scheduler *)

Module WorkflowMore.
Import Py Workflow WorkflowExamples WorkflowFacts.

(** The workflows a program can build through the API: [Workflow(name)]
    then any sequence of [add_agent] and [add_node]. *)
Inductive built {Value : Type} : @Workflow Value -> Prop :=
| built_new : built {| nodes := []; agents := [] |}
| built_add_agent w a : built w -> built (add_agent w a)
| built_add_node w new_id agent nm desc deps cond ti to :
    built w -> built (fst (add_node w new_id agent nm desc deps cond ti to)).

(** *** Stripping *)

Lemma drop_ws_all_space l : drop_ws l = [] -> Forall (fun a => is_space a = true) l.
Proof.
  induction l as [|a l IH]; simpl; intros H; [constructor|].
  destruct (is_space a) eqn:E; [constructor; [exact E|apply IH, H]|discriminate].
Qed.

Lemma drop_ws_head l a l' : drop_ws l = a :: l' -> is_space a = false.
Proof.
  induction l as [|b l IH]; simpl; intros H; [discriminate|].
  destruct (is_space b) eqn:E; [apply IH, H|injection H as <- _; exact E].
Qed.

Lemma string_of_list_ascii_nil l : string_of_list_ascii l = EmptyString -> l = [].
Proof. destruct l; simpl; [reflexivity|discriminate]. Qed.

(** A string that strips to [""] holds only whitespace. *)
Lemma strip_empty_all_space s :
  strip s = EmptyString -> Forall (fun a => is_space a = true) (list_ascii_of_string s).
Proof.
  unfold strip. intros H. apply string_of_list_ascii_nil in H.
  apply (f_equal (@rev ascii)) in H. rewrite rev_involutive in H. simpl in H.
  apply drop_ws_all_space in H. apply Forall_rev in H. rewrite rev_involutive in H.
  destruct (drop_ws (list_ascii_of_string s)) as [|a l] eqn:E.
  - apply drop_ws_all_space, E.
  - apply drop_ws_head in E. inversion H as [|? ? Ha _]. congruence.
Qed.

Lemma list_ascii_of_string_sapp a b :
  list_ascii_of_string (sapp a b) = list_ascii_of_string a ++ list_ascii_of_string b.
Proof. induction a as [|c a IH]; simpl; [reflexivity|]. f_equal. exact IH. Qed.

(** *** _validate accepts every well-formed graph *)

Section Complete.
Context {Value : Type}.
Variable w : @Workflow Value.
Let ns := nodes w.
Let keys := map fst (nodes w).
Hypothesis Hdeps : forall k n d, dict_get k ns = Some n -> In d (dependencies n) -> In d keys.
Hypothesis Hacyc : forall a, ~ clos_trans string (edge w) a a.

Lemma has_cycle_ok fuel temp v id :
  List.NoDup temp -> incl temp keys -> In id keys ->
  (forall t, In t temp -> clos_trans string (edge w) t id) ->
  length (nodes w) + 1 <= fuel + length temp -> ordered ns v ->
  exists v', has_cycle fuel ns temp v id = Ok (false, temp, v').
Proof.
  revert temp v id. induction fuel as [|f IH]; intros temp v id Hnd Hinc Hid Hanc Hlen Ho.
  - pose proof (NoDup_incl_length Hnd Hinc) as Hl. unfold keys in Hl.
    rewrite length_map in Hl. simpl in Hlen. lia.
  - simpl.
    assert (Hnt : ~ In id temp) by (intros H; exact (Hacyc id (Hanc id H))).
    apply mem_notIn in Hnt as Hm. rewrite Hm.
    destruct (mem id v) eqn:Ev; [exists v; reflexivity|].
    destruct (dict_get_exists id ns Hid) as (n & En). unfold ns in En |- *. rewrite En.
    assert (Hloop : forall ds, incl ds (dependencies n) -> forall v0, ordered ns v0 ->
      exists v1, cycle_deps (has_cycle f (nodes w)) ds (id :: temp) v0 = Ok (false, id :: temp, v1)).
    { induction ds as [|d ds IHds]; simpl; intros Hds v0 Ho0; [eexists; reflexivity|].
      assert (Hed : edge w id d) by (exists n; split; [exact En|apply Hds; left; reflexivity]).
      destruct (IH (id :: temp) v0 d) as (v2 & E2).
      + constructor; assumption.
      + intros t [<-|Ht]; [exact Hid|apply Hinc, Ht].
      + apply (Hdeps id n d En), Hds. left. reflexivity.
      + intros t [<-|Ht]; [apply t_step, Hed|eapply t_trans; [apply Hanc, Ht|apply t_step, Hed]].
      + simpl. lia.
      + exact Ho0.
      + destruct (has_cycle_false _ _ _ _ _ _ _ Ho0 E2) as (Ho2 & _ & _).
        unfold ns in E2. rewrite E2.
        exact (IHds (fun x Hx => Hds x (or_intror Hx)) v2 Ho2). }
    destruct (Hloop (dependencies n) (incl_refl _) v Ho) as (v1 & E1).
    rewrite E1, (remove_cons_notin id temp Hnt). eexists. reflexivity.
Qed.

Lemma check_cycles_complete ids v :
  incl ids keys -> ordered ns v -> check_cycles (fuel_of w) ns ids [] v = Ok tt.
Proof.
  revert v. induction ids as [|i ids IH]; cbn [check_cycles]; intros v Hids Ho; [reflexivity|].
  destruct (has_cycle_ok (fuel_of w) [] v i (List.NoDup_nil _) (incl_nil_l _)
              (Hids i (or_introl eq_refl)) (fun t Ht => match Ht with end)
              ltac:(unfold fuel_of; simpl; lia) Ho) as (v' & E).
  unfold ns in E |- *. rewrite E. destruct (has_cycle_false _ _ _ _ _ _ _ Ho E) as (Ho' & _ & _).
  exact (IH v' (fun x Hx => Hids x (or_intror Hx)) Ho').
Qed.

End Complete.

Lemma find_none {A : Type} (f : A -> bool) (l : list A) :
  (forall x, In x l -> f x = false) -> find f l = None.
Proof.
  induction l as [|x l IH]; simpl; intros H; [reflexivity|].
  rewrite (H x (or_introl eq_refl)). apply IH. intros y Hy. apply H. right. exact Hy.
Qed.

Lemma validate_complete {Value : Type} (w : @Workflow Value) :
  (forall k n, In (k, n) (nodes w) -> In (agent_id n) (agents w)) ->
  ~ has_dangling_dependency w -> ~ has_cycle_rel w -> validate w = Ok tt.
Proof.
  intros Hag Hnd Hnc. unfold validate.
  rewrite find_none.
  2: { intros [k n] Hkn. apply negb_false_iff, mem_In, (Hag k n Hkn). }
  rewrite (proj2 (first_dangling_None _ _)).
  2: { intros k n d Hkn Hd. destruct (mem d (map fst (nodes w))) eqn:Hm; [reflexivity|].
       apply mem_notIn in Hm. exfalso. apply Hnd. exists k, n, d. tauto. }
  apply check_cycles_complete; [| |apply incl_refl|exact I].
  - intros k n d Hn Hd. destruct (in_dec String.string_dec d (map fst (nodes w))) as [Hin|Hout];
      [exact Hin|]. exfalso. apply Hnd. exists k, n, d. split; [apply dict_get_In, Hn|tauto].
  - intros a Hc. apply Hnc. exists a. exact Hc.
Qed.

Lemma In_dict_set {V : Type} (k k' : string) (v v' : V) (d : list (string * V)) :
  In (k, v) (dict_set k' v' d) -> (k, v) = (k', v') \/ In (k, v) d.
Proof.
  induction d as [|[k0 v0] d IH]; simpl; [intros [H|[]]; left; congruence|].
  destruct (String.eqb k' k0); simpl; intros [H|H].
  - left. congruence.
  - right. right. exact H.
  - right. left. exact H.
  - apply IH in H as [H|H]; [left; exact H|right; right; exact H].
Qed.

(** Every node of a workflow built through the API names a registered
    agent. *)
Lemma built_registered {Value : Type} (w : @Workflow Value) :
  built w -> forall k n, In (k, n) (nodes w) -> In (agent_id n) (agents w).
Proof.
  induction 1 as [|w a _ IH|w new_id agent nm desc deps cond ti to _ IH]; simpl.
  - tauto.
  - intros k n Hkn. specialize (IH k n Hkn). destruct (mem a (agents w)); [exact IH|].
    apply in_or_app. left. exact IH.
  - assert (Hincl : incl (agents w) (agents (if mem agent (agents w) then w else add_agent w agent))).
    { destruct (mem agent (agents w)); simpl; [apply incl_refl|].
      destruct (mem agent (agents w)); [apply incl_refl|apply incl_appl, incl_refl]. }
    assert (Ha1 : In agent (agents (if mem agent (agents w) then w else add_agent w agent))).
    { destruct (mem agent (agents w)) eqn:E; simpl; [apply mem_In, E|rewrite E].
      apply in_or_app. right. left. reflexivity. }
    assert (Hn1 : nodes (if mem agent (agents w) then w else add_agent w agent) = nodes w)
      by (destruct (mem agent (agents w)); reflexivity).
    intros k n Hkn. apply In_dict_set in Hkn as [Heq|Hkn].
    + injection Heq as _ ->. exact Ha1.
    + rewrite Hn1 in Hkn. apply Hincl, (IH k n Hkn).
Qed.

Lemma map_fst_dict_set {V : Type} (k : string) (v : V) (d : list (string * V)) :
  map fst (dict_set k v d) = if mem k (map fst d) then map fst d else map fst d ++ [k].
Proof.
  induction d as [|[k' v'] d IH]; simpl; [reflexivity|].
  destruct (String.eqb_spec k k') as [->|Hne]; simpl; [reflexivity|].
  rewrite IH. destruct (mem k (map fst d)); reflexivity.
Qed.

(** The node ids of a workflow built through the API are distinct. *)
Lemma built_nodup {Value : Type} (w : @Workflow Value) :
  built w -> List.NoDup (map fst (nodes w)).
Proof.
  induction 1 as [|w a _ IH|w new_id agent nm desc deps cond ti to _ IH]; simpl.
  - constructor.
  - exact IH.
  - rewrite map_fst_dict_set.
    assert (Hn1 : nodes (if mem agent (agents w) then w else add_agent w agent) = nodes w)
      by (destruct (mem agent (agents w)); reflexivity).
    rewrite Hn1. destruct (mem new_id (map fst (nodes w))) eqn:E; [exact IH|].
    apply NoDup_snoc; [exact IH|apply mem_notIn, E].
Qed.

(** *** A run in which no node is guarded and no agent raises *)

Section Run.
Context {Value : Type}.
Variable run : list (@Call Value) -> string -> string -> gmap string Value -> res Value.
Hypothesis Hrun : forall l a t c, exists v, run l a t c = Ok v.
Variable w : @Workflow Value.
Variable input : gmap string Value.
Let keys := map fst (nodes w).
Hypothesis Hreg : forall k n, In (k, n) (nodes w) -> In (agent_id n) (agents w).
Hypothesis Hcond : forall k n, In (k, n) (nodes w) -> condition n = None.

Lemma collect_inputs_ok (results : gmap string Value) deps m0 :
  (forall d r, results !! d = Some r -> In d keys) ->
  exists m, collect_inputs (nodes w) results deps m0 = Ok m.
Proof.
  intros Hres. revert m0. induction deps as [|d deps IH]; simpl; intros m0; [eauto|].
  destruct (results !! d) as [r|] eqn:Er; [|apply IH].
  destruct (dict_get_exists d (nodes w) (Hres d r Er)) as (dn & Edn). rewrite Edn. apply IH.
Qed.

Lemma exec_loop_all order : forall (results : gmap string Value) log,
  incl order keys -> (forall k r, results !! k = Some r -> In k keys) ->
  exists r calls, exec_loop run w input order results log = (Ok r, log ++ calls) /\
    Forall2 (fun k c => exists n, dict_get k (nodes w) = Some n /\
                          call_agent c = agent_id n /\ call_task c = task_description n)
      order calls /\
    forall k, is_Some (r !! k) <-> is_Some (results !! k) \/ In k order.
Proof.
  induction order as [|k order IH]; simpl; intros results log Hord Hres.
  - exists results, []. rewrite app_nil_r. split; [reflexivity|]. split; [constructor|].
    intros k. tauto.
  - destruct (dict_get_exists k (nodes w) (Hord k (or_introl eq_refl))) as (n & En).
    rewrite En. rewrite (Hcond k n (dict_get_In _ _ _ En)).
    destruct (collect_inputs_ok results (dependencies n) input Hres) as (m & Em). rewrite Em.
    pose proof (proj2 (mem_In _ _) (Hreg k n (dict_get_In _ _ _ En))) as Hm. rewrite Hm. cbn [negb].
    destruct (Hrun log (agent_id n) (task_description n)
                (match transform_input n with Some f => f m | None => m end)) as (v & Ev).
    rewrite Ev.
    set (out := match transform_output n with Some f => f v | None => v end).
    set (call := {| call_agent := agent_id n; call_task := task_description n;
                    call_context := match transform_input n with Some f => f m | None => m end |}).
    destruct (IH (<[k := out]> results) (log ++ [call]) (fun x Hx => Hord x (or_intror Hx)))
      as (r & calls & E & Hf & Hk).
    { intros k' r' Hk'. destruct (String.eq_dec k k') as [<-|Hne].
      - apply Hord. left. reflexivity.
      - rewrite lookup_insert_ne in Hk' by exact Hne. exact (Hres k' r' Hk'). }
    exists r, (call :: calls). split; [rewrite E, <- app_assoc; reflexivity|]. split.
    + constructor; [|exact Hf]. exists n. split; [exact En|split; reflexivity].
    + intros k'. rewrite Hk, lookup_insert_is_Some.
      destruct (String.eq_dec k k') as [<-|Hne]; [tauto|]. split.
      * intros [[H|[_ H]]|H]; [contradiction|left; exact H|right; right; exact H].
      * intros [H|[H|H]]; [left; right; split; [exact Hne|exact H]|contradiction|right; exact H].
Qed.

End Run.

(** *** The merged input of a node *)

Lemma collect_inputs_app {Value : Type} (ns : list (string * @WorkflowNode Value)) results l1 l2 m0 :
  collect_inputs ns results (l1 ++ l2) m0 =
  bind (collect_inputs ns results l1 m0) (fun m1 => collect_inputs ns results l2 m1).
Proof.
  revert m0. induction l1 as [|d l1 IH]; simpl; intros m0; [reflexivity|].
  destruct (results !! d) as [r|]; [|apply IH].
  destruct (dict_get d ns) as [dn|]; [apply IH|reflexivity].
Qed.

Lemma collect_inputs_keep {Value : Type} (ns : list (string * @WorkflowNode Value)) results ds m0 m x :
  collect_inputs ns results ds m0 = Ok m ->
  (forall d dn r, In d ds -> results !! d = Some r -> dict_get d ns = Some dn -> name dn <> x) ->
  m !! x = m0 !! x.
Proof.
  revert m0. induction ds as [|d ds IH]; simpl; intros m0 E Hx; [congruence|].
  destruct (results !! d) as [r|] eqn:Er.
  - destruct (dict_get d ns) as [dn|] eqn:Edn; [|discriminate].
    rewrite (IH _ E (fun d' dn' r' Hd => Hx d' dn' r' (or_intror Hd))).
    apply lookup_insert_ne. exact (Hx d dn r (or_introl eq_refl) Er Edn).
  - exact (IH _ E (fun d' dn' r' Hd => Hx d' dn' r' (or_intror Hd))).
Qed.

End WorkflowMore.

Module WorkflowExtra.
Import Py Workflow WorkflowExamples WorkflowFacts WorkflowMore.

(** [A], then [B -> [A]], both added through [add_node]. *)
Definition built_ab : @Workflow nat :=
  fst (add_node (fst (add_node empty_wf "A" "agent" "A" "" None None None None))
                "B" "agent" "B" "" (Some ["A"]) None None None).

Lemma built_ab_built : built built_ab.
Proof. unfold built_ab. apply built_add_node, built_add_node. constructor. Qed.

(** X1: the task text [f"{node.name}: {node.description}"] always holds a
    colon, so it never strips to [""] and the fallback text
    ["Execute task for node ..."] is never used. *)
Theorem task_description_never_default {Value : Type} (n : @WorkflowNode Value) :
  task_description n = sapp (name n) (sapp ": " (description n)).
Proof.
  unfold task_description.
  destruct (is_empty (strip (sapp (name n) (sapp ": " (description n))))) eqn:E; [|reflexivity].
  exfalso. destruct (strip _) eqn:Es in E; [|discriminate].
  apply strip_empty_all_space in Es.
  rewrite !list_ascii_of_string_sapp in Es. apply Forall_app in Es as [_ Es].
  inversion Es as [|? ? Hc _]. discriminate Hc.
Qed.

(** X2: for a workflow built through the API, [_validate] succeeds exactly
    when every dependency id is a node id and the dependency graph has no
    cycle; it never fails for another reason (no [RecursionError], no
    [KeyError], no unregistered agent). *)
Theorem validate_exact {Value : Type} (w : @Workflow Value) (Hb : built w) :
  validate w = Ok tt <-> ~ has_dangling_dependency w /\ ~ has_cycle_rel w.
Proof.
  split.
  - intros Hv. split; intros Hbad;
      destruct (validate_rejects w (ltac:(tauto) : has_dangling_dependency w \/ has_cycle_rel w))
        as (e & Ee); congruence.
  - intros [Hnd Hnc]. exact (validate_complete w (built_registered w Hb) Hnd Hnc).
Qed.

Lemma validate_exact_witness :
  built built_ab /\
  (validate built_ab = Ok tt <-> ~ has_dangling_dependency built_ab /\ ~ has_cycle_rel built_ab).
Proof. split; [exact built_ab_built|exact (validate_exact built_ab built_ab_built)]. Defined.

(** X3: when a workflow built through the API has no dangling dependency,
    no cycle and no guarded node, and no agent raises, [execute] calls one
    agent per node, in the execution order, each with the node's agent and
    task text, and returns a result for every node id and no other key. *)
Theorem execute_runs_every_node {Value : Type}
    (run : list (@Call Value) -> string -> string -> gmap string Value -> res Value)
    (w : @Workflow Value) (input : option (gmap string Value)) (log : list (@Call Value))
    (Hb : built w) (Hnd : ~ has_dangling_dependency w) (Hnc : ~ has_cycle_rel w)
    (Hcond : forall k n, In (k, n) (nodes w) -> condition n = None)
    (Hrun : forall l a t c, exists v, run l a t c = Ok v) :
  exists order r calls,
    get_execution_order w = Ok order /\
    execute run w input log = (Ok r, log ++ calls) /\
    Forall2 (fun k c => exists n, dict_get k (nodes w) = Some n /\
                          call_agent c = agent_id n /\ call_task c = task_description n)
      order calls /\
    length calls = length (nodes w) /\
    (forall k, is_Some (r !! k) <-> In k (map fst (nodes w))).
Proof.
  assert (Hd : forall k n d, dict_get k (nodes w) = Some n -> In d (dependencies n) ->
                 In d (map fst (nodes w))).
  { intros k n d Hn Hd. destruct (in_dec String.string_dec d (map fst (nodes w))) as [Hin|Hout];
      [exact Hin|]. exfalso. apply Hnd. exists k, n, d. split; [apply dict_get_In, Hn|tauto]. }
  assert (Ha : forall a, ~ clos_trans string (edge w) a a) by (intros a Hc; apply Hnc; exists a; exact Hc).
  destruct (get_execution_order_ok w Hd Ha) as (order & Eo & (Hnodup & _ & Hinc) & Hall).
  destruct (exec_loop_all run Hrun w (match input with Some d => d | None => ∅ end)
              (built_registered w Hb) Hcond order ∅ log Hinc
              (fun k r H => ltac:(rewrite lookup_empty in H; discriminate H)))
    as (r & calls & E & Hf & Hk).
  exists order, r, calls. split; [exact Eo|]. split.
  - unfold execute. rewrite (validate_complete w (built_registered w Hb) Hnd Hnc), Eo. exact E.
  - split; [exact Hf|]. split.
    + rewrite <- (Forall2_length _ _ _ Hf).
      pose proof (NoDup_incl_length Hnodup Hinc) as H1.
      pose proof (NoDup_incl_length (built_nodup w Hb) Hall) as H2.
      rewrite length_map in H1, H2. lia.
    + intros k. rewrite Hk, lookup_empty. split.
      * intros [H|H]; [inversion H; discriminate|apply Hinc, H].
      * intros H. right. apply Hall, H.
Qed.

Lemma execute_runs_every_node_witness :
  exists order r calls,
    get_execution_order built_ab = Ok order /\
    execute run_zero built_ab None [] = (Ok r, [] ++ calls) /\
    Forall2 (fun k c => exists n, dict_get k (nodes built_ab) = Some n /\
                          call_agent c = agent_id n /\ call_task c = task_description n)
      order calls /\
    length calls = length (nodes built_ab) /\
    (forall k, is_Some (r !! k) <-> In k (map fst (nodes built_ab))).
Proof.
  apply (execute_runs_every_node run_zero built_ab None [] built_ab_built).
  - intros (k & n & d & Hkn & Hd & Hnd). assert (Hv : validate built_ab = Ok tt) by (vm_compute; reflexivity).
    exact (Hnd (validate_deps built_ab Hv k n d Hkn Hd)).
  - intros Hc. assert (Hv : validate built_ab = Ok tt) by (vm_compute; reflexivity).
    destruct Hc as (a & Hc). exact (validate_acyclic built_ab Hv a Hc).
  - intros k n Hkn. vm_compute in Hkn.
    destruct Hkn as [Hkn|[Hkn|[]]]; injection Hkn as <- <-; reflexivity.
  - intros l a t c. exists 0. reflexivity.
Defined.

(** X4: in the merged input of a node, a computed dependency's result sits
    under that dependency's display name, replacing any entry of the
    initial input with that key, unless a later computed dependency has the
    same display name. *)
Theorem collect_inputs_later_wins {Value : Type} (ns : list (string * @WorkflowNode Value))
    (results : gmap string Value) (deps1 : list string) (d : string) (deps2 : list string)
    (m0 m : gmap string Value) (r : Value) (dn : @WorkflowNode Value)
    (E : collect_inputs ns results (deps1 ++ d :: deps2) m0 = Ok m)
    (Hr : results !! d = Some r) (Hdn : dict_get d ns = Some dn)
    (Hlater : forall d' dn' r', In d' deps2 -> results !! d' = Some r' ->
                dict_get d' ns = Some dn' -> name dn' <> name dn) :
  m !! name dn = Some r.
Proof.
  rewrite collect_inputs_app in E.
  destruct (collect_inputs ns results deps1 m0) as [m1|e]; simpl in E; [|discriminate].
  rewrite Hr, Hdn in E. rewrite (collect_inputs_keep ns results deps2 _ m (name dn) E Hlater).
  apply lookup_insert_eq.
Qed.

Lemma collect_inputs_later_wins_witness :
  collect_inputs (nodes abc_wf) (<["A" := 1]> (<["B" := 2]> ∅)) (["C"] ++ "A" :: ["B"])
    (<["A" := 7]> ∅) = Ok (<["B" := 2]> (<["A" := 1]> (<["A" := 7]> ∅)))%string /\
  (<["B" := 2]> (<["A" := 1]> (<["A" := 7]> ∅)) : gmap string nat) !! "A"%string = Some 1.
Proof.
  split; [vm_compute; reflexivity|].
  apply (collect_inputs_later_wins (nodes abc_wf) (<["A" := 1]> (<["B" := 2]> ∅)) ["C"] "A" ["B"]
           (<["A" := 7]> ∅) _ 1 (mk_node "A" "agent" "A" [] None)).
  - vm_compute. reflexivity.
  - vm_compute. reflexivity.
  - reflexivity.
  - intros d' dn' r' [<-|[]] _ H. vm_compute in H. injection H as <-. discriminate.
Defined.

End WorkflowExtra.

(** ** Further properties of the parsers *)

Module ParserMore.
Import Py Re Parser ParserFacts GroupOrder.

(** The ["final_answer"] entry of the returned dictionary. *)
Definition final_answer (r : parsed) : string :=
  match r with
  | PReAct x => r_final_answer x
  | POODA x => o_final_answer x
  | PBDI x => b_final_answer x
  | PLAT x => l_final_answer x
  | PRAISE x => ra_final_answer x
  | PReWOO x => rw_final_answer x
  end.

(** A field as the parsers store it: stripped and not empty. *)
Definition clean (x : string) : Prop := strip x = x /\ x <> EmptyString.

Definition opt_clean (o : option string) : Prop :=
  match o with Some x => clean x | None => True end.

Definition react_cycle_clean (c : react_cycle) : Prop :=
  opt_clean (rc_thought c) /\ opt_clean (rc_action c) /\ opt_clean (rc_observation c).

Definition ooda_loop_clean (l : ooda_loop) : Prop :=
  opt_clean (o_observation l) /\ opt_clean (o_orientation l) /\ opt_clean (o_decision l) /\
  opt_clean (o_action l).

Definition bdi_cycle_clean (c : bdi_cycle) : Prop :=
  opt_clean (b_beliefs c) /\ opt_clean (b_desires c) /\ opt_clean (b_intentions c) /\
  opt_clean (b_execution c).

(** LAT options and evaluations are stripped but may be empty. *)
Definition lat_node_clean (n : lat_node) : Prop :=
  opt_clean (l_problem n) /\ opt_clean (l_selection n) /\
  match l_branches n with
  | Some bs => Forall (fun '(o, e) => strip o = o /\ strip e = e) bs
  | None => True
  end.

(** *** Stripping is idempotent *)

Lemma drop_ws_id l : (forall a l', l = a :: l' -> is_space a = false) -> drop_ws l = l.
Proof.
  destruct l as [|a l]; simpl; intros H; [reflexivity|]. rewrite (H a l eq_refl). reflexivity.
Qed.

Lemma drop_ws_suffix l : exists p, l = p ++ drop_ws l.
Proof.
  induction l as [|a l IH]; simpl; [exists []; reflexivity|].
  destruct (is_space a); [destruct IH as [p Hp]; exists (a :: p); simpl; f_equal; exact Hp|].
  exists []. reflexivity.
Qed.

Lemma strip_idem s : strip (strip s) = strip s.
Proof.
  unfold strip. rewrite list_ascii_of_string_of_list_ascii.
  remember (drop_ws (list_ascii_of_string s)) as X eqn:HX.
  remember (drop_ws (rev X)) as Y eqn:HY.
  assert (HR : drop_ws (rev Y) = rev Y).
  { apply drop_ws_id. intros a l' Hr.
    destruct (drop_ws_suffix (rev X)) as [p Hp]. rewrite <- HY in Hp.
    apply (f_equal (@rev ascii)) in Hp. rewrite rev_involutive, rev_app_distr, Hr in Hp.
    simpl in Hp. rewrite HX in Hp. exact (WorkflowMore.drop_ws_head _ _ _ Hp). }
  rewrite HR, rev_involutive, (drop_ws_id Y); [reflexivity|].
  intros a l' Ha. rewrite HY in Ha. exact (WorkflowMore.drop_ws_head _ _ _ Ha).
Qed.

Lemma g1_clean s m : nonempty (g1 s m) = true -> clean (g1 s m).
Proof.
  unfold g1, nonempty. intros H. split; [apply strip_idem|].
  destruct (strip _); simpl in H; congruence.
Qed.

Lemma search_group1_stripped r s : strip (search_group1 r s) = search_group1 r s.
Proof. unfold search_group1. destruct (search r s); [apply strip_idem|reflexivity]. Qed.

(** *** A label that does not occur *)

Lemma search_sec_absent (lab : string) (ws : bool) (terms : list regex) (s : list ascii) :
  lab <> EmptyString ->
  Py.contains lab (string_of_list_ascii s) = false ->
  search (sec lab ws terms) s = None.
Proof.
  intros Hne Hc. unfold search, search_from. apply first_some_none. intros i _.
  unfold match_at.
  destruct (mt s (sec lab ws terms) i [] (fun j c => Some (j, c))) as [[j c]|] eqn:Hm;
    [|reflexivity].
  exfalso. unfold sec, secr in Hm. simpl in Hm. unfold lit in Hm.
  apply mt_seq_lit_prefix in Hm.
  unfold Py.contains in Hc. rewrite list_ascii_of_string_of_list_ascii in Hc.
  destruct (le_lt_dec i (length s)) as [Hle|Hlt].
  - assert (Hin : In i (seq 0 (S (length s)))) by (apply in_seq; lia).
    assert (He : existsb (fun i => Py.prefix_b (list_ascii_of_string lab) (skipn i s))
                   (seq 0 (S (length s))) = true).
    { apply existsb_exists. exists i. split; assumption. }
    congruence.
  - rewrite skipn_all2 in Hm by lia.
    rewrite prefix_b_nil in Hm; [discriminate|].
    destruct lab; simpl; congruence.
Qed.

End ParserMore.

Module ParserExtra.
Import Py Re Parser ParserFacts GroupOrder ParserMore.

(** X5: when the text has no ["Final Answer:"] label, every parser returns
    [""] as its final answer. *)
Theorem parse_no_final_answer (p : parser) (text : string)
    (H : Py.contains "Final Answer:" text = false) :
  final_answer (parse p text) = EmptyString.
Proof.
  assert (Hs : forall ws terms, search (sec "Final Answer:" ws terms) (list_ascii_of_string text) = None).
  { intros ws terms. apply search_sec_absent; [discriminate|].
    rewrite string_of_list_ascii_of_string. exact H. }
  destruct p; simpl.
  - unfold react_parse. cbv zeta. destruct (fold_left _ _ _). simpl.
    unfold search_group1, react_final_pat. rewrite Hs. reflexivity.
  - unfold ooda_parse. cbv zeta. destruct (fold_left _ _ _). simpl.
    unfold search_group1, ooda_final_pat. rewrite Hs. reflexivity.
  - unfold bdi_parse. cbv zeta. destruct (fold_left _ _ _). simpl.
    unfold search_group1, bdi_final_pat. rewrite Hs. reflexivity.
  - unfold lat_parse. cbv zeta. destruct (fold_left _ _ _). simpl.
    unfold search_group1, lat_final_pat. rewrite Hs. reflexivity.
  - unfold search_group1. rewrite Hs. reflexivity.
  - unfold search_group1. rewrite Hs. reflexivity.
Qed.

Lemma parse_no_final_answer_witness :
  Py.contains "Final Answer:" "Thought: t Final answer: x" = false /\
  final_answer (parse ReActParser "Thought: t Final answer: x") = EmptyString.
Proof.
  split; [vm_compute; reflexivity|].
  apply parse_no_final_answer. vm_compute. reflexivity.
Defined.

(** X7: every field of every group the grouping parsers emit is stripped
    and non-empty (LAT options and evaluations are stripped and may be
    empty), and every final answer is stripped. *)
Theorem parsed_fields_clean (text : string) :
  (Forall react_cycle_clean (r_cycles (react_parse text)) /\
   strip (r_final_answer (react_parse text)) = r_final_answer (react_parse text)) /\
  (Forall ooda_loop_clean (o_loops (ooda_parse text)) /\
   strip (o_final_answer (ooda_parse text)) = o_final_answer (ooda_parse text)) /\
  (Forall bdi_cycle_clean (b_cycles (bdi_parse text)) /\
   strip (b_final_answer (bdi_parse text)) = b_final_answer (bdi_parse text)) /\
  (Forall lat_node_clean (l_nodes (lat_parse text)) /\
   strip (l_final_answer (lat_parse text)) = l_final_answer (lat_parse text)).
Proof.
  split; [|split; [|split]].
  - unfold react_parse. cbv zeta. set (s := list_ascii_of_string text).
    set (cur1 := fold_left _ (finditer react_thought_pat s) empty_react_cycle).
    assert (H1 : react_cycle_clean cur1).
    { apply (fold_left_inv react_cycle_clean); [repeat split|].
      intros b m Hb. destruct (nonempty (g1 s m)) eqn:E; [|exact Hb].
      split; [apply g1_clean, E|split; exact I]. }
    set (cur2 := fold_left _ (finditer react_action_pat s) cur1).
    assert (H2 : react_cycle_clean cur2).
    { apply (fold_left_inv react_cycle_clean); [exact H1|].
      intros b m (Hb1 & Hb2 & Hb3). destruct (nonempty (g1 s m) && _)%bool eqn:E; [|repeat split; assumption].
      split_andb. split; [exact Hb1|split; [apply g1_clean; assumption|exact Hb3]]. }
    match goal with
    | |- context [fold_left ?f (finditer react_obs_pat s) ([], cur2)] =>
        assert (H3 : (fun '(cs, cur) => Forall react_cycle_clean cs /\ react_cycle_clean cur)
                       (fold_left f (finditer react_obs_pat s) ([], cur2)));
        [apply fold_left_inv; [split; [constructor|exact H2]|]|]
    end.
    + intros [cs cur] m [Hcs (Hc1 & Hc2 & Hc3)].
      destruct (_ && _ && _)%bool eqn:E; simpl; [|split; [exact Hcs|repeat split; assumption]].
      split_andb. split; [|repeat split].
      apply Forall_app; split; [exact Hcs|]. constructor; [|constructor].
      split; [exact Hc1|split; [exact Hc2|apply g1_clean; assumption]].
    + match goal with |- context [fold_left ?f (finditer react_obs_pat s) ?i] =>
        destruct (fold_left f (finditer react_obs_pat s) i) as [cs cur3] end.
      destruct H3 as [Hcs Hcur]. simpl. split; [|apply search_group1_stripped].
      destruct (has (rc_thought cur3)); [|exact Hcs].
      apply Forall_app; split; [exact Hcs|]. constructor; [exact Hcur|constructor].
  - unfold ooda_parse. cbv zeta. set (s := list_ascii_of_string text).
    set (cur1 := fold_left _ (finditer ooda_obs_pat s) empty_ooda_loop).
    assert (H1 : ooda_loop_clean cur1).
    { apply (fold_left_inv ooda_loop_clean); [repeat split|].
      intros b m Hb. destruct (nonempty (g1 s m)) eqn:E; [|exact Hb].
      split; [apply g1_clean, E|repeat split]. }
    set (cur2 := fold_left _ (finditer ooda_orient_pat s) cur1).
    assert (H2 : ooda_loop_clean cur2).
    { apply (fold_left_inv ooda_loop_clean); [exact H1|].
      intros b m (Hb1 & Hb2 & Hb3 & Hb4). destruct (_ && _)%bool eqn:E; [|repeat split; assumption].
      split_andb. repeat split; try assumption; apply g1_clean; assumption. }
    set (cur3 := fold_left _ (finditer ooda_decision_pat s) cur2).
    assert (H3 : ooda_loop_clean cur3).
    { apply (fold_left_inv ooda_loop_clean); [exact H2|].
      intros b m (Hb1 & Hb2 & Hb3 & Hb4). destruct (_ && _ && _)%bool eqn:E; [|repeat split; assumption].
      split_andb. repeat split; try assumption; apply g1_clean; assumption. }
    match goal with
    | |- context [fold_left ?f (finditer ooda_action_pat s) ([], cur3)] =>
        assert (H4 : (fun '(ls, cur) => Forall ooda_loop_clean ls /\ ooda_loop_clean cur)
                       (fold_left f (finditer ooda_action_pat s) ([], cur3)));
        [apply fold_left_inv; [split; [constructor|exact H3]|]|]
    end.
    + intros [ls cur] m [Hls (Hc1 & Hc2 & Hc3 & Hc4)].
      destruct (_ && _ && _ && _)%bool eqn:E; simpl; [|split; [exact Hls|repeat split; assumption]].
      split_andb. split; [|repeat split].
      apply Forall_app; split; [exact Hls|]. constructor; [|constructor].
      repeat split; try assumption; apply g1_clean; assumption.
    + match goal with |- context [fold_left ?f (finditer ooda_action_pat s) ?i] =>
        destruct (fold_left f (finditer ooda_action_pat s) i) as [ls cur4] end.
      destruct H4 as [Hls _]. simpl. split; [exact Hls|apply search_group1_stripped].
  - unfold bdi_parse. cbv zeta. set (s := list_ascii_of_string text).
    set (cur1 := fold_left _ (finditer bdi_beliefs_pat s) empty_bdi_cycle).
    assert (H1 : bdi_cycle_clean cur1).
    { apply (fold_left_inv bdi_cycle_clean); [repeat split|].
      intros b m Hb. destruct (nonempty (g1 s m)) eqn:E; [|exact Hb].
      split; [apply g1_clean, E|repeat split]. }
    set (cur2 := fold_left _ (finditer bdi_desires_pat s) cur1).
    assert (H2 : bdi_cycle_clean cur2).
    { apply (fold_left_inv bdi_cycle_clean); [exact H1|].
      intros b m (Hb1 & Hb2 & Hb3 & Hb4). destruct (_ && _)%bool eqn:E; [|repeat split; assumption].
      split_andb. repeat split; try assumption; apply g1_clean; assumption. }
    set (cur3 := fold_left _ (finditer bdi_intentions_pat s) cur2).
    assert (H3 : bdi_cycle_clean cur3).
    { apply (fold_left_inv bdi_cycle_clean); [exact H2|].
      intros b m (Hb1 & Hb2 & Hb3 & Hb4). destruct (_ && _ && _)%bool eqn:E; [|repeat split; assumption].
      split_andb. repeat split; try assumption; apply g1_clean; assumption. }
    match goal with
    | |- context [fold_left ?f (finditer bdi_execution_pat s) ([], cur3)] =>
        assert (H4 : (fun '(ls, cur) => Forall bdi_cycle_clean ls /\ bdi_cycle_clean cur)
                       (fold_left f (finditer bdi_execution_pat s) ([], cur3)));
        [apply fold_left_inv; [split; [constructor|exact H3]|]|]
    end.
    + intros [ls cur] m [Hls (Hc1 & Hc2 & Hc3 & Hc4)].
      destruct (_ && _ && _ && _)%bool eqn:E; simpl; [|split; [exact Hls|repeat split; assumption]].
      split_andb. split; [|repeat split].
      apply Forall_app; split; [exact Hls|]. constructor; [|constructor].
      repeat split; try assumption; apply g1_clean; assumption.
    + match goal with |- context [fold_left ?f (finditer bdi_execution_pat s) ?i] =>
        destruct (fold_left f (finditer bdi_execution_pat s) i) as [ls cur4] end.
      destruct H4 as [Hls _]. simpl. split; [exact Hls|apply search_group1_stripped].
  - unfold lat_parse. cbv zeta. set (s := list_ascii_of_string text).
    set (cur1 := fold_left _ (finditer lat_problem_pat s) empty_lat_node).
    assert (H1 : lat_node_clean cur1).
    { apply (fold_left_inv lat_node_clean); [repeat split|].
      intros b m Hb. destruct (nonempty (g1 s m)) eqn:E; [|exact Hb].
      split; [apply g1_clean, E|repeat split]. }
    set (cur2 := fold_left _ (finditer lat_branches_pat s) cur1).
    assert (H2 : lat_node_clean cur2).
    { apply (fold_left_inv lat_node_clean); [exact H1|].
      intros b m (Hb1 & Hb2 & Hb3). destruct (_ && _)%bool eqn:E; [|repeat split; assumption].
      split; [exact Hb1|split; [exact Hb2|]]. simpl.
      unfold lat_branches. apply List.Forall_forall. intros [o e] Hoe.
      pose proof (in_combine_l _ _ _ _ Hoe) as Ho. pose proof (in_combine_r _ _ _ _ Hoe) as He.
      apply in_map_iff in Ho as (mo & <- & _). apply in_map_iff in He as (me & <- & _).
      split; apply strip_idem. }
    match goal with
    | |- context [fold_left ?f (finditer lat_selection_pat s) ([], cur2)] =>
        assert (H4 : (fun '(ls, cur) => Forall lat_node_clean ls /\ lat_node_clean cur)
                       (fold_left f (finditer lat_selection_pat s) ([], cur2)));
        [apply fold_left_inv; [split; [constructor|exact H2]|]|]
    end.
    + intros [ls cur] m [Hls (Hc1 & Hc2 & Hc3)].
      destruct (_ && _ && _)%bool eqn:E; simpl; [|split; [exact Hls|repeat split; assumption]].
      split_andb. split; [|repeat split].
      apply Forall_app; split; [exact Hls|]. constructor; [|constructor].
      split; [exact Hc1|split; [apply g1_clean; assumption|exact Hc3]].
    + match goal with |- context [fold_left ?f (finditer lat_selection_pat s) ?i] =>
        destruct (fold_left f (finditer lat_selection_pat s) i) as [ls cur4] end.
      destruct H4 as [Hls _]. simpl. split; [exact Hls|apply search_group1_stripped].
Qed.

End ParserExtra.

(** ** Further properties of the agent controllers *)

Module AgentMore.
Import Py Re Parser Agents AgentFacts.

Section Shape.
Context {Value Json : Type}.
Variable gateway : nat -> res string.
Variable json_loads : string -> res Json.
Variable is_decode_error : exn -> bool.
Variable json_dumps : Value -> res string.
Variable exn_str : exn -> string.
Variable tools : list (tool Value Json).
Variable k : nat.

Lemma ooda_loop_shape fuel : forall it d fa st n it' d' fa' st' n',
  ooda_loop gateway json_dumps exn_str tools fuel k it d fa st n = Ok ((it', d', fa', st'), n') ->
  it <= it' /\ (it <= k -> it' <= k) /\
  length st' + 4 * it = length st + 4 * it' /\ n' + 4 * it = n + 4 * it'.
Proof.
  induction fuel as [|fuel IH]; intros it d fa st n it' d' fa' st' n' H; cbn [ooda_loop] in H.
  - ret_inv H. lia.
  - destruct (negb d && (it <? k)) eqn:Ec; [|ret_inv H; lia].
    apply andb_prop in Ec as [_ Ec]. apply Nat.ltb_lt in Ec.
    cbv [mbind stage_check_completion ret] in H. peel H.
    apply IH in H as (H1 & H2 & H3 & H4). rewrite length_app in H3. simpl in H3. lia.
Qed.

Lemma bdi_loop_shape fuel : forall it d fa st n it' d' fa' st' n',
  bdi_loop gateway json_dumps exn_str tools fuel k it d fa st n = Ok ((it', d', fa', st'), n') ->
  it <= it' /\ (it <= k -> it' <= k) /\
  length st' + 5 * it = length st + 5 * it' /\ n' + 5 * it = n + 5 * it'.
Proof.
  induction fuel as [|fuel IH]; intros it d fa st n it' d' fa' st' n' H; cbn [bdi_loop] in H.
  - ret_inv H. lia.
  - destruct (negb d && (it <? k)) eqn:Ec; [|ret_inv H; lia].
    apply andb_prop in Ec as [_ Ec]. apply Nat.ltb_lt in Ec.
    cbv [mbind stage_check_completion ret] in H. peel H.
    apply IH in H as (H1 & H2 & H3 & H4). rewrite length_app in H3. simpl in H3. lia.
Qed.

Lemma react_loop_shape fuel : forall it d fa st n it' d' fa' st' n',
  react_loop gateway json_loads is_decode_error json_dumps exn_str tools fuel k it d fa st n
    = Ok ((it', d', fa', st'), n') ->
  exists p, it' = it + p /\ n' = n + p /\ length st' <= length st + 2 * p /\
    (it <= k -> it' <= k).
Proof.
  induction fuel as [|fuel IH]; intros it d fa st n it' d' fa' st' n' H; cbn [react_loop] in H.
  - ret_inv H. exists 0. lia.
  - destruct (negb d && (it <? k)) eqn:Ec; [|ret_inv H; exists 0; lia].
    apply andb_prop in Ec as [_ Ec]. apply Nat.ltb_lt in Ec.
    cbv [mbind ret] in H. peel H.
    set (st1 := match ns_thought (react_next_step r) with
                | Some thought => if nonempty_s thought then st ++ [mk_step "thought" thought] else st
                | None => st
                end) in H.
    assert (L1 : length st1 <= S (length st)).
    { unfold st1. destruct (ns_thought _) as [t|]; [destruct (nonempty_s t)|];
        rewrite ?length_app; simpl; lia. }
    set (st2 := match ns_action (react_next_step r) with
                | Some action => if nonempty_s action then st1 ++ _ else st1
                | None => st1
                end) in H.
    assert (L2 : length st2 <= S (length st1)).
    { unfold st2. destruct (ns_action _) as [t|]; [destruct (nonempty_s t)|];
        rewrite ?length_app; simpl; lia. }
    destruct (ns_final_answer (react_next_step r)) as [fa0|];
      [destruct (nonempty_s fa0)|];
      apply IH in H as (p & -> & -> & H3 & H4); exists (S p); lia.
Qed.

End Shape.

Section Never.
Context {Value Json : Type}.
Variable gateway : nat -> res string.
Variable json_loads : string -> res Json.
Variable is_decode_error : exn -> bool.
Variable json_dumps : Value -> res string.
Variable exn_str : exn -> string.
Variable tools : list (tool Value Json).
Variable k : nat.
Hypothesis Hok : forall i, exists r, gateway i = Ok r.

Ltac call i :=
  let r := fresh "r" in let E := fresh "E" in
  destruct (Hok i) as [r E]; rewrite E; cbv beta iota zeta.

(** From iteration [it], the OODA loop runs to the budget when none of the
    completion checks still to come (the fourth call of each pass) says
    yes. *)
Lemma ooda_loop_never fuel : forall it fa st n,
  it <= k -> k <= it + fuel ->
  (forall j r, j < k - it -> gateway (n + 4 * j + 3) = Ok r -> completion_signal r = false) ->
  exists fa' st', ooda_loop gateway json_dumps exn_str tools fuel k it false fa st n
                  = Ok ((k, false, fa', st'), n + 4 * (k - it)).
Proof.
  induction fuel as [|fuel IH]; intros it fa st n H1 H2 Hc; cbn [ooda_loop].
  - replace it with k by lia. rewrite Nat.sub_diag, Nat.add_0_r. do 2 eexists. reflexivity.
  - destruct (it <? k) eqn:Ec; cbv [negb andb].
    + apply Nat.ltb_lt in Ec. cbv [mbind stage_check_completion ret generate].
      call n. call (S n). call (S (S n)). call (S (S (S n))).
      assert (E2' : gateway (n + 4 * 0 + 3) = Ok r2) by (rewrite <- E2; f_equal; lia).
      rewrite CompletionFacts.check_completion_spec, (Hc 0 r2 ltac:(lia) E2'). cbv [fst snd].
      match goal with
      | |- context [ooda_loop _ _ _ _ _ _ _ false ?fa1 ?st1 _] =>
          destruct (IH (S it) fa1 st1 (S (S (S (S n)))) ltac:(lia) ltac:(lia)) as (fa' & st' & EL)
      end.
      { intros j r9 Hj Er. apply (Hc (S j) r9); [lia|]. rewrite <- Er. f_equal. lia. }
      rewrite EL. exists fa', st'. f_equal. f_equal. lia.
    + apply Nat.ltb_ge in Ec. replace it with k by lia.
      rewrite Nat.sub_diag, Nat.add_0_r. do 2 eexists. reflexivity.
Qed.

(** The same for BDI, whose completion check is the fifth call of a pass. *)
Lemma bdi_loop_never fuel : forall it fa st n,
  it <= k -> k <= it + fuel ->
  (forall j r, j < k - it -> gateway (n + 5 * j + 4) = Ok r -> completion_signal r = false) ->
  exists fa' st', bdi_loop gateway json_dumps exn_str tools fuel k it false fa st n
                  = Ok ((k, false, fa', st'), n + 5 * (k - it)).
Proof.
  induction fuel as [|fuel IH]; intros it fa st n H1 H2 Hc; cbn [bdi_loop].
  - replace it with k by lia. rewrite Nat.sub_diag, Nat.add_0_r. do 2 eexists. reflexivity.
  - destruct (it <? k) eqn:Ec; cbv [negb andb].
    + apply Nat.ltb_lt in Ec. cbv [mbind stage_check_completion ret generate].
      call n. call (S n). call (S (S n)). call (S (S (S n))). call (S (S (S (S n)))).
      assert (E3' : gateway (n + 5 * 0 + 4) = Ok r3) by (rewrite <- E3; f_equal; lia).
      rewrite CompletionFacts.check_completion_spec, (Hc 0 r3 ltac:(lia) E3'). cbv [fst snd].
      match goal with
      | |- context [bdi_loop _ _ _ _ _ _ _ false ?fa1 ?st1 _] =>
          destruct (IH (S it) fa1 st1 (S (S (S (S (S n))))) ltac:(lia) ltac:(lia)) as (fa' & st' & EL)
      end.
      { intros j r9 Hj Er. apply (Hc (S j) r9); [lia|]. rewrite <- Er. f_equal. lia. }
      rewrite EL. exists fa', st'. f_equal. f_equal. lia.
    + apply Nat.ltb_ge in Ec. replace it with k by lia.
      rewrite Nat.sub_diag, Nat.add_0_r. do 2 eexists. reflexivity.
Qed.

(** From iteration [it], the ReAct loop runs to the budget, one call per
    pass, when none of the replies still to come carries a final answer. *)
Lemma react_loop_never fuel : forall it fa st n,
  it <= k -> k <= it + fuel ->
  (forall j r, j < k - it -> gateway (n + j) = Ok r -> r_final_answer (react_parse r) = EmptyString) ->
  exists st', react_loop gateway json_loads is_decode_error json_dumps exn_str tools fuel k it
                false fa st n
              = Ok ((k, false, fa, st'), n + (k - it)).
Proof.
  induction fuel as [|fuel IH]; intros it fa st n H1 H2 Hc; cbn [react_loop].
  - replace it with k by lia. rewrite Nat.sub_diag, Nat.add_0_r. eexists. reflexivity.
  - destruct (it <? k) eqn:Ec; cbv [negb andb].
    + apply Nat.ltb_lt in Ec. cbv [mbind ret generate].
      call n.
      assert (E' : gateway (n + 0) = Ok r) by (rewrite Nat.add_0_r; exact E).
      rewrite (react_no_final_answer _ (Hc 0 r ltac:(lia) E')). cbv beta iota zeta.
      match goal with
      | |- context [react_loop _ _ _ _ _ _ _ _ _ false _ ?st1 _] =>
          destruct (IH (S it) fa st1 (S n) ltac:(lia) ltac:(lia)) as (st' & EL)
      end.
      { intros j r0 Hj Er. apply (Hc (S j) r0); [lia|]. rewrite <- Er. f_equal. lia. }
      rewrite EL. exists st'. f_equal. f_equal. lia.
    + apply Nat.ltb_ge in Ec. replace it with k by lia.
      rewrite Nat.sub_diag, Nat.add_0_r. eexists. reflexivity.
Qed.

End Never.

End AgentMore.

Module AgentExtra.
Import Py Re Parser Agents AgentFacts AgentExamples AgentMore.

Lemma gw_no_ok : forall i, exists r, gw_no i = Ok r.
Proof. intros i. exists "no". reflexivity. Qed.

(** X8: [OODAAgent.execute] on a gateway that answers every call: it runs at
    most [max_iterations] iterations, records four steps (observation,
    orientation, decision, action) per iteration, makes four gateway calls
    per iteration and at most one more for the partial answer. *)
Theorem ooda_execute_shape {Value Json : Type} (gateway : nat -> res string)
    (json_dumps : Value -> res string) (exn_str : exn -> string)
    (tools : list (tool Value Json)) (aid : string) (k n n' : nat) (res0 : agent_result)
    (H : ooda_execute gateway json_dumps exn_str tools aid k n = Ok (res0, n')) :
  exists i, dict_get "iterations" (metadata res0) = Some (MNat i) /\ i <= k /\
    length (intermediate_steps res0) = 4 * i /\ n + 4 * i <= n' <= n + 4 * i + 1.
Proof.
  unfold ooda_execute in H. apply mbind_inv in H as ([[[it d] fa] st] & n1 & HL & H).
  apply ooda_loop_shape in HL as (_ & Hk & Hl & Hn). simpl in Hl.
  destruct d; cbv beta iota zeta in H.
  - cbv [mbind ret] in H. injection H as <- <-.
    exists it. simpl. repeat split; lia.
  - cbv [mbind ret generate] in H. destruct (gateway n1); [|discriminate].
    injection H as <- <-. exists it. simpl. repeat split; lia.
Qed.

Lemma ooda_execute_shape_witness :
  exists res0, ooda_execute gw_no dumps_nat exn_text ([] : list (tool nat nat)) "agent" 2 0
                 = Ok (res0, 9) /\
  exists i, dict_get "iterations" (metadata res0) = Some (MNat i) /\ i <= 2 /\
    length (intermediate_steps res0) = 4 * i /\ 0 + 4 * i <= 9 <= 0 + 4 * i + 1.
Proof.
  eexists. split; [vm_compute; reflexivity|].
  apply (@ooda_execute_shape nat nat gw_no dumps_nat exn_text [] "agent" 2 0 9).
  vm_compute. reflexivity.
Defined.

(** X9: [BDIAgent.execute] on a gateway that answers every call: at most
    [max_iterations] iterations, five steps (beliefs, desires, intentions,
    actions, results) and five gateway calls per iteration, and at most one
    more call for the partial answer. *)
Theorem bdi_execute_shape {Value Json : Type} (gateway : nat -> res string)
    (json_dumps : Value -> res string) (exn_str : exn -> string)
    (tools : list (tool Value Json)) (aid : string) (k n n' : nat) (res0 : agent_result)
    (H : bdi_execute gateway json_dumps exn_str tools aid k n = Ok (res0, n')) :
  exists i, dict_get "iterations" (metadata res0) = Some (MNat i) /\ i <= k /\
    length (intermediate_steps res0) = 5 * i /\ n + 5 * i <= n' <= n + 5 * i + 1.
Proof.
  unfold bdi_execute in H. apply mbind_inv in H as ([[[it d] fa] st] & n1 & HL & H).
  apply bdi_loop_shape in HL as (_ & Hk & Hl & Hn). simpl in Hl.
  destruct d; cbv beta iota zeta in H.
  - cbv [mbind ret] in H. injection H as <- <-.
    exists it. simpl. repeat split; lia.
  - cbv [mbind ret generate] in H. destruct (gateway n1); [|discriminate].
    injection H as <- <-. exists it. simpl. repeat split; lia.
Qed.

Lemma bdi_execute_shape_witness :
  exists res0, bdi_execute gw_no dumps_nat exn_text ([] : list (tool nat nat)) "agent" 2 0
                 = Ok (res0, 11) /\
  exists i, dict_get "iterations" (metadata res0) = Some (MNat i) /\ i <= 2 /\
    length (intermediate_steps res0) = 5 * i /\ 0 + 5 * i <= 11 <= 0 + 5 * i + 1.
Proof.
  eexists. split; [vm_compute; reflexivity|].
  apply (@bdi_execute_shape nat nat gw_no dumps_nat exn_text [] "agent" 2 0 11).
  vm_compute. reflexivity.
Defined.

(** X10: [ReActAgent.execute] on a gateway that answers every call: it runs at
    most [max_iterations] iterations, each pass makes one gateway call and
    records at most two steps (thought, action), and at most one more call
    is made for the partial answer. *)
Theorem react_execute_shape {Value Json : Type} (gateway : nat -> res string)
    (json_loads : string -> res Json) (is_decode_error : exn -> bool)
    (json_dumps : Value -> res string) (exn_str : exn -> string)
    (tools : list (tool Value Json)) (aid : string) (k n n' : nat) (res0 : agent_result)
    (H : react_execute gateway json_loads is_decode_error json_dumps exn_str tools aid k n
           = Ok (res0, n')) :
  exists i, dict_get "iterations" (metadata res0) = Some (MNat i) /\ i <= k /\
    length (intermediate_steps res0) <= 2 * i /\ n + i <= n' <= n + i + 1.
Proof.
  unfold react_execute in H. apply mbind_inv in H as ([[[it d] fa] st] & n1 & HL & H).
  apply react_loop_shape in HL as (p & -> & -> & Hl & Hk). simpl in Hl, Hk.
  destruct d; cbv beta iota zeta in H.
  - cbv [mbind ret] in H. injection H as <- <-.
    exists p. simpl. repeat split; lia.
  - cbv [mbind ret generate] in H. destruct (gateway (n + p)); [|discriminate].
    injection H as <- <-. exists p. simpl. repeat split; lia.
Qed.

Lemma react_execute_shape_witness :
  exists res0, react_execute gw_no no_json (fun _ => true) dumps_nat exn_text
                 ([] : list (tool nat nat)) "agent" 3 0 = Ok (res0, 4) /\
  exists i, dict_get "iterations" (metadata res0) = Some (MNat i) /\ i <= 3 /\
    length (intermediate_steps res0) <= 2 * i /\ 0 + i <= 4 <= 0 + i + 1.
Proof.
  eexists. split; [vm_compute; reflexivity|].
  apply (react_execute_shape gw_no no_json (fun _ => true) dumps_nat exn_text [] "agent" 3 0 4).
  vm_compute. reflexivity.
Defined.

(** X11: [OODAAgent.execute] when no completion check says yes (the
    check is the fourth call of each pass): for every [max_iterations] k it
    runs all k iterations (4k gateway calls and 4k steps), then makes one
    more call whose reply, after the marker, is the output. *)
Theorem ooda_budget_exhausted {Value Json : Type} (gateway : nat -> res string)
    (json_dumps : Value -> res string) (exn_str : exn -> string)
    (tools : list (tool Value Json)) (aid : string) (k n : nat)
    (Hok : forall i, exists r, gateway i = Ok r)
    (Hcheck : forall j r, j < k -> gateway (n + 4 * j + 3) = Ok r -> completion_signal r = false) :
  exists r res0, gateway (n + 4 * k) = Ok r /\
    ooda_execute gateway json_dumps exn_str tools aid k n = Ok (res0, S (n + 4 * k)) /\
    output res0 = (not_completed ++ r)%string /\
    dict_get "iterations" (metadata res0) = Some (MNat k) /\
    length (intermediate_steps res0) = 4 * k.
Proof.
  destruct (ooda_loop_never gateway json_dumps exn_str tools k Hok k 0 "" []
              n ltac:(lia) ltac:(lia)) as (fa' & st' & HL).
  { rewrite Nat.sub_0_r. exact Hcheck. }
  rewrite Nat.sub_0_r in HL.
  pose proof (ooda_loop_shape gateway json_dumps exn_str tools k k _ _ _ _ _ _ _ _ _ _ HL)
    as (_ & _ & Hl & _). simpl in Hl.
  destruct (Hok (n + 4 * k)) as [r E].
  exists r. eexists. split; [exact E|].
  unfold ooda_execute. cbv [mbind]. rewrite HL. cbv beta iota zeta delta [ret generate].
  rewrite E. split; [reflexivity|]. simpl. repeat split; lia.
Qed.

Lemma gw_no_no_signal : forall i r, gw_no i = Ok r -> completion_signal r = false.
Proof. intros i r E. injection E as <-. vm_compute. reflexivity. Qed.

Lemma gw_no_no_final_answer : forall i r, gw_no i = Ok r -> r_final_answer (react_parse r) = EmptyString.
Proof. intros i r E. injection E as <-. vm_compute. reflexivity. Qed.

Lemma ooda_budget_exhausted_witness :
  (forall i, exists r, gw_no i = Ok r) /\
  (forall j r, j < 3 -> gw_no (0 + 4 * j + 3) = Ok r -> completion_signal r = false) /\
  exists r res0, gw_no (0 + 4 * 3) = Ok r /\
    ooda_execute gw_no dumps_nat exn_text ([] : list (tool nat nat)) "agent" 3 0
      = Ok (res0, S (0 + 4 * 3)) /\
    output res0 = (not_completed ++ r)%string /\
    dict_get "iterations" (metadata res0) = Some (MNat 3) /\
    length (intermediate_steps res0) = 4 * 3.
Proof.
  split; [exact gw_no_ok|]. split; [intros j r _; apply gw_no_no_signal|].
  exact (@ooda_budget_exhausted nat nat gw_no dumps_nat exn_text [] "agent" 3 0 gw_no_ok
           (fun j r _ => gw_no_no_signal _ r)).
Defined.

(** X12: [BDIAgent.execute] when no completion check says yes (the fifth
    call of each pass): all k iterations run (5k gateway calls and 5k
    steps), then one more call gives the partial answer after the marker. *)
Theorem bdi_budget_exhausted {Value Json : Type} (gateway : nat -> res string)
    (json_dumps : Value -> res string) (exn_str : exn -> string)
    (tools : list (tool Value Json)) (aid : string) (k n : nat)
    (Hok : forall i, exists r, gateway i = Ok r)
    (Hcheck : forall j r, j < k -> gateway (n + 5 * j + 4) = Ok r -> completion_signal r = false) :
  exists r res0, gateway (n + 5 * k) = Ok r /\
    bdi_execute gateway json_dumps exn_str tools aid k n = Ok (res0, S (n + 5 * k)) /\
    output res0 = (not_completed ++ r)%string /\
    dict_get "iterations" (metadata res0) = Some (MNat k) /\
    length (intermediate_steps res0) = 5 * k.
Proof.
  destruct (bdi_loop_never gateway json_dumps exn_str tools k Hok k 0 "" []
              n ltac:(lia) ltac:(lia)) as (fa' & st' & HL).
  { rewrite Nat.sub_0_r. exact Hcheck. }
  rewrite Nat.sub_0_r in HL.
  pose proof (bdi_loop_shape gateway json_dumps exn_str tools k k _ _ _ _ _ _ _ _ _ _ HL)
    as (_ & _ & Hl & _). simpl in Hl.
  destruct (Hok (n + 5 * k)) as [r E].
  exists r. eexists. split; [exact E|].
  unfold bdi_execute. cbv [mbind]. rewrite HL. cbv beta iota zeta delta [ret generate].
  rewrite E. split; [reflexivity|]. simpl. repeat split; lia.
Qed.

Lemma bdi_budget_exhausted_witness :
  (forall i, exists r, gw_no i = Ok r) /\
  (forall j r, j < 3 -> gw_no (0 + 5 * j + 4) = Ok r -> completion_signal r = false) /\
  exists r res0, gw_no (0 + 5 * 3) = Ok r /\
    bdi_execute gw_no dumps_nat exn_text ([] : list (tool nat nat)) "agent" 3 0
      = Ok (res0, S (0 + 5 * 3)) /\
    output res0 = (not_completed ++ r)%string /\
    dict_get "iterations" (metadata res0) = Some (MNat 3) /\
    length (intermediate_steps res0) = 5 * 3.
Proof.
  split; [exact gw_no_ok|]. split; [intros j r _; apply gw_no_no_signal|].
  exact (@bdi_budget_exhausted nat nat gw_no dumps_nat exn_text [] "agent" 3 0 gw_no_ok
           (fun j r _ => gw_no_no_signal _ r)).
Defined.

(** X13: [ReActAgent.execute] when none of the replies of the loop carries a
    final answer: it makes k passes (one gateway call each), reports k
    iterations and records at most 2k steps; one more call gives the partial
    answer after the marker. *)
Theorem react_budget_exhausted {Value Json : Type} (gateway : nat -> res string)
    (json_loads : string -> res Json) (is_decode_error : exn -> bool)
    (json_dumps : Value -> res string) (exn_str : exn -> string)
    (tools : list (tool Value Json)) (aid : string) (k n : nat)
    (Hok : forall i, exists r, gateway i = Ok r)
    (Hfa : forall j r, j < k -> gateway (n + j) = Ok r -> r_final_answer (react_parse r) = EmptyString) :
  exists r res0, gateway (n + k) = Ok r /\
    react_execute gateway json_loads is_decode_error json_dumps exn_str tools aid k n
      = Ok (res0, S (n + k)) /\
    output res0 = (not_completed ++ r)%string /\
    dict_get "iterations" (metadata res0) = Some (MNat k) /\
    length (intermediate_steps res0) <= 2 * k.
Proof.
  destruct (react_loop_never gateway json_loads is_decode_error json_dumps exn_str tools k
              Hok k 0 "" [] n ltac:(lia) ltac:(lia)) as (st' & HL).
  { rewrite Nat.sub_0_r. exact Hfa. }
  rewrite Nat.sub_0_r in HL.
  pose proof (react_loop_shape gateway json_loads is_decode_error json_dumps exn_str tools k k
                _ _ _ _ _ _ _ _ _ _ HL) as (p & Hp & _ & Hl & _). simpl in Hl.
  destruct (Hok (n + k)) as [r E].
  exists r. eexists. split; [exact E|].
  unfold react_execute. cbv [mbind]. rewrite HL. cbv beta iota zeta delta [ret generate].
  rewrite E. split; [reflexivity|]. simpl. repeat split; lia.
Qed.

Lemma react_budget_exhausted_witness :
  (forall i, exists r, gw_no i = Ok r) /\
  (forall j r, j < 3 -> gw_no (0 + j) = Ok r -> r_final_answer (react_parse r) = EmptyString) /\
  exists r res0, gw_no (0 + 3) = Ok r /\
    react_execute gw_no no_json (fun _ => true) dumps_nat exn_text ([] : list (tool nat nat))
      "agent" 3 0 = Ok (res0, S (0 + 3)) /\
    output res0 = (not_completed ++ r)%string /\
    dict_get "iterations" (metadata res0) = Some (MNat 3) /\
    length (intermediate_steps res0) <= 2 * 3.
Proof.
  split; [exact gw_no_ok|]. split; [intros j r _; apply gw_no_no_final_answer|].
  exact (@react_budget_exhausted nat nat gw_no no_json (fun _ => true) dumps_nat exn_text []
           "agent" 3 0 gw_no_ok (fun j r _ => gw_no_no_final_answer _ r)).
Defined.

End AgentExtra.

Module RaiseMore.
Import Py Re Agents RaisePad.

Lemma skipn_nth_error_cons (s : list ascii) i :
  skipn i s = match nth_error s i with Some x => x :: skipn (S i) s | None => [] end.
Proof.
  revert i. induction s as [|a s IH]; intros [|i]; simpl; auto.
Qed.

(** An IGNORECASE literal matches exactly where [prefix_ci] holds. *)
Lemma mt_lit_ci_prefix (w : list ascii) s : forall i c k,
  mt s (fold_right (fun a r => Seq (Cls (fun x => Ascii.eqb (lower_char a) (lower_char x))) r)
                   Eps w) i c k
  = if prefix_ci w (skipn i s) then k (i + length w) c else None.
Proof.
  induction w as [|a w IH]; intros i c k; simpl.
  - rewrite Nat.add_0_r. reflexivity.
  - rewrite (skipn_nth_error_cons s i). destruct (nth_error s i) as [x|]; [|reflexivity].
    simpl. destruct (Ascii.eqb (lower_char a) (lower_char x)); simpl; [|reflexivity].
    rewrite IH. replace (S i + length w) with (i + S (length w)) by lia. reflexivity.
Qed.

Lemma first_some_None {A B : Type} (f : A -> option B) l :
  first_some f l = None <-> forall x, In x l -> f x = None.
Proof.
  induction l as [|x l IH]; simpl; [tauto|].
  destruct (f x) as [y|] eqn:E; split.
  - discriminate.
  - intros H. rewrite (H x (or_introl eq_refl)) in E. discriminate.
  - intros H z [<-|Hz]; [exact E|apply IH; auto].
  - intros H. apply IH. auto.
Qed.

Lemma search_lit_ci_None w s :
  search (lit_ci w) s = None <->
  forall i, i <= length s -> prefix_ci (list_ascii_of_string w) (skipn i s) = false.
Proof.
  unfold search, search_from, lit_ci. rewrite first_some_None. split.
  - intros H i Hi. specialize (H i ltac:(apply in_seq; lia)).
    unfold match_at in H. rewrite mt_lit_ci_prefix in H.
    destruct (prefix_ci _ _); [discriminate|reflexivity].
  - intros H i Hi. apply in_seq in Hi. unfold match_at. rewrite mt_lit_ci_prefix, H by lia.
    reflexivity.
Qed.

Lemma prefix_ci_lower w l :
  prefix_ci w l = prefix_b (map lower_char w) (map lower_char l).
Proof.
  revert l. induction w as [|a w IH]; intros [|b l]; simpl; auto.
  rewrite IH. reflexivity.
Qed.

Lemma contains_false sub s :
  contains sub s = false <->
  forall i, i <= length (list_ascii_of_string s) ->
    prefix_b (list_ascii_of_string sub) (skipn i (list_ascii_of_string s)) = false.
Proof.
  unfold contains. rewrite <- Bool.not_true_iff_false, existsb_exists. split.
  - intros H i Hi. apply Bool.not_true_iff_false. intros E. apply H.
    exists i. split; [apply in_seq; lia|exact E].
  - intros H [i [Hi E]]. apply in_seq in Hi. rewrite H in E by lia. discriminate.
Qed.

Lemma list_lower s : list_ascii_of_string (lower s) = map lower_char (list_ascii_of_string s).
Proof. unfold lower. apply list_ascii_of_string_of_list_ascii. Qed.

(** The IGNORECASE search for a literal fails exactly when the lower-cased
    literal does not occur in the lower-cased text. *)
Lemma search_lit_ci_contains w s :
  search (lit_ci w) (list_ascii_of_string s) = None <-> contains (lower w) (lower s) = false.
Proof.
  rewrite search_lit_ci_None, contains_false, !list_lower, length_map.
  setoid_rewrite prefix_ci_lower. setoid_rewrite <- skipn_map. reflexivity.
Qed.

Lemma split_once_aux_None sep l : forall b,
  (forall i, i <= length l -> prefix_b sep (skipn i l) = false) ->
  split_once_aux sep l b = None.
Proof.
  induction l as [|a l IH]; intros b H; simpl.
  - pose proof (H 0 ltac:(simpl; lia)) as H0. simpl in H0. rewrite H0. reflexivity.
  - pose proof (H 0 ltac:(simpl; lia)) as H0. simpl in H0. rewrite H0. apply IH. intros i Hi. apply (H (S i)). simpl. lia.
Qed.

Lemma split_once_aux_first sep l1 l2 : forall b,
  (forall i, i < length l1 -> prefix_b sep (skipn i (l1 ++ l2)) = false) ->
  prefix_b sep l2 = true ->
  split_once_aux sep (l1 ++ l2) b = Some (rev b ++ l1, skipn (length sep) l2).
Proof.
  induction l1 as [|a l1 IH]; intros b H H2; simpl.
  - destruct l2; simpl in *; rewrite H2, app_nil_r; reflexivity.
  - pose proof (H 0 ltac:(simpl; lia)) as H0. simpl in H0. rewrite H0. rewrite IH.
    + simpl. rewrite <- app_assoc. reflexivity.
    + intros i Hi. apply (H (S i)). simpl. lia.
    + exact H2.
Qed.

Lemma prefix_b_app_long p l1 l2 :
  length p <= length l1 -> prefix_b p (l1 ++ l2) = prefix_b p l1.
Proof.
  revert l1. induction p as [|a p IH]; intros [|b l1] H; simpl in *; try lia; auto.
  rewrite IH by lia. reflexivity.
Qed.

Lemma prefix_b_refl p l : prefix_b p (p ++ l) = true.
Proof. induction p as [|a p IH]; simpl; [reflexivity|]. rewrite Ascii.eqb_refl. exact IH. Qed.

Lemma prefix_ci_refl p l : prefix_ci p (p ++ l) = true.
Proof. induction p as [|a p IH]; simpl; [reflexivity|]. rewrite Ascii.eqb_refl. exact IH. Qed.

(** No occurrence of [sep0 ++ [z]] in [l1 ++ sep0] means none starts
    inside [l1] in [l1 ++ sep0 ++ z :: l3]. *)
Lemma no_earlier sep0 z l1 l3 :
  (forall i, i <= length (l1 ++ sep0) -> prefix_b (sep0 ++ [z]) (skipn i (l1 ++ sep0)) = false) ->
  forall i, i < length l1 -> prefix_b (sep0 ++ [z]) (skipn i (l1 ++ sep0 ++ z :: l3)) = false.
Proof.
  intros H i Hi.
  replace (l1 ++ sep0 ++ z :: l3) with ((l1 ++ sep0) ++ z :: l3) by (rewrite <- app_assoc; reflexivity).
  rewrite skipn_app, (proj2 (Nat.sub_0_le i (length (l1 ++ sep0)))) by (rewrite length_app; lia).
  simpl. rewrite prefix_b_app_long.
  - apply H. rewrite length_app. lia.
  - rewrite length_skipn, !length_app. simpl. lia.
Qed.

Lemma str_app_assoc (a b c : string) : ((a ++ b) ++ c)%string = (a ++ (b ++ c))%string.
Proof. induction a as [|x a IH]; [reflexivity|]. exact (f_equal (String x) IH). Qed.

Lemma las_app (a b : string) :
  list_ascii_of_string (a ++ b)%string = list_ascii_of_string a ++ list_ascii_of_string b.
Proof. induction a as [|x a IH]; [reflexivity|]. exact (f_equal (cons x) IH). Qed.

Lemma las_length (a : string) : length (list_ascii_of_string a) = String.length a.
Proof. induction a as [|x a IH]; simpl; congruence. Qed.

(** [x.split(sep, 1)] when [sep] (ending in the character [z]) first occurs
    right after [x]. *)
Lemma split_once_first (x sep0 : string) (z : ascii) (y : string) :
  contains (sep0 ++ String z EmptyString) (x ++ sep0) = false ->
  split_once (x ++ sep0 ++ String z y) (sep0 ++ String z EmptyString) = Some (x, y).
Proof.
  intros H. rewrite contains_false, !las_app in H. simpl in H.
  unfold split_once. rewrite !las_app. simpl.
  rewrite split_once_aux_first.
  - simpl. set (ls := list_ascii_of_string sep0).
    replace (S (length ls)) with (length (ls ++ [z])) by (rewrite length_app; simpl; lia).
    replace (ls ++ z :: list_ascii_of_string y) with ((ls ++ [z]) ++ list_ascii_of_string y)
      by (rewrite <- app_assoc; reflexivity).
    rewrite skipn_app, skipn_all, Nat.sub_diag, skipn_0. simpl.
    rewrite !string_of_list_ascii_of_string. reflexivity.
  - intros i Hi.
    exact (no_earlier _ z _ (list_ascii_of_string y) H i Hi).
  - pose proof (prefix_b_refl (list_ascii_of_string sep0 ++ [z]) (list_ascii_of_string y)) as P. rewrite <- app_assoc in P. exact P.
Qed.

End RaiseMore.

Module RaiseExtra.
Import Py Re Agents RaisePad RaiseMore.

Lemma section_header_eq s :
  section_header s = (("## " ++ s) ++ String "010" EmptyString)%string.
Proof. unfold section_header. rewrite str_app_assoc. reflexivity. Qed.

Lemma split_at_header p0 s y :
  contains (section_header s) (p0 ++ "## " ++ s) = false ->
  split_once (p0 ++ section_header s ++ y) (section_header s) = Some (p0, y).
Proof.
  intros H. rewrite section_header_eq in *.
  replace (p0 ++ (("## " ++ s) ++ String "010" EmptyString) ++ y)%string
    with (p0 ++ ("## " ++ s) ++ String "010" y)%string by (rewrite !str_app_assoc; reflexivity).
  apply split_once_first. exact H.
Qed.

Lemma search_header_found p0 s y :
  search (lit_ci (section_header s)) (list_ascii_of_string (p0 ++ section_header s ++ y)) <> None.
Proof.
  intros E. pose proof (proj1 (search_lit_ci_None _ _) E (length (list_ascii_of_string p0))) as F.
  rewrite !las_app, length_app in F.
  rewrite skipn_app, skipn_all, Nat.sub_diag, skipn_0, app_nil_l, prefix_ci_refl in F.
  discriminate (F ltac:(lia)).
Qed.









End RaiseExtra.

Module ReWOOMore.
Import Py Re Parser Agents ReWOO AgentFacts AgentMore RaiseMore.

Lemma mt_seq s r1 r2 i c k : mt s (Seq r1 r2) i c k = mt s r1 i c (fun j c' => mt s r2 j c' k).
Proof. reflexivity. Qed.

(** A continuation that always fails makes every pattern fail. *)
Lemma mt_none s r : forall i c k, (forall j c', k j c' = None) -> mt s r i c k = None.
Proof.
  induction r as [| p | p lo g | r1 IH1 r2 IH2 | r1 IH1 r2 IH2 | r1 IH1 | gr r1 IH1 | r1 IH1 |];
    intros i c k Hk; simpl.
  - apply Hk.
  - destruct (nth_error s i); [destruct (p a)|]; auto.
  - apply first_some_None. intros m _. apply Hk.
  - apply IH1. intros j c'. apply IH2, Hk.
  - rewrite IH1, IH2 by exact Hk. reflexivity.
  - rewrite IH1 by exact Hk. apply Hk.
  - apply IH1. intros j c'. apply Hk.
  - destruct (mt s r1 i c _) as [[j c']|]; [apply Hk|reflexivity].
  - destruct (at_end s i); auto.
Qed.

Lemma rep1_none p g s i c k :
  (forall a, In a s -> p a = false) -> mt s (Rep p 1 g) i c k = None.
Proof.
  intros H. simpl. assert (E : run_len p (skipn i s) = 0).
  { destruct (skipn i s) as [|a l] eqn:Es; [reflexivity|]. simpl.
    rewrite H; [reflexivity|]. rewrite <- (firstn_skipn i s). apply in_or_app. right.
    rewrite Es. left. reflexivity. }
  rewrite E. destruct g; reflexivity.
Qed.

Lemma cls_none p s i c k :
  (forall a, In a s -> p a = false) -> mt s (Cls p) i c k = None.
Proof.
  intros H. simpl. destruct (nth_error s i) as [a|] eqn:E; [|reflexivity].
  rewrite H; [reflexivity|]. eapply nth_error_In. exact E.
Qed.

Section Marker.
Variable bullet : ascii -> bool.

(** Every task pattern needs a digit, a ["-"] or a [•]. *)
Definition no_task_marker (text : string) : bool :=
  forallb (fun a => negb (is_digit a) && negb (Ascii.eqb "-" a) && negb (bullet a))
    (list_ascii_of_string text).

Lemma no_task_marker_spec text :
  no_task_marker text = true ->
  (forall a, In a (list_ascii_of_string text) -> is_digit a = false) /\
  (forall a, In a (list_ascii_of_string text) -> Ascii.eqb "-" a = false) /\
  (forall a, In a (list_ascii_of_string text) -> bullet a = false).
Proof.
  unfold no_task_marker. rewrite forallb_forall. intros H.
  split; [|split]; intros a Ha; specialize (H a Ha); apply andb_prop in H as [H H3];
    apply andb_prop in H as [H1 H2]; apply negb_true_iff; assumption.
Qed.

Ltac through := rewrite mt_seq; apply mt_none; intros ? ?.

Lemma task_patterns_fail text :
  no_task_marker text = true ->
  forall r, In r (task_patterns bullet) ->
  forall i c k, mt (list_ascii_of_string text) r i c k = None.
Proof.
  intros H. apply no_task_marker_spec in H as (Hd & Hm & Hb).
  intros r Hr i c k. unfold task_patterns in Hr.
  destruct Hr as [<-|[<-|[<-|[<-|[<-|[<-|[]]]]]]]; cbn [seqs].
  - through. through. rewrite mt_seq. apply rep1_none, Hd.
  - through. through. rewrite mt_seq. apply rep1_none, Hd.
  - rewrite mt_seq. apply rep1_none, Hd.
  - rewrite mt_seq. unfold lit. cbn [list_ascii_of_string fold_right].
    rewrite mt_seq. apply cls_none, Hm.
  - rewrite mt_seq. apply cls_none, Hb.
  - through. through. rewrite mt_seq. apply rep1_none, Hd.
Qed.

End Marker.

Lemma findall_none r text :
  (forall i c k, mt (list_ascii_of_string text) r i c k = None) -> findall r text = [].
Proof.
  intros H. unfold findall, finditer. cbn [finditer_fuel].
  unfold search_from. rewrite (proj2 (first_some_None _ _)); [reflexivity|].
  intros i _. unfold match_at. rewrite H. reflexivity.
Qed.

Lemma try_patterns_none ps text nw :
  (forall r, In r ps -> findall r text = []) -> try_patterns ps text nw = None.
Proof.
  induction ps as [|r ps IH]; intros H; simpl; [reflexivity|].
  rewrite (H r (or_introl eq_refl)). simpl. apply IH. intros r' Hr'. apply H. right. exact Hr'.
Qed.

Lemma try_patterns_no_marker bullet text nw :
  no_task_marker bullet text = true -> try_patterns (task_patterns bullet) text nw = None.
Proof.
  intros H. apply try_patterns_none. intros r Hr. apply findall_none.
  exact (task_patterns_fail bullet text H r Hr).
Qed.

Lemma try_patterns_some ps text nw ts :
  try_patterns ps text nw = Some ts -> length ts <= nw /\ Forall (fun t => t <> EmptyString) ts.
Proof.
  induction ps as [|r ps IH]; simpl; [discriminate|].
  destruct (nonempty_list (findall r text)); [|exact IH].
  destruct (nonempty_list (clean_tasks (findall r text))) eqn:Ec; [|exact IH].
  intros E. injection E as <-. split; [rewrite length_firstn; lia|].
  apply Forall_take. unfold clean_tasks. apply List.Forall_forall.
  intros t Ht. apply in_map_iff in Ht as [u [<- Hu]]. apply filter_In in Hu as [_ Hu].
  intros E. rewrite E in Hu. discriminate.
Qed.

Lemma create_default_tasks_shape task nw :
  length (create_default_tasks task nw) = nw /\
  Forall (fun t => t <> EmptyString) (create_default_tasks task nw).
Proof.
  unfold create_default_tasks. rewrite length_map, length_seq. split; [reflexivity|].
  apply List.Forall_forall. intros t Ht. apply in_map_iff in Ht as [[|[|i]] [<- _]]; discriminate.
Qed.

Lemma run_workers_spec (gateway : nat -> res string) ts : forall m rs m',
  run_workers gateway ts m = Ok (rs, m') ->
  length rs = length ts /\ m' = m + length ts /\
  forall j x, nth_error rs j = Some x -> gateway (m + j) = Ok x.
Proof.
  induction ts as [|t ts IH]; intros m rs m' H; simpl in H.
  - injection H as <- <-. simpl. split; [reflexivity|]. split; [lia|]. intros [|j] x E; discriminate.
  - apply mbind_inv in H as (x & m1 & G & H). apply generate_inv in G as [G ->].
    apply mbind_inv in H as (rest & m2 & HR & H). injection H as <- <-.
    apply IH in HR as (L & -> & HN). simpl. split; [congruence|]. split; [lia|].
    intros [|j] y E; simpl in E.
    + injection E as <-. rewrite Nat.add_0_r. exact G.
    + rewrite <- (HN j y E). f_equal. lia.
Qed.

End ReWOOMore.

Module ReWOOExtra.
Import Py Re Parser Agents ReWOO AgentFacts AgentMore ReWOOMore.

Lemma run_workers_total (gateway : nat -> res string) (Hok : forall i, exists r, gateway i = Ok r) ts :
  forall m, exists rs, run_workers gateway ts m = Ok (rs, m + length ts).
Proof.
  induction ts as [|t ts IH]; intros m; simpl.
  - exists []. rewrite Nat.add_0_r. reflexivity.
  - destruct (Hok m) as [x E]. destruct (IH (S m)) as [rs E'].
    exists (x :: rs). cbv [mbind generate]. rewrite E, E'. cbv [ret].
    rewrite Nat.add_succ_r. reflexivity.
Qed.

Lemma assign_worker_tasks_inv bullet gateway task plan nw n ts n' :
  assign_worker_tasks bullet gateway task plan nw n = Ok (ts, n') ->
  length ts <= nw /\ Forall (fun t => t <> EmptyString) ts /\ (n' = n \/ n' = S n).
Proof.
  unfold assign_worker_tasks.
  destruct (try_patterns (task_patterns bullet) plan nw) as [ts0|] eqn:E1.
  - intros H. injection H as <- <-. apply try_patterns_some in E1. tauto.
  - intros H. apply mbind_inv in H as (ext & m & G & H). apply generate_inv in G as [_ ->].
    destruct (try_patterns (task_patterns bullet) ext nw) as [ts0|] eqn:E2.
    + injection H as <- <-. apply try_patterns_some in E2. tauto.
    + injection H as <- <-. destruct (create_default_tasks_shape task nw) as [L F].
      rewrite L. split; [lia|]. tauto.
Qed.

(** X19: [ReWOOAgent.execute]: the plan is the reply to the first call; the
    workers' results are the replies to consecutive calls, one per task, in
    task order, after the plan call and the optional extraction call; the
    output is the reply to the last call, right after the workers. *)
Theorem rewoo_execute_shape (bullet : ascii -> bool) (gateway : nat -> res string)
    aid task depth style nw n r n'
    (H : rewoo_execute bullet gateway aid task depth style nw n = Ok (r, n')) :
  gateway n = Ok (rr_plan r) /\
  length (rr_worker_tasks r) <= nw /\ Forall (fun t => t <> EmptyString) (rr_worker_tasks r) /\
  length (rr_worker_results r) = length (rr_worker_tasks r) /\
  exists m, (m = S n \/ m = S (S n)) /\
    (forall j x, nth_error (rr_worker_results r) j = Some x -> gateway (m + j) = Ok x) /\
    gateway (m + length (rr_worker_tasks r)) = Ok (rr_output r) /\
    n' = S (m + length (rr_worker_tasks r)).
Proof.
  unfold rewoo_execute in H.
  apply mbind_inv in H as (plan & n1 & G1 & H). apply generate_inv in G1 as [G1 ->].
  apply mbind_inv in H as (ts & n2 & HA & H).
  apply assign_worker_tasks_inv in HA as (L & F & Hn2).
  apply mbind_inv in H as (rs & n3 & HW & H).
  apply run_workers_spec in HW as (LW & -> & HN).
  apply mbind_inv in H as (sol & n4 & G2 & H). apply generate_inv in G2 as [G2 ->].
  cbv [ret] in H. injection H as <- <-. cbn.
  split; [exact G1|]. split; [exact L|]. split; [exact F|]. split; [exact LW|].
  exists n2. split; [lia|]. split; [exact HN|]. split; [exact G2|reflexivity].
Qed.

(** A test for [•] used in the examples: the 8-bit code 149. *)
Definition bullet149 (a : ascii) : bool := Ascii.eqb a "149"%char.

Lemma rewoo_execute_shape_witness :
  exists r, rewoo_execute bullet149 (fun _ => Ok "no") "a" "t" (MStr "deep") "s" 2 0 = Ok (r, 5) /\
  (fun _ => Ok "no") 0 = Ok (rr_plan r) /\
  length (rr_worker_tasks r) <= 2 /\ Forall (fun t => t <> EmptyString) (rr_worker_tasks r) /\
  length (rr_worker_results r) = length (rr_worker_tasks r) /\
  exists m, (m = 1 \/ m = 2) /\
    (forall j x, nth_error (rr_worker_results r) j = Some x -> (fun _ => Ok "no") (m + j) = Ok x) /\
    (fun _ => Ok "no") (m + length (rr_worker_tasks r)) = Ok (rr_output r) /\
    5 = S (m + length (rr_worker_tasks r)).
Proof.
  eexists. split; [vm_compute; reflexivity|].
  apply (rewoo_execute_shape bullet149 (fun _ => Ok "no") "a" "t" (MStr "deep") "s" 2 0).
  vm_compute. reflexivity.
Defined.

(** X20: When neither the plan nor the extraction reply holds a digit, a
    ["-"] or a [•], no task pattern matches and [ReWOOAgent.execute] falls
    back to the [num_workers] default tasks, making [num_workers + 3]
    gateway calls. *)
Theorem rewoo_default_tasks (bullet : ascii -> bool) (gateway : nat -> res string)
    aid task depth style nw n plan ext
    (Hok : forall i, exists r, gateway i = Ok r)
    (Hplan : gateway n = Ok plan) (Hext : gateway (S n) = Ok ext)
    (Hp : no_task_marker bullet plan = true) (He : no_task_marker bullet ext = true) :
  exists r, rewoo_execute bullet gateway aid task depth style nw n = Ok (r, n + nw + 3) /\
    rr_worker_tasks r = create_default_tasks task nw /\ length (rr_worker_results r) = nw.
Proof.
  destruct (run_workers_total gateway Hok (create_default_tasks task nw) (S (S n))) as [rs Hrs].
  pose proof (run_workers_spec gateway _ _ _ _ Hrs) as (LW & _ & _).
  destruct (create_default_tasks_shape task nw) as [L _]. rewrite L in Hrs, LW.
  destruct (Hok (S (S n) + nw)) as [sol Hsol].
  eexists. unfold rewoo_execute. cbv [mbind generate]. rewrite Hplan.
  unfold assign_worker_tasks. rewrite (try_patterns_no_marker bullet plan nw Hp).
  cbv [mbind generate]. rewrite Hext. rewrite (try_patterns_no_marker bullet ext nw He).
  cbv [ret]. rewrite Hrs. rewrite Hsol.
  replace (S (S (S n) + nw)) with (n + nw + 3) by lia.
  split; [reflexivity|]. split; [reflexivity|exact LW].
Qed.

Lemma rewoo_default_tasks_witness :
  (forall i, exists r, (fun _ : nat => Ok "no") i = Ok r) /\
  no_task_marker bullet149 "no" = true /\
  exists r, rewoo_execute bullet149 (fun _ => Ok "no") "a" "t" (MStr "deep") "s" 2 0
              = Ok (r, 0 + 2 + 3) /\
    rr_worker_tasks r = create_default_tasks "t" 2 /\ length (rr_worker_results r) = 2.
Proof.
  split; [intros i; exists "no"; reflexivity|]. split; [reflexivity|].
  apply (rewoo_default_tasks bullet149 (fun _ => Ok "no") "a" "t" (MStr "deep") "s" 2 0 "no" "no");
    [intros i; exists "no"; reflexivity|reflexivity..].
Defined.

(** With [•] at code 149, a plan that lists one bullet task yields that task
    alone: the fifth pattern matches, and three gateway calls are made. *)
Lemma rewoo_bullet_plan :
  exists r, rewoo_execute bullet149 (fun i => Ok (if i =? 0 then String "149"%char " a" else "no"))
              "a" "t" (MStr "deep") "s" 2 0 = Ok (r, 3) /\
    rr_worker_tasks r = ["a"].
Proof. eexists. split; [vm_compute; reflexivity|reflexivity]. Qed.

End ReWOOExtra.

Module ToolRegistryExtra.
Import Py Agents ToolRegistry.

Section Props.
Context {Value Json : Type}.

Lemma dict_get_set {V : Type} (k name : string) (v : V) d :
  dict_get name (dict_set k v d) = if String.eqb name k then Some v else dict_get name d.
Proof.
  induction d as [|[k' v'] d IH]; simpl.
  - destruct (String.eqb name k); reflexivity.
  - destruct (String.eqb k k') eqn:E1; simpl.
    + apply String.eqb_eq in E1 as <-. destruct (String.eqb name k); reflexivity.
    + rewrite IH. destruct (String.eqb name k) eqn:E2; [|reflexivity].
      apply String.eqb_eq in E2 as ->. rewrite E1. reflexivity.
Qed.

(** X21: [ToolRegistry.get] after [register]: the registered tool under its own
    name, every other name unaffected. *)
Theorem register_get (r : @registry Value Json) (t : tool Value Json) (name : string) :
  get (register r t) name = if String.eqb name (tool_name t) then Some t else get r name.
Proof. unfold get, register. apply dict_get_set. Qed.

(** X22: [ToolRegistry.list] after [register]: a new name adds the tool at the
    end; a name already registered keeps the number of tools (the entry is
    replaced in place); either way the tool is listed. *)
Theorem register_list (r : @registry Value Json) (t : tool Value Json) :
  In t (list_tools (register r t)) /\
  match get r (tool_name t) with
  | None => list_tools (register r t) = list_tools r ++ [t]
  | Some _ => length (list_tools (register r t)) = length (list_tools r)
  end.
Proof.
  unfold list_tools, register, get. generalize (tool_name t) as k.
  induction r as [|[k' u] r IH]; intros k; simpl.
  - split; [left; reflexivity|reflexivity].
  - destruct (String.eqb k k') eqn:E; simpl.
    + split; [left; reflexivity|reflexivity].
    + destruct (IH k) as [Hin Hm]. split; [right; exact Hin|].
      destruct (dict_get k r); [rewrite length_map in *; simpl; f_equal; exact Hm|].
      f_equal. exact Hm.
Qed.

End Props.

End ToolRegistryExtra.

Module LatExtra.
Import Py Re Parser Agents AgentFacts AgentMore AgentExamples.

Lemma lat_loop_shape (gateway : nat -> res string) md fuel : forall cd path st n path' st' n',
  lat_loop gateway fuel md cd path st n = Ok ((path', st'), n') ->
  exists q, length path' = length path + q /\ q <= fuel /\ (q = 0 \/ cd + q <= md) /\
    (0 < fuel -> cd < md -> 1 <= q) /\ n + 3 * q <= n' <= n + 5 * q.
Proof.
  induction fuel as [|fuel IH]; intros cd path st n path' st' n' H; cbn [lat_loop] in H.
  - cbv [ret] in H. injection H as <- <- <-. exists 0. lia.
  - destruct (cd <? md) eqn:Ec; [|cbv [ret] in H; injection H as <- <- <-;
                                   exists 0; apply Nat.ltb_ge in Ec; lia].
    apply Nat.ltb_lt in Ec.
    apply mbind_inv in H as (sel & n1 & G1 & H). apply generate_inv in G1 as [_ ->].
    apply mbind_inv in H as (ns & n2 & G2 & H). apply generate_inv in G2 as [_ ->].
    apply mbind_inv in H as (st2 & n3 & HS & H).
    assert (Hn3 : n3 = S (S n) \/ n3 = S (S (S (S n)))).
    { destruct (says_yes ns).
      - apply mbind_inv in HS as (x & m1 & G3 & HS). apply generate_inv in G3 as [_ ->].
        apply mbind_inv in HS as (y & m2 & G4 & HS). apply generate_inv in G4 as [_ ->].
        cbv [ret] in HS. injection HS as _ <-. right. reflexivity.
      - cbv [ret] in HS. injection HS as _ <-. left. reflexivity. }
    apply mbind_inv in H as (term & n4 & G5 & H). apply generate_inv in G5 as [_ ->].
    destruct (says_yes term).
    + cbv [ret] in H. injection H as <- <- <-. exists 1.
      rewrite length_app. simpl. lia.
    + apply IH in H as (q & Hl & Hq & Hd & _ & Hn). rewrite length_app in Hl. simpl in Hl.
      exists (S q). lia.
Qed.

(** X14: [LATAgent.execute] on a gateway that answers: the reported
    [path_length] is at most [max_depth] and at least one when [max_depth]
    is positive; each step of the path costs three to five gateway calls,
    besides the tree, best-path and output calls; the output is the reply to
    the last call. *)
Theorem lat_execute_shape (gateway : nat -> res string) aid md strategy n r n'
    (H : lat_execute gateway aid md strategy n = Ok (r, n')) :
  exists p, dict_get "path_length" (metadata r) = Some (MNat p) /\ p <= md /\
    (0 < md -> 1 <= p) /\ n + 3 + 3 * p <= n' <= n + 3 + 5 * p /\
    gateway (pred n') = Ok (output r).
Proof.
  unfold lat_execute in H.
  apply mbind_inv in H as (tree & n1 & G1 & H). apply generate_inv in G1 as [_ ->].
  apply mbind_inv in H as ([path st] & n2 & HL & H).
  apply lat_loop_shape in HL as (q & Hl & Hq & _ & H1 & Hn). simpl in Hl.
  apply mbind_inv in H as (best & n3 & G2 & H). apply generate_inv in G2 as [_ ->].
  apply mbind_inv in H as (out & n4 & G3 & H). apply generate_inv in G3 as [G3 ->].
  cbv [ret] in H. injection H as <- <-.
  exists q. cbn. rewrite Hl. split; [reflexivity|]. split; [lia|]. split.
  - intros Hmd. apply H1; lia.
  - split; [lia|exact G3].
Qed.

Lemma lat_execute_shape_witness :
  exists r, lat_execute gw_no "agent" 2 "best_first" 0 = Ok (r, 9) /\
  exists p, dict_get "path_length" (metadata r) = Some (MNat p) /\ p <= 2 /\
    (0 < 2 -> 1 <= p) /\ 0 + 3 + 3 * p <= 9 <= 0 + 3 + 5 * p /\
    gw_no (pred 9) = Ok (output r).
Proof.
  eexists. split; [vm_compute; reflexivity|].
  apply (lat_execute_shape gw_no "agent" 2 "best_first" 0). vm_compute. reflexivity.
Defined.

End LatExtra.
